(** * ATS analyzer: a shallow embedding of the deterministic analysis pipeline

    The development follows the layout of the Python package
    [ats_analyzer]: one Rocq module per Python module
    ([core/errors.py], [core/config.py], [core/logging.py], [api/dto.py],
    [api/routes.py], [services/*.py]).

    Modelling conventions.
    - A Python [str] is a list of Unicode code points ([str := list N]);
      [bytes] is a list of byte values.  ASCII literals are written with
      [u "..."].
    - A Python [float] is an IEEE-754 binary64 value: Rocq's primitive
      [float], whose operations round exactly as CPython's do.
    - A Python [int] is a [Z].
    - Code that can raise returns [result A]: [Ok a] or [Raise e], where
      [e] ranges over the subclasses of [Exception] the code can meet.
    - A [dict] with string keys is a [gmap string _].
    - Calls into third-party libraries (PyMuPDF, python-docx, PIL,
      pytesseract, sentence-transformers) are section variables or explicit
      arguments carrying the library's outcome. *)

From Stdlib Require Import ZArith NArith List Bool String Ascii Floats Lia.
From Stdlib Require Import DecimalString.
From stdpp Require Import gmap strings list.
Import ListNotations.

Set Warnings "-inexact-float".
Local Open Scope Z_scope.

(* ===================================================================== *)
(** * The Python runtime fragment the services use *)
(* ===================================================================== *)

Module Py.

(** ** Strings *)

Definition str := list N.
Definition bytes := list N.

(** [u s] reads an ASCII literal as a [str]. *)
Definition u (s : string) : str :=
  List.map N_of_ascii (list_ascii_of_string s).

(** The string made of one line feed. *)
Definition nl : str := [10%N].

Fixpoint str_eqb (a b : str) : bool :=
  match a, b with
  | [], [] => true
  | x :: a', y :: b' => N.eqb x y && str_eqb a' b'
  | _, _ => false
  end.

(** [x in l] for a list of strings. *)
Definition mem (x : str) (l : list str) : bool := List.existsb (str_eqb x) l.

Definition len {A} (l : list A) : Z := Z.of_nat (length l).

(** [s.startswith(p)] *)
Fixpoint startswith (s p : list N) : bool :=
  match p, s with
  | [], _ => true
  | y :: p', x :: s' => N.eqb x y && startswith s' p'
  | _ :: _, [] => false
  end.

(** [needle in s] *)
Fixpoint contains (s needle : str) : bool :=
  startswith s needle ||
  match s with
  | [] => false
  | _ :: s' => contains s' needle
  end.

(** [str.isspace] on one code point: the characters of bidirectional
    type WS, B or S, or of category Zs. *)
Definition isspace (c : N) : bool :=
  ((9 <=? c) && (c <=? 13) || (28 <=? c) && (c <=? 32) ||
   (c =? 133) || (c =? 160) || (c =? 5760) ||
   (8192 <=? c) && (c <=? 8202) || (c =? 8232) || (c =? 8233) ||
   (c =? 8239) || (c =? 8287) || (c =? 12288))%N.

Fixpoint lstrip (s : str) : str :=
  match s with
  | c :: s' => if isspace c then lstrip s' else s
  | [] => []
  end.

Definition rstrip (s : str) : str := rev (lstrip (rev s)).

(** [s.strip()] *)
Definition strip (s : str) : str := rstrip (lstrip s).

(** Truthiness of [s.strip()]. *)
Definition nonblank (s : str) : bool :=
  match lstrip s with [] => false | _ :: _ => true end.

(** [s.lower()], modelled on the ASCII letters: code points outside
    [A-Z] are left as they are. *)
Definition lower_cp (c : N) : N :=
  if ((65 <=? c) && (c <=? 90))%N then (c + 32)%N else c.

Definition lower (s : str) : str := List.map lower_cp s.

(** [c.isdigit()], modelled on the ASCII digits. *)
Definition isdigit (c : N) : bool := ((48 <=? c) && (c <=? 57))%N.

(** [s[:n]] for [0 <= n]. *)
Definition prefix (n : nat) (s : str) : str := firstn n s.

(** [s[a:b]] for [0 <= a] and [0 <= b]. *)
Definition slice (a b : nat) (s : str) : str := firstn (b - a) (skipn a s).

(** [s.count(sub)] for a non-empty [sub]: the non-overlapping
    occurrences, left to right. *)
Fixpoint count_from (fuel : nat) (s sub : str) : Z :=
  match fuel, s with
  | S fuel', _ :: s' =>
      if startswith s sub
      then 1 + count_from fuel' (skipn (length sub) s) sub
      else count_from fuel' s' sub
  | _, _ => 0
  end.

Definition count (s sub : str) : Z := count_from (length s) s sub.

(** [c.isalnum()], modelled on the ASCII letters and digits. *)
Definition isalnum (c : N) : bool :=
  ((48 <=? c) && (c <=? 57) || (65 <=? c) && (c <=? 90) ||
   (97 <=? c) && (c <=? 122))%N.

(** [s.split(sep)] for a one-character separator. *)
Fixpoint split_on (sep : N) (s : str) : list str :=
  match s with
  | [] => [[]]
  | c :: s' =>
      if N.eqb c sep then [] :: split_on sep s'
      else match split_on sep s' with
           | w :: ws => (c :: w) :: ws
           | [] => [[c]]
           end
  end.

(** [s.split()]: maximal runs of non-whitespace. *)
Fixpoint split_ws_aux (cur : str) (s : str) : list str :=
  match s with
  | [] => match cur with [] => [] | _ => [rev cur] end
  | c :: s' =>
      if isspace c
      then match cur with
           | [] => split_ws_aux [] s'
           | _ => rev cur :: split_ws_aux [] s'
           end
      else split_ws_aux (c :: cur) s'
  end.

Definition split (s : str) : list str := split_ws_aux [] s.

(** [sep.join(parts)] *)
Fixpoint join (sep : str) (parts : list str) : str :=
  match parts with
  | [] => []
  | [p] => p
  | p :: ps => p ++ sep ++ join sep ps
  end.

(** ** Exceptions and fallible computations *)

(** The [Exception] subclasses the services raise or may receive from a
    library.  [PyException] stands for any other subclass of
    [Exception]. *)
Inductive exn : Type :=
  | FileProcessingError (message : str)
  | TextExtractionError (message : str)
  | OCRError (message : str)
  | EntityExtractionError (message : str)
  | ScoringError (message : str)
  | ConfigurationError (message : str)
  | TesseractError (message : str)
  | ZeroDivisionError
  | ValueError
  | OverflowError
  | KeyError (key : str)
  | PyException (message : str).

(** [str(e)] *)
Definition exn_str (e : exn) : str :=
  match e with
  | FileProcessingError m | TextExtractionError m | OCRError m
  | EntityExtractionError m | ScoringError m | ConfigurationError m
  | TesseractError m | PyException m => m
  | ZeroDivisionError => u "division by zero"
  | ValueError => u "ValueError"
  | OverflowError => u "OverflowError"
  | KeyError k => k
  end.

Inductive result (A : Type) : Type :=
  | Ok (a : A)
  | Raise (e : exn).
Arguments Ok {A} a.
Arguments Raise {A} e.

#[export] Instance result_ret : MRet result := fun A a => Ok a.
#[export] Instance result_bind : MBind result := fun A B f m =>
  match m with
  | Ok a => f a
  | Raise e => Raise e
  end.

(** [try: body except Exception as e: handler(e)] *)
Definition try_except {A} (body : result A) (handler : exn -> result A)
  : result A :=
  match body with
  | Ok a => Ok a
  | Raise e => handler e
  end.

(** What a handler that ignores the exception keeps of a [try] block:
    its value, or the fact that it raised. *)
Definition caught {A} (r : result A) : option A :=
  match r with Ok a => Some a | Raise _ => None end.

(** ** Numbers *)

(** [float(z)]: the nearest binary64 value, ties to even. *)
Definition Z2F (z : Z) : float :=
  SF2Prim (binary_normalize prec emax z 0 false).

(** [int(x)]: truncation toward zero; [ValueError] on a NaN and
    [OverflowError] on an infinity. *)
Definition int_of_float (x : float) : result Z :=
  match Prim2SF x with
  | S754_zero _ => Ok 0
  | S754_finite s m e =>
      let a := if 0 <=? e then Z.pos m * 2 ^ e else Z.pos m / 2 ^ (- e) in
      Ok (if s then - a else a)
  | S754_nan => Raise ValueError
  | S754_infinity _ => Raise OverflowError
  end.

(** [round(x)] with no digits argument: the nearest integer, ties to the
    even one; [ValueError] on a NaN and [OverflowError] on an infinity. *)
Definition round (x : float) : result Z :=
  match Prim2SF x with
  | S754_zero _ => Ok 0
  | S754_finite s m e =>
      let a :=
        if 0 <=? e then Z.pos m * 2 ^ e
        else
          let d := 2 ^ (- e) in
          let q := Z.pos m / d in
          let r := Z.pos m mod d in
          if 2 * r <? d then q
          else if d <? 2 * r then q + 1
          else if Z.even q then q else q + 1 in
      Ok (if s then - a else a)
  | S754_nan => Raise ValueError
  | S754_infinity _ => Raise OverflowError
  end.

(** [a / b] on two ints (true division).  Both operands are list lengths
    and counters, far below 2^53, where the quotient of the two converted
    operands is the correctly rounded quotient CPython returns. *)
Definition truediv (a b : Z) : result float :=
  if b =? 0 then Raise ZeroDivisionError
  else Ok (Z2F a / Z2F b)%float.

(** [max(0, x)]: Python keeps the first argument unless the second is
    strictly greater. *)
Definition max0 (x : float) : float :=
  if (0 <? x)%float then x else 0%float.

(** [min(a, x)]: Python keeps the first argument unless the second is
    strictly smaller. *)
Definition fmin (a x : float) : float :=
  if (x <? a)%float then x else a.

(** [max(a, x)] *)
Definition fmax (a x : float) : float :=
  if (a <? x)%float then x else a.

(** [len(set(l))] for a list of ints. *)
Fixpoint distinct (l : list Z) : list Z :=
  match l with
  | [] => []
  | x :: l' => if List.existsb (Z.eqb x) l' then distinct l' else x :: distinct l'
  end.

(** [[f(x) for x in l]] when [f] can raise. *)
Fixpoint mapM {A B} (f : A -> result B) (l : list A) : result (list B) :=
  match l with
  | [] => Ok []
  | x :: l' => y ← f x; ys ← mapM f l'; Ok (y :: ys)
  end.

(** [sum(1 for x in l if p x)] *)
Definition count_if {A} (p : A -> bool) (l : list A) : Z :=
  len (List.filter p l).

Definition is_some {A} (o : option A) : bool :=
  match o with Some _ => true | None => false end.

End Py.

Import Py.

(* ===================================================================== *)
(** * The fragment of Python's [re] the services use

    A backtracking matcher with Python's priorities: alternatives are
    tried left to right and repetitions are greedy.  Character classes
    are predicates on code points; [\w] and [\d] are modelled on the
    ASCII word characters and digits.  At most one capturing group is
    tracked (group 1).  An iteration of a repetition that consumes no
    character is not taken: every repeated expression of the patterns
    below consumes at least one. *)
(* ===================================================================== *)

Module Re.

Inductive re : Type :=
  | Eps
  | Chr (p : N -> bool)
  | Cat (r1 r2 : re)
  | Alt (r1 r2 : re)
  | Rep (r : re) (lo : nat) (hi : option nat)
  | WordB
  | Bol
  | Eol
  | Grp (r : re).

(** A position in the subject: the character before it, the text after
    it, and what group 1 holds so far. *)
Record pos : Type := {
  prev : option N;
  rest : str;
  group1 : option str;
}.

Definition start_of (s : str) : pos :=
  {| prev := None; rest := s; group1 := None |}.

(** The position one character further. *)
Definition advance (p : pos) : option pos :=
  match rest p with
  | [] => None
  | c :: s => Some {| prev := Some c; rest := s; group1 := group1 p |}
  end.

Definition isword (c : N) : bool :=
  ((48 <=? c) && (c <=? 57) || (65 <=? c) && (c <=? 90) ||
   (97 <=? c) && (c <=? 122) || (c =? 95))%N.

Definition at_word_boundary (p : pos) : bool :=
  let before := match prev p with Some c => isword c | None => false end in
  let after := match rest p with c :: _ => isword c | [] => false end in
  xorb before after.

(** The text between two positions of the same subject. *)
Definition consumed (p q : pos) : str :=
  firstn (length (rest p) - length (rest q)) (rest p).

Definition orelse {A} (a b : option A) : option A :=
  match a with Some _ => a | None => b end.

(** [run r p k]: match [r] at [p] and hand each way of matching, in
    priority order, to the continuation [k] until one succeeds. *)
Fixpoint run (r : re) (p : pos) (k : pos -> option pos) : option pos :=
  match r with
  | Eps => k p
  | Chr f =>
      match rest p with
      | c :: _ => if f c then match advance p with
                              | Some q => k q
                              | None => None
                              end
                  else None
      | [] => None
      end
  | Cat r1 r2 => run r1 p (fun q => run r2 q k)
  | Alt r1 r2 => orelse (run r1 p k) (run r2 p k)
  | Rep r0 lo hi =>
      (fix loop (fuel : nat) (lo : nat) (hi : option nat) (p : pos)
         : option pos :=
         let stop := match lo with O => k p | S _ => None end in
         match fuel with
         | O => stop
         | S fuel' =>
             match hi with
             | Some O => stop
             | _ =>
                 orelse
                   (run r0 p (fun q =>
                      if (length (rest q) <? length (rest p))%nat
                      then loop fuel' (Nat.pred lo) (option_map Nat.pred hi) q
                      else None))
                   stop
             end
         end) (length (rest p)) lo hi p
  | WordB => if at_word_boundary p then k p else None
  | Bol => match prev p with None => k p | Some _ => None end
  | Eol => match rest p with [] => k p | _ :: _ => None end
  | Grp r0 =>
      run r0 p (fun q =>
        k {| prev := prev q; rest := rest q;
             group1 := Some (consumed p q) |})
  end.

(** A match: where it starts (the characters before it), and the
    position where it ends. *)
Record mtch : Type := {
  skipped : str;
  m_start : pos;
  m_end : pos;
}.

(** [pattern.match] at a position. *)
Definition match_at (r : re) (p : pos) : option pos :=
  run r p (fun q => Some q).

(** The leftmost match at or after [p]; [before] is the text already
    passed, reversed. *)
Fixpoint search_from (r : re) (fuel : nat) (before : str) (p : pos)
  : option mtch :=
  match match_at r p with
  | Some q => Some {| skipped := rev before; m_start := p; m_end := q |}
  | None =>
      match fuel, rest p with
      | S fuel', c :: s =>
          search_from r fuel' (c :: before)
            {| prev := Some c; rest := s; group1 := None |}
      | _, _ => None
      end
  end.

(** [re.search(r, s) is not None] *)
Definition search (r : re) (s : str) : bool :=
  is_some (search_from r (length s) [] (start_of s)).

(** [re.match(r, s) is not None] *)
Definition matches (r : re) (s : str) : bool :=
  is_some (match_at r (start_of s)).

(** [re.finditer(r, s)]: the successive non-overlapping matches, left to
    right.  After an empty match the scan resumes one character on. *)
Fixpoint finditer_from (r : re) (fuel : nat) (p : pos) : list mtch :=
  match fuel with
  | O => []
  | S fuel' =>
      match search_from r (length (rest p)) [] p with
      | None => []
      | Some m =>
          let q := {| prev := prev (m_end m); rest := rest (m_end m);
                      group1 := None |} in
          if (length (rest q) <? length (rest (m_start m)))%nat
          then m :: finditer_from r fuel' q
          else match advance q with
               | Some q' => m :: finditer_from r fuel' q'
               | None => [m]
               end
      end
  end.

Definition finditer (r : re) (s : str) : list mtch :=
  finditer_from r (S (length s)) (start_of s).

(** [len(re.findall(r, s))] *)
Definition findall_count (r : re) (s : str) : Z :=
  len (finditer r s).

(** [match.group(1)] for each match of [re.finditer(r, s)] that set it. *)
Definition finditer_group1 (r : re) (s : str) : list str :=
  omap (fun m => group1 (m_end m)) (finditer r s).

(** [re.sub(r, '', s)] *)
Fixpoint sub_empty_from (r : re) (fuel : nat) (p : pos) : str :=
  match fuel with
  | O => rest p
  | S fuel' =>
      match search_from r (length (rest p)) [] p with
      | None => rest p
      | Some m =>
          let q := {| prev := prev (m_end m); rest := rest (m_end m);
                      group1 := None |} in
          if (length (rest q) <? length (rest (m_start m)))%nat
          then skipped m ++ sub_empty_from r fuel' q
          else match rest q with
               | c :: _ =>
                   skipped m ++ c ::
                   match advance q with
                   | Some q' => sub_empty_from r fuel' q'
                   | None => []
                   end
               | [] => skipped m
               end
      end
  end.

Definition sub_empty (r : re) (s : str) : str :=
  sub_empty_from r (S (length s)) (start_of s).

(** *** Pattern syntax *)

(** A literal character; with [re.IGNORECASE] a letter also matches its
    other case, and [i], [s] and [k] match the four non-ASCII letters
    that fold to them (U+0130, U+0131, U+017F, U+212A). *)
Definition chr (c : N) : re := Chr (N.eqb c).

Definition upper_cp (c : N) : N :=
  if ((97 <=? c) && (c <=? 122))%N then (c - 32)%N else c.

Definition ieq (c x : N) : bool :=
  (N.eqb x (lower_cp c) || N.eqb x (upper_cp c) ||
   (N.eqb (lower_cp c) 105 && (N.eqb x 304 || N.eqb x 305)) ||
   (N.eqb (lower_cp c) 115 && N.eqb x 383) ||
   (N.eqb (lower_cp c) 107 && N.eqb x 8490))%N.

Definition ichr (c : N) : re := Chr (ieq c).

Fixpoint seq (rs : list re) : re :=
  match rs with
  | [] => Eps
  | [r] => r
  | r :: rs' => Cat r (seq rs')
  end.

Fixpoint alt (rs : list re) : re :=
  match rs with
  | [] => Chr (fun _ => false)
  | [r] => r
  | r :: rs' => Alt r (alt rs')
  end.

(** A literal string, case-sensitive and case-insensitive. *)
Definition lit (s : string) : re := seq (List.map chr (u s)).
Definition ilit (s : string) : re := seq (List.map ichr (u s)).

Definition star (r : re) : re := Rep r 0 None.
Definition plus (r : re) : re := Rep r 1 None.
Definition opt (r : re) : re := Rep r 0 (Some 1%nat).
Definition at_least (n : nat) (r : re) : re := Rep r n None.
Definition exactly (n : nat) (r : re) : re := Rep r n (Some n).
Definition between (lo hi : nat) (r : re) : re := Rep r lo (Some hi).

(** [\s], [\d] and classes given by their members. *)
Definition ws : re := Chr isspace.
Definition digit : re := Chr isdigit.
Definition one_of (s : str) : re := Chr (fun c => List.existsb (N.eqb c) s).
Definition none_of (s : str) : re :=
  Chr (fun c => negb (List.existsb (N.eqb c) s)).

(** *** What a match can hold

    [suffix_of t s]: [t] is what is left of [s] after some characters;
    [within g s]: [g] is a part of [s]. *)
Definition suffix_of (t s : str) : Prop := exists a, s = a ++ t.
Definition within (g s : str) : Prop := exists a b, s = a ++ g ++ b.

(** [q] is a position further in the subject than [p], whose group is
    the one of [p] or a part of the text ahead of [p]. *)
Definition steps_from (p q : pos) : Prop :=
  suffix_of (rest q) (rest p) /\
  (group1 q = group1 p \/
   exists g, group1 q = Some g /\ within g (rest p)).

(** A match found in [s]: it starts and ends in [s], and its group, if
    any, is a part of [s]. *)
Definition found_in (s : str) (m : mtch) : Prop :=
  suffix_of (rest (m_end m)) s /\
  suffix_of (rest (m_end m)) (rest (m_start m)) /\
  suffix_of (rest (m_start m)) s /\
  match group1 (m_end m) with
  | Some g => within g s
  | None => True
  end.

End Re.

(* ===================================================================== *)
(** * [core/config.py] *)
(* ===================================================================== *)

Module Config.

Record Thresholds : Type := {
  required_hit : float;
  preferred_hit : float;
  weak_support : float;
}.

Record Weights : Type := {
  coverage : float;
  experience : float;
  education : float;
}.

(** The scoring configuration: a [dict] whose entries may be absent
    (the services read some of them with [config.get(key, default)]). *)
Record ScoringConfig : Type := {
  similarity_thresholds : option Thresholds;
  weights : option Weights;
  section_weights : option (list (str * float));
  recency_years_boost : option Z;
}.

Definition default_thresholds : Thresholds :=
  {| required_hit := 0.75; preferred_hit := 0.75; weak_support := 0.65 |}.

Definition default_weights : Weights :=
  {| coverage := 0.6; experience := 0.3; education := 0.1 |}.

Definition default_config : ScoringConfig :=
  {| similarity_thresholds := Some default_thresholds;
     weights := Some default_weights;
     section_weights :=
       Some [(u "experience", 1.0%float); (u "projects", 0.8%float);
             (u "skills", 0.4%float)];
     recency_years_boost := Some 2 |}.

(** [get_scoring_config()]: [yaml_file] is the parsed content of
    [config/scoring.yaml], [None] when the file does not exist. *)
Definition get_scoring_config (yaml_file : option ScoringConfig)
  : ScoringConfig :=
  match yaml_file with
  | None => default_config
  | Some c => c
  end.

End Config.

(* ===================================================================== *)
(** * [core/logging.py]: redaction *)
(* ===================================================================== *)

Module Logging.

Section Redaction.

(** The values of the logged dictionary that are not strings. *)
Variable object : Type.

Inductive value : Type :=
  | Str (s : str)
  | Object (o : object).

(** The keys hold no [i] and no [k], the two ASCII letters a letter
    outside ASCII lowers to: [key.lower() in sensitive_keys] is decided
    by the ASCII letters of the key. *)
Definition sensitive_keys : list str :=
  [u "text"; u "content"; u "resume_text"; u "jd_text"].

(** [str(n)] for a length. *)
Definition str_of_nat (n : nat) : str :=
  u (NilEmpty.string_of_uint (Nat.to_uint n)).

Definition redact_value (v : value) : value :=
  match v with
  | Str s => Str (u "<redacted:" ++ str_of_nat (length s) ++ u " chars>")
  | Object _ => Str (u "<redacted>")
  end.

(** [redact_sensitive_data]; the dictionary is the list of its items, in
    insertion order. *)
Definition redact_sensitive_data (data : list (str * value))
  : list (str * value) :=
  List.map (fun item =>
              if mem (lower (fst item)) sensitive_keys
              then (fst item, redact_value (snd item))
              else (fst item, snd item))
           data.

(** Two values a redaction cannot tell apart: two strings of the same
    length, or two objects. *)
Definition same_shape (v v' : value) : Prop :=
  match v, v' with
  | Str s, Str s' => length s = length s'
  | Object _, Object _ => True
  | _, _ => False
  end.

(** Two dictionaries with the same keys that differ only in the content
    of their sensitive values. *)
Definition same_but_sensitive (data data' : list (str * value)) : Prop :=
  List.Forall2
    (fun item item' =>
       fst item = fst item' /\
       if mem (lower (fst item)) sensitive_keys
       then same_shape (snd item) (snd item')
       else snd item = snd item')
    data data'.

End Redaction.

End Logging.

(* ===================================================================== *)
(** * [api/dto.py] *)
(* ===================================================================== *)

Module Dto.

Record ParseMeta : Type := {
  filetype : str;
  has_columns : bool;
  has_tables : bool;
  extractability_score : float;
  ocr_used : bool;
}.

Record MissingSkills : Type := {
  required : list str;
  preferred : list str;
}.

Record Suggestion : Type := {
  before : str;
  after : str;
  rationale : str;
}.

Record ATSWarnings : Type := {
  warnings : list str;
  passes : list str;
}.

Record Evidence : Type := {
  skill : str;
  section : str;
  quote : str;
  similarity : float;
}.

Record Score : Type := {
  overall : Z;
  coverage : Z;
  experience : Z;
  education : Z;
}.

(** The constructor of the pydantic model [Score]: each field is
    declared with [ge=0, le=100], and a value outside the range makes the
    constructor raise a validation error. *)
Definition in_score_range (v : Z) : bool := (0 <=? v) && (v <=? 100).

Definition make_Score (overall coverage experience education : Z)
  : result Score :=
  if in_score_range overall && in_score_range coverage &&
     in_score_range experience && in_score_range education
  then Ok {| overall := overall; coverage := coverage;
             experience := experience; education := education |}
  else Raise (PyException (u "validation error for Score")).

End Dto.

(* ===================================================================== *)
(** * [services/extract.py]: the entity records the matcher consumes *)
(* ===================================================================== *)

Module Extract.

Record ExtractedSkill : Type := {
  name : str;
  canonical_name : str;
  confidence : float;
  section : str;
  context : str;
}.

Record ExtractedExperience : Type := {
  title : str;
  company : str;
  start_date : option str;
  end_date : option str;
  duration_months : option Z;
  description : str;
  exp_section : str;
}.

Record ExtractedEducation : Type := {
  degree : str;
  institution : str;
  field : option str;
  graduation_date : option str;
  gpa : option str;
  edu_section : str;
}.

Record ExtractedEntities : Type := {
  skills : list ExtractedSkill;
  experience : list ExtractedExperience;
  education : list ExtractedEducation;
  total_experience_months : Z;
  most_recent_title : option str;
}.

End Extract.

(* ===================================================================== *)
(** * [services/jd.py]: requirement records *)
(* ===================================================================== *)

Module Jd.

Record JDRequirement : Type := {
  skill : str;
  is_required : bool;
  context : str;
  confidence : float;
}.

Record JDRequirements : Type := {
  required_skills : list JDRequirement;
  preferred_skills : list JDRequirement;
  experience_years : Z;
  education_level : str;
  title : str;
  all_skills : list str;
}.

Import Re.

(** A [dict] from strings, in insertion order. *)
Definition dict (V : Type) : Type := list (str * V).

(** [d[k] = v] *)
Fixpoint dict_set {V} (d : dict V) (k : str) (v : V) : dict V :=
  match d with
  | [] => [(k, v)]
  | (k', v') :: d' =>
      if str_eqb k' k then (k', v) :: d' else (k', v') :: dict_set d' k v
  end.

(** The fallback lexicon of [load_cue_lexicon]. *)
Definition fallback_cue_lexicon : dict str :=
  [ (u "must", u "required");
    (u "required", u "required");
    (u "mandatory", u "required");
    (u "essential", u "required");
    (u "preferred", u "preferred");
    (u "nice to have", u "preferred");
    (u "bonus", u "preferred");
    (u "ideal", u "preferred") ].

(** [load_cue_lexicon()]: [lexicon_file] is the outcome of reading
    [data/cue_lexicon.json], as its two lists of indicators. *)
Definition load_cue_lexicon (lexicon_file : result (list str * list str))
  : dict str :=
  match lexicon_file with
  | Ok (required_indicators, preferred_indicators) =>
      let cues :=
        List.fold_left (fun cues indicator => dict_set cues indicator (u "required"))
                       required_indicators [] in
      List.fold_left (fun cues indicator => dict_set cues indicator (u "preferred"))
                     preferred_indicators cues
  | Raise _ => fallback_cue_lexicon
  end.

(** The fallback taxonomy of [extract.load_skills_taxonomy]. *)
Definition fallback_taxonomy : dict (list str) :=
  [ (u "Python", [u "python"; u "py"; u "python3"]);
    (u "JavaScript", [u "javascript"; u "js"; u "node.js"; u "nodejs"]);
    (u "React", [u "react"; u "reactjs"; u "react.js"]);
    (u "SQL", [u "sql"; u "postgresql"; u "mysql"]);
    (u "Docker", [u "docker"; u "containerization"]);
    (u "Git", [u "git"; u "github"; u "version control"]) ].

(** [extract.load_skills_taxonomy()]: [taxonomy_file] is the outcome of
    reading [data/skills_taxonomy.json], a dict of categories, each a
    dict from a skill to its aliases. *)
Definition load_skills_taxonomy
    (taxonomy_file : result (dict (dict (list str)))) : dict (list str) :=
  match taxonomy_file with
  | Ok taxonomy_data =>
      List.fold_left
        (fun flattened category =>
           List.fold_left
             (fun flattened entry => dict_set flattened (fst entry) (snd entry))
             (snd category) flattened)
        taxonomy_data []
  | Raise _ => fallback_taxonomy
  end.

(** The cue patterns of [extract_skills_from_jd]; each captures
    [[^,\n\.]+] as group 1. *)
Definition skill_phrase : re := Grp (plus (none_of [44; 10; 46]%N)).

Definition with_or_in : re := alt [ilit "with"; ilit "in"].

Definition skill_patterns : list re :=
  [ seq [ilit "experience"; plus ws; with_or_in; plus ws; skill_phrase];
    seq [ilit "knowledge"; plus ws; ilit "of"; plus ws; skill_phrase];
    seq [ilit "proficient"; plus ws; with_or_in; plus ws; skill_phrase];
    seq [ilit "skilled"; plus ws; with_or_in; plus ws; skill_phrase];
    seq [ilit "familiar"; plus ws; ilit "with"; plus ws; skill_phrase];
    seq [ilit "expertise"; plus ws; with_or_in; plus ws; skill_phrase] ].

Definition extract_skills_from_jd (skills_taxonomy : dict (list str))
    (text : str) : list str :=
  let text_lower := lower text in
  let found_skills :=
    List.map fst
      (List.filter (fun entry =>
                      List.existsb (fun alias => contains text_lower alias)
                                   (snd entry))
                   skills_taxonomy) in
  List.fold_left
    (fun found_skills pattern =>
       List.fold_left
         (fun found_skills group =>
            let skill_text := strip group in
            List.fold_left
              (fun found_skills entry =>
                 if List.existsb (fun alias => contains (lower skill_text) alias)
                                 (snd entry)
                 then if mem (fst entry) found_skills then found_skills
                      else found_skills ++ [fst entry]
                 else found_skills)
              skills_taxonomy found_skills)
         (finditer_group1 pattern text) found_skills)
    skill_patterns found_skills.

(** [text_lower.find(skill_lower, start)] for each successive [start]:
    the positions where [skill] occurs in [s], [i] being the index of
    the first character of [s]. *)
Fixpoint find_all (fuel : nat) (i : nat) (s skill : str) : list nat :=
  (if startswith s skill then [i] else []) ++
  match fuel, s with
  | S fuel', _ :: s' => find_all fuel' (S i) s' skill
  | _, _ => []
  end.

(** The first cue word of the lexicon found in a context. *)
Definition first_cue (cue_lexicon : dict str) (context_lower : str)
  : option str :=
  option_map snd
    (List.find (fun entry => contains context_lower (fst entry)) cue_lexicon).

(** The decision [classify_skill_requirements] carries through the
    occurrences of one skill. *)
Record Best : Type := {
  best_classification : str;
  best_confidence : float;
  best_context : str;
}.

Definition classify_skill (cue_lexicon : dict str) (text : str) (skill : str)
  : JDRequirement :=
  let text_lower := lower text in
  let skill_lower := lower skill in
  let skill_positions :=
    find_all (length text_lower) 0 text_lower skill_lower in
  let best :=
    List.fold_left
      (fun best p =>
         let context_start := (p - 100)%nat in
         let context_end :=
           Nat.min (length text) (p + length skill + 100) in
         let context := slice context_start context_end text in
         match first_cue cue_lexicon (lower context) with
         | Some classification =>
             let confidence := 0.8%float in
             if (best_confidence best <? confidence)%float
             then {| best_classification := classification;
                     best_confidence := confidence;
                     best_context := context |}
             else best
         | None => best
         end)
      skill_positions
      {| best_classification := u "preferred";
         best_confidence := 0.5;
         best_context := [] |} in
  let escaped := seq (List.map chr skill_lower) in
  let best :=
    if search (seq [one_of [8226; 42; 45]%N; star ws;
                    star (none_of [44; 10]%N); escaped]) text_lower
    then if (best_confidence best <? 0.7)%float
         then {| best_classification := u "required";
                 best_confidence := 0.7;
                 best_context := best_context best |}
         else best
    else best in
  let best :=
    if search (seq [ilit "requirement"; opt (ichr 115);
                    star (none_of [58]%N); chr 58;
                    star (none_of [44; 10]%N);
                    seq (List.map ichr skill_lower)]) text_lower
    then {| best_classification := u "required";
            best_confidence := 0.9;
            best_context := best_context best |}
    else best in
  let best :=
    if search (seq [ilit "nice"; plus ws; ilit "to"; plus ws; ilit "have";
                    star (none_of [44; 10]%N);
                    seq (List.map ichr skill_lower)]) text_lower
    then {| best_classification := u "preferred";
            best_confidence := 0.9;
            best_context := best_context best |}
    else best in
  {| skill := skill;
     is_required := str_eqb (best_classification best) (u "required");
     context := best_context best;
     confidence := best_confidence best |}.

Definition classify_skill_requirements (cue_lexicon : dict str) (text : str)
    (skills : list str) : list JDRequirement :=
  List.map (classify_skill cue_lexicon text) skills.

(** [int(s)] for a string of ASCII digits. *)
Definition int_of_digits (s : str) : Z :=
  List.fold_left (fun acc c => 10 * acc + (Z.of_N c - 48)) s 0.

Definition years : re :=
  seq [ilit "year"; opt (ichr 115)].

Definition experience_patterns : list re :=
  [ seq [Grp (plus digit); opt (chr 43); star ws; years; plus ws;
         opt (seq [ilit "of"; plus ws]); ilit "experience"];
    seq [ilit "minimum"; plus ws; Grp (plus digit); plus ws; years];
    seq [ilit "at"; plus ws; ilit "least"; plus ws; Grp (plus digit);
         plus ws; years];
    seq [Grp (plus digit); star ws; chr 45; star ws; plus digit; plus ws;
         years];
    seq [Grp (plus digit); plus ws; ilit "to"; plus ws; plus digit; plus ws;
         years] ].

Definition extract_experience_requirements (text : str) : Z :=
  let years :=
    List.flat_map (fun pattern =>
                     List.map int_of_digits (finditer_group1 pattern text))
                  experience_patterns in
  match years with
  | [] => 0
  | y :: ys => List.fold_left Z.min ys y
  end.

(** [x\.?y\.?] under [re.IGNORECASE], as in [b\.?s\.?]. *)
Definition abbrev (x y : N) : re :=
  seq [ichr x; opt (chr 46); ichr y; opt (chr 46)].

Definition education_patterns : list (re * str) :=
  [ (alt [ilit "bachelor"; abbrev 98 115; abbrev 98 97], u "bachelor");
    (alt [ilit "master"; abbrev 109 115; abbrev 109 97], u "master");
    (alt [ilit "phd"; seq [ilit "ph"; opt (chr 46); ichr 100; opt (chr 46)];
          ilit "doctorate"], u "phd");
    (alt [ilit "associate"; abbrev 97 115], u "associate");
    (alt [seq [ilit "high"; plus ws; ilit "school"]; ilit "diploma"],
     u "high_school") ].

Definition extract_education_requirements (text : str) : str :=
  match List.find (fun entry => search (fst entry) text) education_patterns with
  | Some entry => snd entry
  | None => u "unspecified"
  end.

Definition title_indicators : list str :=
  [ u "position"; u "role"; u "job"; u "opportunity"; u "opening";
    u "engineer"; u "developer"; u "manager"; u "analyst"; u "specialist";
    u "director"; u "lead"; u "senior"; u "junior"; u "intern" ].

Definition extract_job_title (text : str) : str :=
  let lines := List.map strip (split_on 10%N text) in
  match List.find (fun line =>
                     match line with
                     | [] => false
                     | _ :: _ =>
                         negb (100 <? len line) &&
                         List.existsb (fun indicator =>
                                         contains (lower line) indicator)
                                      title_indicators
                     end)
                  (firstn 5 lines) with
  | Some line => line
  | None =>
      match List.find (fun line =>
                         match line with
                         | [] => false
                         | _ :: _ => len line <? 100
                         end) lines with
      | Some line => line
      | None => u "Unknown Position"
      end
  end.

(** The all-empty requirements object. *)
Definition empty_requirements : JDRequirements :=
  {| required_skills := [];
     preferred_skills := [];
     experience_years := 0;
     education_level := u "unspecified";
     title := u "Unknown Position";
     all_skills := [] |}.

(** The five calls [parse_job_description] makes inside its [try], each
    with its outcome: a value, or the exception the call raised. *)
Record Steps : Type := {
  title_step : str -> result str;
  skills_step : str -> result (list str);
  classify_step : str -> list str -> result (list JDRequirement);
  experience_step : str -> result Z;
  education_step : str -> result str;
}.

(** The body of the [try] block. *)
Definition parse_body (steps : Steps) (jd_text : str) : result JDRequirements :=
  title ← title_step steps jd_text;
  all_skills ← skills_step steps jd_text;
  requirements ← classify_step steps jd_text all_skills;
  let required_skills := List.filter is_required requirements in
  let preferred_skills :=
    List.filter (fun req => negb (is_required req)) requirements in
  experience_years ← experience_step steps jd_text;
  education_level ← education_step steps jd_text;
  Ok {| required_skills := required_skills;
        preferred_skills := preferred_skills;
        experience_years := experience_years;
        education_level := education_level;
        title := title;
        all_skills := all_skills |}.

(** One of the five calls raises: a call is made with the text, and the
    classification also with the skills the discovery returned. *)
Definition step_faults (steps : Steps) (jd_text : str) : Prop :=
  (exists e, title_step steps jd_text = Raise e) \/
  (exists e, skills_step steps jd_text = Raise e) \/
  (exists skills e, skills_step steps jd_text = Ok skills /\
                    classify_step steps jd_text skills = Raise e) \/
  (exists e, experience_step steps jd_text = Raise e) \/
  (exists e, education_step steps jd_text = Raise e).

(** [parse_job_description], whatever the five calls do. *)
Definition parse_job_description_with (steps : Steps) (jd_text : str)
  : result JDRequirements :=
  if negb (nonblank jd_text) then Ok empty_requirements
  else try_except (parse_body steps jd_text)
                  (fun e => Ok empty_requirements).

(** The five calls as the module defines them, on the data files as
    read. *)
Definition module_steps (taxonomy_file : result (dict (dict (list str))))
    (lexicon_file : result (list str * list str)) : Steps :=
  {| title_step := fun text => Ok (extract_job_title text);
     skills_step := fun text =>
       Ok (extract_skills_from_jd (load_skills_taxonomy taxonomy_file) text);
     classify_step := fun text skills =>
       Ok (classify_skill_requirements (load_cue_lexicon lexicon_file)
                                       text skills);
     experience_step := fun text => Ok (extract_experience_requirements text);
     education_step := fun text => Ok (extract_education_requirements text) |}.

Definition parse_job_description
    (taxonomy_file : result (dict (dict (list str))))
    (lexicon_file : result (list str * list str)) (jd_text : str)
  : result JDRequirements :=
  parse_job_description_with (module_steps taxonomy_file lexicon_file) jd_text.

(** What the loop of [classify_skill_requirements] over the occurrences
    of a skill keeps: the default decision, or one taken with
    confidence 0.8. *)
Definition default_or_cue (best : Best) : Prop :=
  (best_confidence best = 0.5%float /\
   best_classification best = u "preferred" /\
   best_context best = []) \/
  best_confidence best = 0.8%float.

(** The list of skills through the loops of [extract_skills_from_jd]:
    distinct keys of the taxonomy. *)
Definition skills_of (taxonomy : dict (list str)) (found : list str) : Prop :=
  List.NoDup found /\ forall s, In s found -> In s (List.map fst taxonomy).

End Jd.

(* ===================================================================== *)
(** * [services/match.py] *)
(* ===================================================================== *)

Module Match.

Record SkillMatch : Type := {
  jd_skill : str;
  resume_skill : option Extract.ExtractedSkill;
  similarity : float;
  is_required : bool;
  evidence : option Dto.Evidence;
}.

(** The field [evidence] of the dataclass [MatchResults] is
    [evidence_list] here: [SkillMatch] already has a field of that name. *)
Record MatchResults : Type := {
  required_matches : list SkillMatch;
  preferred_matches : list SkillMatch;
  missing : Dto.MissingSkills;
  weakly_supported : list str;
  suggestions : list Dto.Suggestion;
  evidence_list : list Dto.Evidence;
}.

(** *** [rapidfuzz.fuzz.ratio]

    The normalized Indel similarity, scaled to [0, 100]:
    [(1 - dist / (len1 + len2)) * 100], where the Indel distance is
    [len1 + len2 - 2 * lcs] and two empty strings are at distance 0. *)

Fixpoint lcs (a b : str) : nat :=
  match a with
  | [] => O
  | x :: a' =>
      (fix lcs_row (b : str) : nat :=
         match b with
         | [] => O
         | y :: b' =>
             if N.eqb x y then S (lcs a' b')
             else Nat.max (lcs a' b) (lcs_row b')
         end) b
  end.

Definition indel_distance (s1 s2 : str) : Z :=
  len s1 + len s2 - 2 * Z.of_nat (lcs s1 s2).

Definition fuzz_ratio (s1 s2 : str) : float :=
  let maximum := len s1 + len s2 in
  let norm_dist :=
    if maximum =? 0 then 0%float
    else (Z2F (indel_distance s1 s2) / Z2F maximum)%float in
  ((1 - norm_dist) * 100)%float.

(** *** [numpy] on one-dimensional arrays *)

(** [np.dot(a, b)]: [ValueError] when the shapes differ.  The products
    are accumulated left to right, in binary64 (numpy works in the
    precision of the arrays it is given). *)
Fixpoint np_dot_from (acc : float) (a b : list float) : result float :=
  match a, b with
  | [], [] => Ok acc
  | x :: a', y :: b' => np_dot_from (acc + x * y)%float a' b'
  | _, _ => Raise ValueError
  end.

Definition np_dot (a b : list float) : result float :=
  np_dot_from 0%float a b.

(** [np.linalg.norm(a)] *)
Definition np_norm (a : list float) : result float :=
  d ← np_dot a a; Ok (PrimFloat.sqrt d).

(** The abbreviation and synonym table of [calculate_similarity]. *)
Definition synonyms : list (str * str) :=
  [ (u "js", u "javascript");
    (u "ts", u "typescript");
    (u "py", u "python");
    (u "ai", u "artificial intelligence");
    (u "ml", u "machine learning");
    (u "dl", u "deep learning");
    (u "nlp", u "natural language processing");
    (u "cv", u "computer vision");
    (u "db", u "database");
    (u "sql", u "structured query language");
    (u "nosql", u "no sql");
    (u "api", u "application programming interface");
    (u "rest", u "representational state transfer");
    (u "ui", u "user interface");
    (u "ux", u "user experience");
    (u "aws", u "amazon web services");
    (u "gcp", u "google cloud platform");
    (u "k8s", u "kubernetes");
    (u "docker", u "containerization");
    (u "css3", u "css");
    (u "html5", u "html");
    (u "node", u "node.js");
    (u "nodejs", u "node.js");
    (u "reactjs", u "react");
    (u "react.js", u "react");
    (u "vue.js", u "vue");
    (u "vuejs", u "vue") ].

(** [d.get(key, default)] on a table of string pairs. *)
Fixpoint dict_get (d : list (str * str)) (key default : str) : str :=
  match d with
  | [] => default
  | (k, v) :: d' => if str_eqb k key then v else dict_get d' key default
  end.

(** [set(words)]: the distinct words, and the sizes of an intersection
    and of a union of two such sets. *)
Fixpoint set_of (l : list str) : list str :=
  match l with
  | [] => []
  | w :: l' => if mem w l' then set_of l' else w :: set_of l'
  end.

Definition inter_size (a b : list str) : Z :=
  count_if (fun w => mem w b) (set_of a).

Definition union_size (a b : list str) : Z :=
  len (set_of a) + len (set_of b) - inter_size a b.

Section Matcher.

(** The sentence-embedding model, seen as a function of one string:
    [embed s] is the vector [_get_model().encode] gives for [s], or the
    exception raised while loading the model or encoding. *)
Variable embed : str -> result (list float).

(** [self.config], read once by [SkillMatcher.__init__]. *)
Variable config : Config.ScoringConfig.

(** [model.encode([a, b])] *)
Definition encode2 (a b : str) : result (list float * list float) :=
  ea ← embed a; eb ← embed b; Ok (ea, eb).

(** The [try] block of [calculate_similarity]: the score the embedding
    model supports for a fuzzy ratio in the middle band. *)
Definition semantic_similarity (skill1_norm skill2_norm : str)
    (fuzzy_ratio : float) : result float :=
  '(e0, e1) ← encode2 skill1_norm skill2_norm;
  d ← np_dot e0 e1;
  n0 ← np_norm e0;
  n1 ← np_norm e1;
  let semantic_sim := (d / (n0 * n1))%float in
  if (0.85 <=? semantic_sim)%float && (0.85 <=? fuzzy_ratio)%float
  then Ok (fmin 0.9 (fmax fuzzy_ratio semantic_sim))
  else if (0.8 <=? semantic_sim)%float && (0.9 <=? fuzzy_ratio)%float
  then Ok (fmin 0.85 semantic_sim)
  else Ok 0.0%float.

Definition calculate_similarity (skill1 skill2 : str) : float :=
  let skill1_clean := strip (lower skill1) in
  let skill2_clean := strip (lower skill2) in
  if str_eqb skill1_clean skill2_clean then 1.0%float else
  let skill1_norm := dict_get synonyms skill1_clean skill1_clean in
  let skill2_norm := dict_get synonyms skill2_clean skill2_clean in
  if str_eqb skill1_norm skill2_norm then 0.98%float else
  let fuzzy_ratio := (fuzz_ratio skill1_norm skill2_norm / 100.0)%float in
  if (fuzzy_ratio <? 0.7)%float then 0.0%float else
  if (0.95 <=? fuzzy_ratio)%float then fuzzy_ratio else
  match semantic_similarity skill1_norm skill2_norm fuzzy_ratio with
  | Ok r => r
  | Raise _ => if (0.9 <=? fuzzy_ratio)%float then fuzzy_ratio else 0.0%float
  end.

(** [self.config["similarity_thresholds"]] *)
Definition thresholds : result Config.Thresholds :=
  match Config.similarity_thresholds config with
  | Some t => Ok t
  | None => Raise (KeyError (u "similarity_thresholds"))
  end.

(** One iteration of the loop of [find_best_match]. *)
Definition best_match_step (jd_skill : str)
    (best : option Extract.ExtractedSkill * float)
    (resume_skill : Extract.ExtractedSkill)
  : result (option Extract.ExtractedSkill * float) :=
  let jd_skill_words := split (lower jd_skill) in
  let score1 := calculate_similarity jd_skill (Extract.name resume_skill) in
  let score2 :=
    calculate_similarity jd_skill (Extract.canonical_name resume_skill) in
  let resume_words := split (lower (Extract.name resume_skill)) in
  word_overlap ← truediv (inter_size jd_skill_words resume_words)
                         (union_size jd_skill_words resume_words);
  let direct_score := fmax score1 score2 in
  let direct_score :=
    if (0.5 <=? word_overlap)%float && (0.6 <=? direct_score)%float
    then fmin 0.9 (direct_score + word_overlap * 0.1)%float
    else direct_score in
  let direct_score :=
    if (len (split (Extract.name resume_skill)) =? 1)
       && (1 <? len (split jd_skill))
    then (direct_score * 0.9)%float
    else direct_score in
  if (snd best <? direct_score)%float
  then Ok (Some resume_skill, direct_score)
  else Ok best.

Fixpoint find_best_match_from
    (best : option Extract.ExtractedSkill * float) (jd_skill : str)
    (resume_skills : list Extract.ExtractedSkill)
  : result (option Extract.ExtractedSkill * float) :=
  match resume_skills with
  | [] => Ok best
  | resume_skill :: rest =>
      best' ← best_match_step jd_skill best resume_skill;
      find_best_match_from best' jd_skill rest
  end.

Definition find_best_match (jd_skill : str)
    (resume_skills : list Extract.ExtractedSkill)
  : result (option Extract.ExtractedSkill * float) :=
  find_best_match_from (None, 0.0%float) jd_skill resume_skills.

(** The evidence gate applied to the best match of one requirement:
    [hit] selects the tier's threshold and [overlap_floor] is 0.5 for
    the required tier and 0.4 for the preferred one. *)
Definition skill_evidence (hit : Config.Thresholds -> float)
    (overlap_floor : float) (jd_req : Jd.JDRequirement)
    (best_skill : option Extract.ExtractedSkill) (similarity : float)
  : result (option Dto.Evidence) :=
  match best_skill with
  | None => Ok None
  | Some best_skill =>
      th ← thresholds;
      if (hit th <=? similarity)%float then
        let context_text := lower (Extract.context best_skill) in
        let skill_name := lower (Jd.skill jd_req) in
        let skill_mentioned :=
          contains context_text skill_name ||
          List.existsb (fun word => contains context_text word)
            (List.filter (fun word => 2 <? len word) (split skill_name)) in
        let context_words := split context_text in
        let skill_words := split skill_name in
        word_overlap ←
          match set_of skill_words with
          | [] => Ok 0%float
          | _ => truediv (inter_size skill_words context_words)
                         (len (set_of skill_words))
          end;
        if skill_mentioned && (overlap_floor <=? word_overlap)%float
        then Ok (Some {| Dto.skill := Jd.skill jd_req;
                         Dto.section := Extract.section best_skill;
                         Dto.quote := Extract.context best_skill;
                         Dto.similarity := similarity |})
        else Ok None
      else Ok None
  end.

(** One iteration of either matching loop of [match_skills]. *)
Definition match_requirement (hit : Config.Thresholds -> float)
    (overlap_floor : float) (required : bool)
    (resume_entities : Extract.ExtractedEntities)
    (jd_req : Jd.JDRequirement) : result SkillMatch :=
  '(best_skill, similarity) ←
     find_best_match (Jd.skill jd_req) (Extract.skills resume_entities);
  ev ← skill_evidence hit overlap_floor jd_req best_skill similarity;
  Ok {| jd_skill := Jd.skill jd_req;
        resume_skill := best_skill;
        similarity := similarity;
        is_required := required;
        evidence := ev |}.

Fixpoint match_requirements (hit : Config.Thresholds -> float)
    (overlap_floor : float) (required : bool)
    (resume_entities : Extract.ExtractedEntities)
    (reqs : list Jd.JDRequirement) : result (list SkillMatch) :=
  match reqs with
  | [] => Ok []
  | jd_req :: rest =>
      m ← match_requirement hit overlap_floor required resume_entities jd_req;
      ms ← match_requirements hit overlap_floor required resume_entities rest;
      Ok (m :: ms)
  end.

(** The loop over [required_matches] that fills [missing_required] and
    [weakly_supported]: the pair it returns is
    [(missing_required, weakly_supported)]. *)
Fixpoint classify_required (required_matches : list SkillMatch)
  : result (list str * list str) :=
  match required_matches with
  | [] => Ok ([], [])
  | m :: rest =>
      th ← thresholds;
      '(missing_required, weakly) ← classify_required rest;
      if (similarity m <? Config.required_hit th)%float
      then Ok (jd_skill m :: missing_required, weakly)
      else if (similarity m <? Config.weak_support th)%float
      then Ok (missing_required, jd_skill m :: weakly)
      else Ok (missing_required, weakly)
  end.

(** The loop over [preferred_matches] that fills [missing_preferred]. *)
Fixpoint classify_preferred (preferred_matches : list SkillMatch)
  : result (list str) :=
  match preferred_matches with
  | [] => Ok []
  | m :: rest =>
      th ← thresholds;
      missing_preferred ← classify_preferred rest;
      if (similarity m <? Config.preferred_hit th)%float
      then Ok (jd_skill m :: missing_preferred)
      else Ok missing_preferred
  end.

Definition _generate_suggestions (missing_required weakly : list str)
    (resume_entities : Extract.ExtractedEntities) : list Dto.Suggestion :=
  List.map (fun skill =>
      {| Dto.before := u "[Skills section]";
         Dto.after := u "Add '" ++ skill ++
                      u "' to your skills section with specific examples";
         Dto.rationale := u "'" ++ skill ++
           u "' is a required skill that's missing from your resume" |})
    (firstn 3 missing_required)
  ++
  List.map (fun skill =>
      {| Dto.before := u "[Experience descriptions]";
         Dto.after := u "Include specific examples of using " ++ skill ++
                      u " with measurable results";
         Dto.rationale := u "'" ++ skill ++
           u "' appears weakly supported - add concrete examples" |})
    (firstn 2 weakly)
  ++
  List.flat_map (fun exp =>
      if List.existsb isdigit (Extract.description exp) then []
      else [ {| Dto.before :=
                  prefix 50 (Extract.description exp) ++ u "...";
                Dto.after :=
                  u "Add specific metrics and numbers to quantify your impact";
                Dto.rationale :=
                  u "ATS systems favor quantified achievements with concrete numbers"
             |} ])
    (firstn 1 (Extract.experience resume_entities)).

(** [SkillMatcher.match_skills] *)
Definition SkillMatcher_match_skills (jd_requirements : Jd.JDRequirements)
    (resume_entities : Extract.ExtractedEntities) : result MatchResults :=
  required_matches ←
    match_requirements Config.required_hit 0.5 true resume_entities
      (Jd.required_skills jd_requirements);
  preferred_matches ←
    match_requirements Config.preferred_hit 0.4 false resume_entities
      (Jd.preferred_skills jd_requirements);
  let evidence :=
    omap evidence required_matches ++ omap evidence preferred_matches in
  '(missing_required, weakly) ← classify_required required_matches;
  missing_preferred ← classify_preferred preferred_matches;
  Ok {| required_matches := required_matches;
        preferred_matches := preferred_matches;
        missing := {| Dto.required := missing_required;
                      Dto.preferred := missing_preferred |};
        weakly_supported := weakly;
        suggestions :=
          _generate_suggestions missing_required weakly resume_entities;
        evidence_list := evidence |}.

(** The module-level [match_skills], which calls the method on the global
    matcher with its arguments swapped. *)
Definition match_skills (resume_entities : Extract.ExtractedEntities)
    (jd_requirements : Jd.JDRequirements) : result MatchResults :=
  SkillMatcher_match_skills jd_requirements resume_entities.

End Matcher.

(** The exceptions the matching loops let through. *)
Definition match_error (e : exn) : Prop :=
  e = KeyError (u "similarity_thresholds") \/ e = ZeroDivisionError.

(** What one entry of [required_matches] or [preferred_matches] records
    about the resume: its skill is one of the resume's, and without one
    the similarity is 0.0 and there is no evidence. *)
Definition match_grounded (resume_entities : Extract.ExtractedEntities)
    (m : SkillMatch) : Prop :=
  match resume_skill m with
  | Some rs => In rs (Extract.skills resume_entities)
  | None => similarity m = 0.0%float /\ evidence m = None
  end.

(** The evidence of a match, when there is one: the similarity reaches
    the threshold [hit] of the tier, and the evidence names the skill of
    the job description and quotes the matched resume skill. *)
Definition evidence_supported (config : Config.ScoringConfig)
    (hit : Config.Thresholds -> float) (m : SkillMatch) : Prop :=
  forall ev, evidence m = Some ev ->
    exists rs th,
      resume_skill m = Some rs /\
      Config.similarity_thresholds config = Some th /\
      (hit th <=? similarity m)%float = true /\
      ev = {| Dto.skill := jd_skill m;
              Dto.section := Extract.section rs;
              Dto.quote := Extract.context rs;
              Dto.similarity := similarity m |}.

End Match.

(* ===================================================================== *)
(** * [services/extract.py]: skill extraction *)
(* ===================================================================== *)

Module ExtractSkills.

(** [s.find(sub)]: the index of the first occurrence, or -1. *)
Fixpoint find_from (i : Z) (s sub : str) : Z :=
  if startswith s sub then i
  else match s with
       | [] => -1
       | _ :: s' => find_from (i + 1) s' sub
       end.

Definition find (s sub : str) : Z := find_from 0 s sub.

(** [text[max(0, idx - 50):min(len(text), idx + n + 50)].strip()] *)
Definition context_around (text : str) (idx n : Z) : str :=
  let context_start := Z.max 0 (idx - 50) in
  let context_end := Z.min (len text) (idx + n + 50) in
  strip (slice (Z.to_nat context_start) (Z.to_nat context_end) text).

(** [best_match], [best_score] and [best_context]; [best_match] is
    [None] until a match is found. *)
Record Best : Type := {
  best_match : option str;
  best_score : float;
  best_context : str;
}.

(** One iteration of the loop over the words of the text. *)
Definition word_step (text text_lower alias : str) (best : Best)
    (word : str) : Best :=
  if 3 <=? len word then
    let score := (Match.fuzz_ratio alias word / 100.0)%float in
    if (0.95 <=? score)%float && (best_score best <? score)%float then
      let word_idx := find text_lower word in
      {| best_match := Some word;
         best_score := score;
         best_context :=
           if negb (word_idx =? -1)
           then context_around text word_idx (len word)
           else best_context best |}
    else best
  else best.

(** One iteration of the loop over the aliases of a skill. *)
Definition alias_step (text text_lower : str) (best : Best) (alias : str)
  : Best :=
  if contains text_lower alias then
    let score := 1.0%float in
    let start_idx := find text_lower alias in
    let context := context_around text start_idx (len alias) in
    if (best_score best <? score)%float
    then {| best_match := Some alias;
            best_score := score;
            best_context := context |}
    else best
  else
    List.fold_left (word_step text text_lower alias) (split text_lower) best.

Definition best_of (text : str) (aliases : list str) : Best :=
  List.fold_left (alias_step text (lower text)) aliases
    {| best_match := None; best_score := 0; best_context := [] |}.

Definition extract_skills_from_text (skills_taxonomy : Jd.dict (list str))
    (text section : str) : list Extract.ExtractedSkill :=
  List.flat_map
    (fun entry =>
       let best := best_of text (snd entry) in
       match best_match best with
       | Some ((_ :: _) as matched) =>
           if (0.85 <=? best_score best)%float
           then [ {| Extract.name := matched;
                     Extract.canonical_name := fst entry;
                     Extract.confidence := best_score best;
                     Extract.section := section;
                     Extract.context := best_context best |} ]
           else []
       | _ => []
       end)
    skills_taxonomy.

(** Where the name of an extracted skill comes from: an alias that
    occurs in the lowered text, or a word of it of three characters or
    more. *)
Definition matched_in (text : str) (aliases : list str) (best : Best)
  : Prop :=
  match best_match best with
  | None => True
  | Some matched =>
      (0.95 <=? best_score best)%float = true /\
      ((In matched aliases /\ contains (lower text) matched = true /\
        best_score best = 1.0%float) \/
       (In matched (split (lower text)) /\ 3 <= len matched))
  end.

End ExtractSkills.

(* ===================================================================== *)
(** * [services/score.py] *)
(* ===================================================================== *)

Module Score.

(** [calculate_coverage_score].  The scores are Python numbers that are
    ints on some paths ([90], [80], the [0] of [max(0, _)]) and floats on
    others; every one of them is converted to a float by the arithmetic
    that follows, exactly, so they are floats here. *)
Definition calculate_coverage_score (matches : Match.MatchResults)
    (jd_requirements : Jd.JDRequirements) : result Z :=
  let total_required := len (Jd.required_skills jd_requirements) in
  let total_preferred := len (Jd.preferred_skills jd_requirements) in
  if (total_required =? 0) && (total_preferred =? 0) then Ok 80 else
  let required_hits :=
    count_if (fun m => is_some (Match.evidence m))
             (Match.required_matches matches) in
  let preferred_hits :=
    count_if (fun m => is_some (Match.evidence m))
             (Match.preferred_matches matches) in
  required_score ←
    (if 0 <? total_required then
       q ← truediv required_hits total_required;
       let required_score := (q * 100)%float in
       let missing_required := total_required - required_hits in
       if 0 <? missing_required
       then Ok (max0 (required_score - Z2F (missing_required * 15))%float)
       else Ok required_score
     else Ok 90%float);
  preferred_score ←
    (if 0 <? total_preferred then
       q ← truediv preferred_hits total_preferred;
       let preferred_score := (q * 100)%float in
       let missing_preferred := total_preferred - preferred_hits in
       if 0 <? missing_preferred
       then Ok (max0 (preferred_score - Z2F (missing_preferred * 5))%float)
       else Ok preferred_score
     else Ok 80%float);
  let coverage_score :=
    if (0 <? total_required) && (0 <? total_preferred)
    then (required_score * 0.8 + preferred_score * 0.2)%float
    else if 0 <? total_required then required_score
    else (preferred_score * 0.8)%float in
  let total_skills := total_required + total_preferred in
  let total_hits := required_hits + preferred_hits in
  hit_rate ← truediv total_hits (Z.max total_skills 1);
  let coverage_score :=
    if (hit_rate <? 0.3)%float then (coverage_score * 0.7)%float
    else if (hit_rate <? 0.5)%float then (coverage_score * 0.85)%float
    else coverage_score in
  v ← int_of_float coverage_score;
  Ok (Z.min 100 (Z.max 0 v)).

(** [calculate_overall_score]; [config] is what [get_scoring_config()]
    returns. *)
Definition calculate_overall_score (config : Config.ScoringConfig)
    (coverage_score experience_score education_score : Z) : result Z :=
  let weights :=
    match Config.weights config with
    | Some w => w
    | None => {| Config.coverage := 0.6;
                 Config.experience := 0.3;
                 Config.education := 0.1 |}
    end in
  let overall :=
    (Z2F coverage_score * Config.coverage weights +
     Z2F experience_score * Config.experience weights +
     Z2F education_score * Config.education weights)%float in
  v ← int_of_float overall;
  Ok (Z.min 100 (Z.max 0 v)).

(** [dict.get(key, default)] on the section weights. *)
Fixpoint section_weight_get (d : list (str * float)) (key : str)
    (default : float) : float :=
  match d with
  | [] => default
  | (k, v) :: d' =>
      if str_eqb k key then v else section_weight_get d' key default
  end.

Definition senior_terms : list str :=
  [ u "senior"; u "lead"; u "principal"; u "staff"; u "founding";
    u "architect"; u "5+ years"; u "5 years"; u "experienced"; u "expert" ].

(** The bonus for the years of experience: the first block of
    [calculate_experience_score].  [actual_years] is a float and
    [required_years] an int; the comparison of a float with an int below
    2^53 is the comparison with the converted int. *)
Definition years_bonus (actual_years : float) (experience_years : Z)
    (min_years_for_role : Z) : result Z :=
  if 0 <? experience_years then
    let required_years := Z.max experience_years min_years_for_role in
    if (Z2F required_years <=? actual_years)%float then
      if (Z2F required_years * 1.5 <=? actual_years)%float then Ok 35
      else if (Z2F required_years * 1.2 <=? actual_years)%float then Ok 25
      else Ok 15
    else
      let ratio := (actual_years / Z2F required_years)%float in
      if (0.8 <=? ratio)%float then int_of_float (10 * ratio)%float
      else if (0.6 <=? ratio)%float then int_of_float (5 * ratio)%float
      else if (0.4 <=? ratio)%float then int_of_float (3 * ratio)%float
      else int_of_float (1 * ratio)%float
  else
    let required_years := min_years_for_role in
    if (Z2F required_years <=? actual_years)%float then Ok 20
    else
      let ratio := (actual_years / Z2F required_years)%float in
      int_of_float (15 * ratio)%float.

(** The first run of four digits of a string, read as an int:
    [int(re.search(r'\d{4}', s).group())]. *)
Definition first_year (s : str) : option Z :=
  match Re.search_from (Re.exactly 4 Re.digit) (length s) [] (Re.start_of s) with
  | Some m => Some (Jd.int_of_digits (Re.consumed (Re.m_start m) (Re.m_end m)))
  | None => None
  end.

(** One iteration of the recency loop: the change of the score and
    whether the entry counts as recent experience. *)
Definition recency_step (current_year recency_boost_years : Z)
    (exp : Extract.ExtractedExperience) : Z * bool :=
  match Extract.end_date exp with
  | None | Some [] => (0, false)
  | Some end_date =>
      if contains (lower end_date) (u "present")
         || contains (lower end_date) (u "current")
      then (15, true)
      else
        match first_year end_date with
        | Some end_year =>
            let years_ago := current_year - end_year in
            if years_ago <=? recency_boost_years then (8, true)
            else if years_ago <=? 5 then (3, false)
            else (-2, false)
        | None => (0, false)
        end
  end.

Section Scorer.

(** [get_scoring_config()], [datetime.now().year], and the [__repr__]
    the dataclass decorator generates for [JDRequirements]. *)
Variable config : Config.ScoringConfig.
Variable current_year : Z.
Variable repr : Jd.JDRequirements -> str.

Definition calculate_experience_score
    (resume_entities : Extract.ExtractedEntities)
    (jd_requirements : Jd.JDRequirements) (matches : Match.MatchResults)
  : result Z :=
  let experience_score := 10 in
  actual_years ← truediv (Extract.total_experience_months resume_entities) 12;
  let jd_text := lower (repr jd_requirements) in
  let is_senior_role :=
    List.existsb (fun term => contains jd_text term) senior_terms in
  let min_years_for_role := if is_senior_role then 5 else 2 in
  bonus ← years_bonus actual_years (Jd.experience_years jd_requirements)
                      min_years_for_role;
  let experience_score := experience_score + bonus in
  let recency_boost_years :=
    match Config.recency_years_boost config with
    | Some y => y
    | None => 2
    end in
  let steps :=
    List.map (recency_step current_year recency_boost_years)
             (Extract.experience resume_entities) in
  let experience_score :=
    experience_score + List.fold_right Z.add 0 (List.map fst steps) in
  let has_recent_experience := List.existsb snd steps in
  let experience_score :=
    if has_recent_experience then experience_score
    else experience_score - 15 in
  let experience_score :=
    if 1 <? len (Extract.experience resume_entities) then
      let expected_months := (current_year - 2020) * 12 in
      if (Z2F (Extract.total_experience_months resume_entities)
          <? Z2F expected_months * 0.6)%float
      then experience_score - 10
      else experience_score
    else experience_score in
  let section_weights :=
    match Config.section_weights config with
    | Some w => w
    | None => []
    end in
  let skill_alignment_bonus :=
    2 * count_if
          (fun m =>
             match Match.resume_skill m with
             | Some resume_skill =>
                 (0.75 <=? Match.similarity m)%float &&
                 (0.8 <=? section_weight_get section_weights
                            (Extract.section resume_skill) 0.4)%float
             | None => false
             end)
          (Match.required_matches matches ++ Match.preferred_matches matches) in
  let experience_score := experience_score + Z.min 20 skill_alignment_bonus in
  Ok (Z.min 100 (Z.max 0 experience_score)).

Definition education_levels : list (str * Z) :=
  [ (u "high_school", 1); (u "associate", 2); (u "bachelor", 3);
    (u "master", 4); (u "phd", 5) ].

(** [education_levels.get(name, 0)] *)
Definition level_of (name : str) : Z :=
  match List.find (fun entry => str_eqb (fst entry) name) education_levels with
  | Some entry => snd entry
  | None => 0
  end.

(** [level_name.replace("_", " ")] *)
Definition underscores_to_spaces (s : str) : str :=
  List.map (fun c => if N.eqb c 95 then 32%N else c) s.

(** The level the inner loop finds in one degree text: the first level
    of the table whose name occurs in it, 0 when none does. *)
Definition degree_level (degree : str) : Z :=
  let edu_text := lower degree in
  match List.find (fun entry =>
                     contains edu_text (underscores_to_spaces (fst entry))
                     || contains edu_text (fst entry))
                  education_levels with
  | Some entry => snd entry
  | None => 0
  end.

Definition highest_level (education : list Extract.ExtractedEducation) : Z :=
  List.fold_left (fun highest edu => Z.max highest (degree_level (Extract.degree edu)))
                 education 0.

Definition relevant_fields : list str :=
  [ u "computer"; u "engineering"; u "science"; u "technology"; u "business" ].

Definition has_relevant_field (edu : Extract.ExtractedEducation) : bool :=
  match Extract.field edu with
  | None | Some [] => false
  | Some field =>
      List.existsb (fun tech => contains (lower field) tech) relevant_fields
  end.

(** [calculate_education_score].  The entries are [ExtractedEducation]
    objects, which have no attribute [end_date]: [hasattr(edu,
    'end_date')] is false for each of them, so [most_recent_grad_year]
    keeps its initial value 0. *)
Definition calculate_education_score
    (resume_entities : Extract.ExtractedEntities)
    (jd_requirements : Jd.JDRequirements) : result Z :=
  if str_eqb (Jd.education_level jd_requirements) (u "unspecified")
  then Ok 70 else
  match Extract.education resume_entities with
  | [] => Ok 10
  | _ :: _ =>
      let education_score := 30 in
      let required_level := level_of (Jd.education_level jd_requirements) in
      let highest_level := highest_level (Extract.education resume_entities) in
      let most_recent_grad_year := 0 in
      education_score ←
        (if required_level <=? highest_level then
           if required_level <? highest_level then Ok 85 else Ok 75
         else if 0 <? highest_level then
           ratio ← truediv highest_level (Z.max required_level 1);
           if (0.8 <=? ratio)%float
           then int_of_float (Z2F 30 + 35 * ratio)%float
           else int_of_float (Z2F 30 + 20 * ratio)%float
         else Ok education_score);
      let education_score :=
        if 0 <? most_recent_grad_year then
          let years_since_grad := current_year - most_recent_grad_year in
          if years_since_grad <=? 5 then education_score + 10
          else if years_since_grad <=? 10 then education_score + 5
          else if 20 <? years_since_grad then education_score - 5
          else education_score
        else education_score in
      let education_score :=
        if List.existsb has_relevant_field (Extract.education resume_entities)
        then education_score + 5
        else education_score in
      Ok (Z.min 100 (Z.max 0 education_score))
  end.

(** [int(overall_score * penalty)] *)
Definition penalize (overall_score : Z) (penalty : float) : result Z :=
  int_of_float (Z2F overall_score * penalty)%float.

(** The reality checks [calculate_scores] applies to the weighted
    overall score. *)
Definition reality_checks
    (overall_score coverage_score experience_score education_score : Z)
  : result Z :=
  overall_score ←
    (if coverage_score <? 60 then penalize overall_score 0.7
     else if coverage_score <? 75 then penalize overall_score 0.85
     else Ok overall_score);
  overall_score ←
    (if experience_score <? 30 then penalize overall_score 0.6
     else if experience_score <? 50 then penalize overall_score 0.75
     else Ok overall_score);
  overall_score ←
    (if education_score <? 40 then penalize overall_score 0.9
     else Ok overall_score);
  let overall_score :=
    if (80 <? overall_score)
       && ((experience_score <? 60) || (coverage_score <? 70))
    then Z.min overall_score 65
    else overall_score in
  let overall_score :=
    if (70 <? overall_score)
       && ((experience_score <? 40) || (coverage_score <? 60))
    then Z.min overall_score 50
    else overall_score in
  Ok overall_score.

Definition calculate_scores (matches : Match.MatchResults)
    (jd_requirements : Jd.JDRequirements)
    (resume_entities : Extract.ExtractedEntities) : result Dto.Score :=
  coverage_score ← calculate_coverage_score matches jd_requirements;
  experience_score ←
    calculate_experience_score resume_entities jd_requirements matches;
  education_score ← calculate_education_score resume_entities jd_requirements;
  overall_score ←
    calculate_overall_score config coverage_score experience_score
                            education_score;
  overall_score ←
    reality_checks overall_score coverage_score experience_score
                   education_score;
  Dto.make_Score overall_score coverage_score experience_score
                 education_score.

End Scorer.

(** The reality checks read the three component scores through
    comparisons with constants only; one representative of each band. *)
Definition coverage_band (c : Z) : Z :=
  if c <? 60 then 0 else if c <? 70 then 60 else if c <? 75 then 70 else 75.

Definition experience_band (e : Z) : Z :=
  if e <? 30 then 0 else if e <? 40 then 30 else if e <? 50 then 40
  else if e <? 60 then 50 else 60.

Definition education_band (d : Z) : Z := if d <? 40 then 0 else 40.

(** [range(n)] *)
Definition range (n : nat) : list Z := List.map Z.of_nat (List.seq 0 n).

(** What the reality checks guarantee of their result, as a test. *)
Definition reality_checked (o c e d : Z) : bool :=
  match reality_checks o c e d with
  | Ok v =>
      (0 <=? v) && (v <=? o) &&
      implb (c <? 60) (v <=? 70) &&
      implb (e <? 30) (v <=? 60) &&
      implb (e <? 50) (v <=? 75) &&
      implb ((e <? 60) || (c <? 70)) (v <=? 80) &&
      implb ((e <? 40) || (c <? 60)) (v <=? 70) &&
      implb ((75 <=? c) && (60 <=? e) && (40 <=? d)) (v =? o)
  | Raise _ => false
  end.

End Score.

(* ===================================================================== *)
(** * [services/parse.py] *)
(* ===================================================================== *)

Module Parse.

Record ParsedDocument : Type := {
  text : str;
  meta : Dto.ParseMeta;
}.

(** *** [pathlib]

    [Path(filename).suffix] on a POSIX path: the final component is the
    last part that is neither empty nor a single dot, and its suffix
    starts at its last dot unless that dot is the first or the last
    character. *)
Definition path_name (filename : str) : str :=
  List.last
    (List.filter (fun part => negb (str_eqb part []) && negb (str_eqb part (u ".")))
                 (split_on 47%N filename))
    [].

(** [name[name.rfind('.'):]] when the last dot is at an index [i] with
    [0 < i < len(name) - 1], the empty string otherwise. *)
Fixpoint last_dot_suffix (name : str) : option str :=
  match name with
  | [] => None
  | c :: rest =>
      match last_dot_suffix rest with
      | Some sfx => Some sfx
      | None => if N.eqb c 46%N then Some name else None
      end
  end.

Definition path_suffix (filename : str) : str :=
  match path_name filename with
  | [] => []
  | c :: rest =>
      match last_dot_suffix rest with
      | Some ((_ :: _ :: _) as sfx) => sfx
      | _ => []
      end
  end.

(** The three stages of [detect_filetype]; each gives [None] when it
    does not decide. *)
Definition by_magic_bytes (content : bytes) : option str :=
  if startswith content (u "%PDF") then Some (u "pdf")
  else if startswith content [80; 75; 3; 4]%N then Some (u "docx")
  else if startswith content [137; 80; 78; 71]%N
          || startswith content [255; 216; 255]%N
          || startswith content (u "GIF8")
  then Some (u "image")
  else None.

Definition by_extension (filename : str) : option str :=
  match filename with
  | [] => None
  | _ :: _ =>
      let ext := lower (path_suffix filename) in
      if str_eqb ext (u ".pdf") then Some (u "pdf")
      else if mem ext [u ".docx"; u ".doc"] then Some (u "docx")
      else if mem ext [u ".png"; u ".jpg"; u ".jpeg"; u ".gif";
                           u ".bmp"; u ".tiff"]
      then Some (u "image")
      else None
  end.

Definition by_content_type (content_type : option str) : option str :=
  match content_type with
  | None | Some [] => None
  | Some content_type =>
      if contains content_type (u "pdf") then Some (u "pdf")
      else if contains content_type (u "wordprocessingml")
              || contains content_type (u "msword")
      then Some (u "docx")
      else if contains content_type (u "image") then Some (u "image")
      else None
  end.

Definition detect_filetype (content : bytes) (filename : str)
    (content_type : option str) : result str :=
  match by_magic_bytes content with
  | Some t => Ok t
  | None =>
      match by_extension filename with
      | Some t => Ok t
      | None =>
          match by_content_type content_type with
          | Some t => Ok t
          | None =>
              Raise (FileProcessingError
                       (u "Unsupported file type: " ++ filename))
          end
      end
  end.

(** *** What PyMuPDF and python-docx hand to the extractors *)

Definition bbox : Type := float * float * float * float.

Definition bbox0 (b : bbox) : float := let '(x0, _, _, _) := b in x0.
Definition bbox1 (b : bbox) : float := let '(_, y0, _, _) := b in y0.

(** A block of [page.get_text("dict")["blocks"]]: [lines] is [None] for
    a block without the key ["lines"] (an image block). *)
Record Block : Type := {
  block_bbox : bbox;
  lines : option (list bbox);
}.

(** One page: [page.get_text()], the blocks of [page.get_text("dict")],
    and the outcome of rasterizing the page and running Tesseract on it. *)
Record Page : Type := {
  page_text : str;
  blocks : list Block;
  page_ocr : result str;
}.

Record DocxDocument : Type := {
  paragraphs : list str;
  tables : list (list (list str));
}.

(** The local variables of [extract_text_from_pdf] while it walks the
    pages. *)
Record PdfScan : Type := {
  text_parts : list str;
  scan_has_columns : bool;
  scan_has_tables : bool;
  scan_ocr_used : bool;
  total_chars : Z;
  extracted_chars : Z;
}.

Definition pdf_scan_init : PdfScan :=
  {| text_parts := []; scan_has_columns := false; scan_has_tables := false;
     scan_ocr_used := false; total_chars := 0; extracted_chars := 0 |}.

(** The body of the page loop of [extract_text_from_pdf]. *)
Definition pdf_scan_page (st : PdfScan) (page : Page) : result PdfScan :=
  let page_text := page_text page in
  let st :=
    if nonblank page_text then
      {| text_parts := text_parts st ++ [page_text];
         scan_has_columns := scan_has_columns st;
         scan_has_tables := scan_has_tables st;
         scan_ocr_used := scan_ocr_used st;
         total_chars := total_chars st;
         extracted_chars := extracted_chars st + len page_text |}
    else
      match page_ocr page with
      | Ok ocr_text =>
          if nonblank ocr_text then
            {| text_parts := text_parts st ++ [ocr_text];
               scan_has_columns := scan_has_columns st;
               scan_has_tables := scan_has_tables st;
               scan_ocr_used := true;
               total_chars := total_chars st;
               extracted_chars := extracted_chars st + len ocr_text |}
          else st
      | Raise _ => st
      end in
  let blocks := blocks page in
  has_columns ←
    (if 1 <? len blocks then
       let x_positions :=
         List.flat_map (fun b => match lines b with
                                 | Some ls => List.map bbox0 ls
                                 | None => []
                                 end) blocks in
       cells ← mapM (fun x => round (x / 50)%float) x_positions;
       Ok (if 2 <? len (distinct cells) then true else scan_has_columns st)
     else Ok (scan_has_columns st));
  has_tables ←
    (if 3 <? len blocks then
       let y_positions :=
         List.flat_map (fun b => match lines b with
                                 | Some _ => [bbox1 (block_bbox b)]
                                 | None => []
                                 end) blocks in
       cells ← mapM (fun y => round (y / 10)%float) y_positions;
       Ok (if (Z2F (len (distinct cells)) <? Z2F (len y_positions) * 0.7)%float
           then true else scan_has_tables st)
     else Ok (scan_has_tables st));
  Ok {| text_parts := text_parts st;
        scan_has_columns := has_columns;
        scan_has_tables := has_tables;
        scan_ocr_used := scan_ocr_used st;
        total_chars := total_chars st + Z.max (len page_text) 100;
        extracted_chars := extracted_chars st |}.

Fixpoint pdf_scan (st : PdfScan) (doc : list Page) : result PdfScan :=
  match doc with
  | [] => Ok st
  | page :: rest => st' ← pdf_scan_page st page; pdf_scan st' rest
  end.

Section Extractors.

(** [fitz.open(stream=content, filetype="pdf")], with the pages read. *)
Variable fitz_open : bytes -> result (list Page).

(** [Document(io.BytesIO(content))] *)
Variable Document : bytes -> result DocxDocument.

(** [Image.open(io.BytesIO(content))] and
    [pytesseract.image_to_string(image, config='--psm 6')]. *)
Variable image : Type.
Variable Image_open : bytes -> result image.
Variable image_to_string : image -> result str.

Definition extract_text_from_pdf (content : bytes)
  : result (str * bool * float) :=
  try_except
    (doc ← fitz_open content;
     st ← pdf_scan pdf_scan_init doc;
     let full_text := join (nl ++ nl) (text_parts st) in
     q ← truediv (extracted_chars st) (Z.max (total_chars st) 1);
     let extractability_score := fmin q 1.0 in
     Ok (full_text, scan_ocr_used st, extractability_score))
    (fun e => Raise (TextExtractionError
                       (u "Failed to extract text from PDF: " ++ exn_str e))).

Definition extract_text_from_docx (content : bytes)
  : result (str * bool * float) :=
  try_except
    (doc ← Document content;
     let text_parts := List.filter nonblank (paragraphs doc) in
     let table_parts :=
       List.flat_map (fun table =>
         List.flat_map (fun row =>
           let row_text := List.map strip (List.filter nonblank row) in
           match row_text with
           | [] => []
           | _ => [join (u " | ") row_text]
           end) table) (tables doc) in
     let full_text := join nl (text_parts ++ table_parts) in
     Ok (full_text, false, 1.0%float))
    (fun e => Raise (TextExtractionError
                       (u "Failed to extract text from DOCX: " ++ exn_str e))).

Definition extract_text_from_image (content : bytes)
  : result (str * bool * float) :=
  try_except
    (image ← Image_open content;
     ocr_text ← image_to_string image;
     if negb (nonblank ocr_text)
     then Raise (OCRError (u "No text found in image"))
     else
       let extractability_score :=
         if 50 <? len (strip ocr_text) then 0.8%float else 0.5%float in
       Ok (ocr_text, true, extractability_score))
    (fun e =>
       match e with
       | TesseractError _ =>
           Raise (OCRError (u "Tesseract OCR failed: " ++ exn_str e))
       | _ =>
           Raise (TextExtractionError
                    (u "Failed to extract text from image: " ++ exn_str e))
       end).

Definition parse_document (content : bytes) (filename : str)
    (content_type : option str) : result ParsedDocument :=
  match content with
  | [] => Raise (FileProcessingError (u "Empty file content"))
  | _ :: _ =>
      filetype ← detect_filetype content filename content_type;
      '(text, ocr_used, extractability_score, has_columns, has_tables) ←
        (if str_eqb filetype (u "pdf") then
           '(text, ocr_used, score) ← extract_text_from_pdf content;
           Ok (text, ocr_used, score, true, false)
         else if str_eqb filetype (u "docx") then
           '(text, ocr_used, score) ← extract_text_from_docx content;
           Ok (text, ocr_used, score, false, true)
         else if str_eqb filetype (u "image") then
           '(text, ocr_used, score) ← extract_text_from_image content;
           Ok (text, ocr_used, score, false, false)
         else Raise (FileProcessingError
                       (u "Unsupported file type: " ++ filetype)));
      if negb (nonblank text)
      then Raise (TextExtractionError
                    (u "No text content extracted from document"))
      else
        Ok {| text := text;
              meta := {| Dto.filetype := filetype;
                         Dto.has_columns := has_columns;
                         Dto.has_tables := has_tables;
                         Dto.extractability_score := extractability_score;
                         Dto.ocr_used := ocr_used |} |}
  end.

End Extractors.

(** The three file types the service handles. *)
Definition known_filetype (t : str) : Prop :=
  t = u "pdf" \/ t = u "docx" \/ t = u "image".

(** The exceptions of the service that parsing a document raises. *)
Definition service_error (e : exn) : Prop :=
  match e with
  | FileProcessingError _ | TextExtractionError _ | OCRError _ => True
  | _ => False
  end.

(** What a page of a PDF contributes to the text: its own text, or the
    text OCR reads on it when it has none. *)
Definition page_part (page : Page) : list str :=
  if nonblank (page_text page) then [page_text page]
  else match page_ocr page with
       | Ok ocr_text => if nonblank ocr_text then [ocr_text] else []
       | Raise _ => []
       end.

Definition page_used_ocr (page : Page) : bool :=
  negb (nonblank (page_text page)) &&
  match page_ocr page with
  | Ok ocr_text => nonblank ocr_text
  | Raise _ => false
  end.

End Parse.

(* ===================================================================== *)
(** * [services/sectionizer.py] *)
(* ===================================================================== *)

Module Sectionizer.

Import Re.

(** A header pattern of [SECTION_PATTERNS]: words separated by [\\s+],
    the last one followed by an optional [s] when [plural] is set
    ([hdr ["key"; "project"] true] is [key\\s+projects?]).  The patterns
    are searched with [re.IGNORECASE]. *)
Fixpoint hdr_words (words : list string) : list re :=
  match words with
  | [] => []
  | [w] => [ilit w]
  | w :: rest => ilit w :: plus ws :: hdr_words rest
  end.

Definition hdr (words : list string) (plural : bool) : re :=
  seq (hdr_words words ++ if plural then [opt (ichr 115)] else []).

Definition SECTION_PATTERNS : list (string * list re) :=
  [ ("summary"%string,
      [ hdr ["professional"; "summary"]%string false;
        hdr ["career"; "summary"]%string false;
        hdr ["executive"; "summary"]%string false;
        hdr ["profile"]%string false;
        hdr ["summary"]%string false;
        hdr ["overview"]%string false;
        hdr ["objective"]%string false;
        hdr ["career"; "objective"]%string false ]);
    ("experience"%string,
      [ hdr ["work"; "experience"]%string false;
        hdr ["professional"; "experience"]%string false;
        hdr ["employment"; "history"]%string false;
        hdr ["career"; "history"]%string false;
        hdr ["experience"]%string false;
        hdr ["employment"]%string false;
        hdr ["work"; "history"]%string false ]);
    ("education"%string,
      [ hdr ["education"]%string false;
        hdr ["educational"; "background"]%string false;
        hdr ["academic"; "background"]%string false;
        hdr ["qualifications"]%string false;
        hdr ["degree"]%string true ]);
    ("skills"%string,
      [ hdr ["technical"; "skills"]%string false;
        hdr ["core"; "competencies"]%string false;
        hdr ["key"; "skills"]%string false;
        hdr ["skills"]%string false;
        hdr ["competencies"]%string false;
        hdr ["expertise"]%string false;
        hdr ["technologies"]%string false;
        hdr ["technical"; "expertise"]%string false ]);
    ("projects"%string,
      [ hdr ["project"]%string true;
        hdr ["key"; "project"]%string true;
        hdr ["notable"; "project"]%string true;
        hdr ["selected"; "project"]%string true;
        hdr ["personal"; "project"]%string true;
        hdr ["portfolio"]%string false ]);
    ("certifications"%string,
      [ hdr ["certification"]%string true;
        hdr ["certificate"]%string true;
        hdr ["professional"; "certification"]%string true;
        hdr ["license"]%string true ]);
    ("awards"%string,
      [ hdr ["award"]%string true;
        hdr ["honor"]%string true;
        hdr ["achievement"]%string true;
        hdr ["recognition"]%string true;
        hdr ["accomplishment"]%string true ]);
    ("languages"%string,
      [ hdr ["language"]%string true;
        hdr ["language"; "skills"]%string false;
        hdr ["linguistic"; "skills"]%string false ]);
    ("publications"%string,
      [ hdr ["publication"]%string true;
        hdr ["paper"]%string true;
        hdr ["research"]%string false;
        hdr ["article"]%string true ]);
    ("references"%string,
      [ hdr ["reference"]%string true;
        hdr ["recommendation"]%string true ]) ].

(** The decorative characters [=], [-], [_], [*] and the bullet U+2022. *)
Definition decorative : str := [61; 45; 95; 42; 8226]%N.

(** The section a line is the header of, if any: the test the loop of
    [find_section_boundaries] applies to each line. *)
Definition line_section (line : str) : option string :=
  let line_stripped := strip line in
  match line_stripped with
  | [] => None
  | _ :: _ =>
      if 50 <? len line_stripped then None
      else
        let clean_line :=
          strip (sub_empty (plus (one_of decorative)) line_stripped) in
        match clean_line with
        | [] => None
        | _ :: _ =>
            option_map fst
              (List.find (fun entry =>
                            List.existsb (fun pattern => search pattern clean_line)
                                         (snd entry))
                         SECTION_PATTERNS)
        end
  end.

(** A boundary: section name, line index, character offset. *)
Definition boundary : Type := string * nat * nat.

(** The loop over the lines: [i] is the index of the first line of
    [lines] and [char_pos] the offset where it starts. *)
Fixpoint boundaries_from (i char_pos : nat) (lines : list str)
  : list boundary :=
  match lines with
  | [] => []
  | line :: rest =>
      let tail := boundaries_from (S i) (char_pos + length line + 1) rest in
      match line_section line with
      | Some section_name => (section_name, i, char_pos) :: tail
      | None => tail
      end
  end.

(** [list.sort(key=lambda x: x[1])]: a stable sort on the line index. *)
Fixpoint insert_by_line (b : boundary) (bs : list boundary) : list boundary :=
  match bs with
  | [] => [b]
  | b' :: rest =>
      if (snd (fst b') <=? snd (fst b))%nat
      then b' :: insert_by_line b rest
      else b :: bs
  end.

Definition sort_by_line (bs : list boundary) : list boundary :=
  List.fold_left (fun acc b => insert_by_line b acc) bs [].

Definition find_section_boundaries (text : str) : list boundary :=
  sort_by_line (boundaries_from 0 0 (split_on 10%N text)).

(** A line made of decorative characters and whitespace only
    ([^[=\\-_*\u2022\\s]+$]). *)
Definition decorative_line : re :=
  seq [Bol; plus (Chr (fun c => List.existsb (N.eqb c) decorative || isspace c));
       Eol].

Definition extract_section_content (text : str) (start_pos end_pos : nat)
  : str :=
  let content := strip (slice start_pos end_pos text) in
  let lines := List.tl (split_on 10%N content) in
  let cleaned_lines :=
    List.filter (fun line =>
                   match line with
                   | [] => false
                   | _ :: _ => negb (matches decorative_line line)
                   end)
                (List.map strip lines) in
  join nl cleaned_lines.

(** The loop of [sectionize_text] over the boundaries. *)
Fixpoint fill_sections (text : str) (boundaries : list boundary)
    (sections : gmap string str) : gmap string str :=
  match boundaries with
  | [] => sections
  | (section_name, _, char_pos) :: rest =>
      let end_pos :=
        match rest with
        | (_, _, next_pos) :: _ => next_pos
        | [] => length text
        end in
      let content := extract_section_content text char_pos end_pos in
      let sections :=
        match content with
        | [] => sections
        | _ :: _ =>
            match sections !! section_name with
            | Some old => <[section_name := old ++ nl ++ nl ++ content]> sections
            | None => <[section_name := content]> sections
            end
        end in
      fill_sections text rest sections
  end.

Definition core_sections : list string :=
  ["summary"; "experience"; "education"; "skills"]%string.

(** [for section in core_sections: if section not in sections: ...] *)
Fixpoint ensure_core (core : list string) (sections : gmap string str)
  : gmap string str :=
  match core with
  | [] => sections
  | section :: rest =>
      ensure_core rest
        (match sections !! section with
         | Some _ => sections
         | None => <[section := []]> sections
         end)
  end.

Definition sectionize_text (text : str) : gmap string str :=
  if negb (nonblank text) then ∅ else
  let boundaries := find_section_boundaries text in
  match boundaries with
  | [] => {[ "summary"%string := strip text ]}
  | (_, _, first_section_pos) :: _ =>
      let sections := fill_sections text boundaries ∅ in
      let sections :=
        if (0 <? first_section_pos)%nat then
          let preamble := strip (prefix first_section_pos text) in
          if 50 <? len preamble
          then <["summary"%string := preamble]> sections
          else sections
        else sections in
      ensure_core core_sections sections
  end.

(** The ten section names. *)
Definition section_names : list string := List.map fst SECTION_PATTERNS.

(** What holds of every entry of the dictionary while
    [sectionize_text] fills it: the key is a section name and the
    content is not empty. *)
Definition filled (sections : gmap string str) : Prop :=
  forall k v, sections !! k = Some v -> In k section_names /\ v <> [].

Definition named (b : boundary) : Prop := In (fst (fst b)) section_names.

End Sectionizer.

(* ===================================================================== *)
(** * [services/lint.py] *)
(* ===================================================================== *)

Module Lint.

Import Re.

Definition check_multi_column_layout (text : str) : bool :=
  let lines := List.filter nonblank (split_on 10%N text) in
  let total_content_lines := len lines in
  let suspicious_lines :=
    count_if (fun line => search (at_least 10 ws) line) lines +
    count_if (fun line => (10 <? len (strip line)) && (len (strip line) <? 30))
             lines in
  if total_content_lines =? 0 then false
  else (0.3 <? Z2F suspicious_lines / Z2F total_content_lines)%float.

Definition check_table_formatting (text : str) : bool :=
  let lines := List.filter nonblank (split_on 10%N text) in
  let table_indicators :=
    count_if (fun line => 2 <=? count line [124%N]) lines +
    count_if (fun line => List.existsb (N.eqb 9) line) lines +
    count_if (fun line =>
                search (at_least 3 (seq [at_least 3 ws;
                                         plus (Chr (fun c => negb (isspace c)))]))
                       line) lines in
  2 <? table_indicators.

Definition check_image_heavy_content (text : str) : bool :=
  len (split text) <? 50.

(** The punctuation [check_font_readability] accepts: space, line feed,
    tab, [.,;:!?()-_[]{}], the two quotes and the slash. *)
Definition plain_punctuation : str :=
  [32; 10; 9]%N ++ u ".,;:!?()-_[]{}" ++ [34; 39; 47]%N.

Definition check_font_readability (text : str) : bool :=
  let total_chars := len text in
  if total_chars =? 0 then false
  else
    let special_char_count :=
      count_if (fun char => negb (isalnum char) &&
                            negb (List.existsb (N.eqb char) plain_punctuation))
               text in
    (0.05 <? Z2F special_char_count / Z2F total_chars)%float.

(** [\\b[A-Za-z0-9._%+-]+@[A-Za-z0-9.-]+\\.[A-Z|a-z]{2,}\\b] *)
Definition email_pattern : re :=
  seq [ WordB;
        plus (Chr (fun c => isalnum c || List.existsb (N.eqb c) (u "._%+-")));
        chr 64;
        plus (Chr (fun c => isalnum c || List.existsb (N.eqb c) (u ".-")));
        chr 46;
        at_least 2 (Chr (fun c => ((65 <=? c) && (c <=? 90) || (c =? 124) ||
                                   (97 <=? c) && (c <=? 122))%N));
        WordB ].

(** [\\b\\d{3}[-.]?\\d{3}[-.]?\\d{4}\\b] *)
Definition phone_pattern : re :=
  seq [ WordB; exactly 3 digit; opt (one_of (u "-.")); exactly 3 digit;
        opt (one_of (u "-.")); exactly 4 digit; WordB ].

Definition check_contact_info_format (text : str) : bool * list str :=
  let has_email := search email_pattern text in
  let has_phone := search phone_pattern text in
  let issues :=
    (if has_email then [] else [u "No email address found"]) ++
    (if has_phone then [] else [u "No phone number found"]) in
  (match issues with [] => true | _ :: _ => false end, issues).

Definition standard_headers : list re :=
  [ ilit "experience"; ilit "education"; ilit "skills"; ilit "summary";
    Sectionizer.hdr ["work"; "experience"]%string false;
    Sectionizer.hdr ["professional"; "experience"]%string false;
    Sectionizer.hdr ["technical"; "skills"]%string false;
    Sectionizer.hdr ["core"; "competencies"]%string false;
    ilit "employment"; ilit "career"; ilit "background";
    ilit "qualifications"; ilit "achievements"; ilit "accomplishments";
    ilit "projects" ].

Definition check_section_headers (text : str) : bool :=
  3 <=? count_if (fun header_pattern => search header_pattern text)
                 standard_headers.

(** [\\b\\d+(?:[.,]\\d+)*(?:%|\\$|k|million|billion)?\\b] *)
Definition number_pattern : re :=
  seq [ WordB; plus digit; star (seq [one_of (u ".,"); plus digit]);
        opt (alt [chr 37; chr 36; chr 107; lit "million"; lit "billion"]);
        WordB ].

Definition action_verbs : list str :=
  [ u "achieved"; u "managed"; u "led"; u "developed"; u "created";
    u "improved"; u "increased"; u "reduced"; u "implemented";
    u "designed"; u "built"; u "delivered" ].

Definition ascii_letter (c : N) : bool :=
  ((65 <=? c) && (c <=? 90) || (97 <=? c) && (c <=? 122))%N.

Definition date_patterns : list re :=
  [ seq [exactly 4 digit; star ws; chr 45; star ws; exactly 4 digit];
    seq [between 1 2 digit; chr 47; exactly 4 digit];
    seq [plus (Chr ascii_letter); plus ws; exactly 4 digit] ].

Definition education_pattern : re :=
  alt [ ilit "bachelor"; ilit "master"; ilit "phd"; ilit "degree";
        ilit "university"; ilit "college" ].

Definition sumZ (l : list Z) : Z := List.fold_right Z.add 0 l.

Definition warn (s : string) : Dto.ATSWarnings :=
  {| Dto.warnings := [u s]; Dto.passes := [] |}.
Definition pass (s : string) : Dto.ATSWarnings :=
  {| Dto.warnings := []; Dto.passes := [u s] |}.
Definition silent : Dto.ATSWarnings :=
  {| Dto.warnings := []; Dto.passes := [] |}.

(** The checks of [check_ats_compatibility], in the order the function
    runs them; each gives the strings it appends to [warnings] and to
    [passes]. *)

Definition layout_check (text : str) : Dto.ATSWarnings :=
  if check_multi_column_layout text
  then warn "Multi-column layout detected - may break ATS parsing"
  else pass "Single-column layout is ATS-friendly".

Definition table_check (text : str) : Dto.ATSWarnings :=
  if check_table_formatting text
  then warn "Table-like formatting may break parsers"
  else pass "No complex table formatting detected".

Definition image_check (text : str) : Dto.ATSWarnings :=
  if check_image_heavy_content text
  then warn "Low text density - document may be image-heavy"
  else pass "Good text density for ATS parsing".

Definition font_check (text : str) : Dto.ATSWarnings :=
  if check_font_readability text
  then warn "Unusual characters detected - may indicate font issues"
  else pass "Text appears cleanly formatted".

Definition contact_check (text : str) : Dto.ATSWarnings :=
  let '(contact_ok, contact_issues) := check_contact_info_format text in
  if negb contact_ok
  then {| Dto.warnings :=
            List.map (fun issue => u "Contact info: " ++ issue) contact_issues;
          Dto.passes := [] |}
  else pass "Contact information is properly formatted".

Definition headers_check (text : str) : Dto.ATSWarnings :=
  if negb (check_section_headers text)
  then warn "Missing or unclear section headers - need at least 3 standard sections"
  else pass "Clear section headers found".

Definition length_check (text : str) : Dto.ATSWarnings :=
  let word_count := len (split text) in
  if word_count <? 300
  then warn "Resume too short - needs more detailed descriptions and achievements"
  else if 800 <? word_count
  then warn "Resume too long - ATS may truncate or skip content"
  else pass "Resume length is appropriate".

Definition numbers_check (text : str) : Dto.ATSWarnings :=
  let numbers_count := findall_count number_pattern text in
  if numbers_count <? 5
  then warn "Lacks sufficient quantified achievements - add more specific numbers, percentages, and metrics"
  else pass "Good use of quantified achievements".

Definition verbs_check (text : str) : Dto.ATSWarnings :=
  let action_verb_count :=
    count_if (fun verb => contains (lower text) verb) action_verbs in
  if action_verb_count <? 3
  then warn "Few action verbs found - use strong action words to describe accomplishments"
  else pass "Good use of action verbs".

Definition encoding_check (text : str) : Dto.ATSWarnings :=
  if search (Chr (fun c => (127 <? c)%N)) text
  then warn "Non-standard characters found - may cause parsing issues"
  else pass "Standard character encoding used".

Definition bullets_check (text : str) : Dto.ATSWarnings :=
  if 25 <? count text [8226%N]
  then warn "Excessive bullet points may overwhelm ATS"
  else if count text [8226%N] <? 3
  then warn "Too few bullet points - use bullets to structure content"
  else pass "Appropriate use of bullet points".

Definition visual_check (text : str) : Dto.ATSWarnings :=
  if List.existsb (fun indicator => contains (lower text) indicator)
                  [u "image"; u "graphic"; u "chart"; u "table"]
  then warn "References to visual elements that ATS cannot parse"
  else silent.

Definition pronouns_check (text : str) : Dto.ATSWarnings :=
  let pronouns := [u "i "; u "me "; u "my "; u "myself"] in
  let pronoun_count :=
    sumZ (List.map (fun pronoun => count (lower text) pronoun) pronouns) in
  if 3 <? pronoun_count
  then warn "Too many personal pronouns - use action-focused language instead"
  else pass "Appropriate use of professional language".

Definition skills_check (text : str) : Dto.ATSWarnings :=
  let skills_keywords :=
    [u "skill"; u "proficient"; u "experience with"; u "knowledge of"] in
  let skills_mentions :=
    count_if (fun keyword => contains (lower text) keyword) skills_keywords in
  if skills_mentions <? 2
  then warn "Skills section appears weak - clearly list technical and professional skills"
  else silent.

Definition dates_check (text : str) : Dto.ATSWarnings :=
  let date_count :=
    sumZ (List.map (fun pattern => findall_count pattern text) date_patterns) in
  if date_count <? 2
  then warn "Missing or unclear date formats - use consistent MM/YYYY format"
  else silent.

Definition education_check (text : str) : Dto.ATSWarnings :=
  if negb (search education_pattern text)
  then warn "Education section missing or unclear"
  else silent.

Definition checks : list (str -> Dto.ATSWarnings) :=
  [ layout_check; table_check; image_check; font_check; contact_check;
    headers_check; length_check; numbers_check; verbs_check;
    encoding_check; bullets_check; visual_check; pronouns_check;
    skills_check; dates_check; education_check ].

Definition check_ats_compatibility (text : str) : Dto.ATSWarnings :=
  {| Dto.warnings := List.flat_map (fun check => Dto.warnings (check text)) checks;
     Dto.passes := List.flat_map (fun check => Dto.passes (check text)) checks |}.

(** The number of strings a check contributes on [text]. *)
Definition contribution (check : str -> Dto.ATSWarnings) (text : str) : nat :=
  length (Dto.warnings (check text)) + length (Dto.passes (check text)).

(** The three shapes a contribution takes: one warning or else one pass;
    one pass or else one or two warnings; one warning or nothing. *)
Definition one_warning_or_one_pass (r : Dto.ATSWarnings) : Prop :=
  (exists w, Dto.warnings r = [w] /\ Dto.passes r = []) \/
  (exists p, Dto.warnings r = [] /\ Dto.passes r = [p]).

Definition one_pass_or_warnings (r : Dto.ATSWarnings) : Prop :=
  (exists p, Dto.warnings r = [] /\ Dto.passes r = [p]) \/
  (Dto.passes r = [] /\
   (1 <= length (Dto.warnings r) <= 2)%nat).

Definition one_warning_or_nothing (r : Dto.ATSWarnings) : Prop :=
  Dto.passes r = [] /\
  (Dto.warnings r = [] \/ exists w, Dto.warnings r = [w]).

(** Seven of the strings of [check_ats_compatibility]. *)
Definition too_few_bullets : str :=
  u "Too few bullet points - use bullets to structure content".
Definition excessive_bullets : str :=
  u "Excessive bullet points may overwhelm ATS".
Definition non_standard_characters : str :=
  u "Non-standard characters found - may cause parsing issues".
Definition appropriate_bullets : str := u "Appropriate use of bullet points".
Definition standard_encoding : str := u "Standard character encoding used".
Definition low_text_density : str :=
  u "Low text density - document may be image-heavy".
Definition too_short : str :=
  u "Resume too short - needs more detailed descriptions and achievements".

End Lint.

(* ===================================================================== *)
(** * [api/routes.py]: the endpoint [/parse] *)
(* ===================================================================== *)

Module Routes.

(** What the handler reads of the uploaded file: its name, declared
    content type and size, and the outcome of [await file.read()]. *)
Record UploadFile : Type := {
  filename : option str;
  content_type : option str;
  size : option Z;
  read : result bytes;
}.

Record ParseResponse : Type := {
  text : str;
  sections : gmap string str;
  meta : Dto.ParseMeta;
}.

(** [isinstance(e, ATSAnalyzerException)] *)
Definition is_ats_exception (e : exn) : bool :=
  match e with
  | FileProcessingError _ | TextExtractionError _ | OCRError _
  | EntityExtractionError _ | ScoringError _ | ConfigurationError _ => true
  | _ => false
  end.

(** The status code [ats_exception_handler] answers with. *)
Definition ats_exception_handler (exc : exn) : Z :=
  match exc with
  | FileProcessingError _ => 422
  | TextExtractionError _ => 422
  | _ => 400
  end.

Section Endpoint.

Variable fitz_open : bytes -> result (list Parse.Page).
Variable Document : bytes -> result Parse.DocxDocument.
Variable image : Type.
Variable Image_open : bytes -> result image.
Variable image_to_string : image -> result str.

(** The [try] block of [parse_resume]. *)
Definition parse_resume_body (file : UploadFile) : result ParseResponse :=
  match filename file with
  | None | Some [] => Raise (FileProcessingError (u "No filename provided"))
  | Some name =>
      if match size file with
         | Some n => negb (n =? 0) && (10 * 1024 * 1024 <? n)
         | None => false
         end
      then Raise (FileProcessingError (u "File size exceeds 10MB limit"))
      else
        content ← read file;
        parsed_doc ←
          Parse.parse_document fitz_open Document image Image_open
            image_to_string content name (content_type file);
        let sections := Sectionizer.sectionize_text (Parse.text parsed_doc) in
        Ok {| text := Parse.text parsed_doc;
              sections := sections;
              meta := Parse.meta parsed_doc |}
  end.

(** [parse_resume]: an exception of the service passes through, any
    other is wrapped in a [FileProcessingError]. *)
Definition parse_resume (file : UploadFile) : result ParseResponse :=
  try_except (parse_resume_body file)
    (fun e =>
       if is_ats_exception e then Raise e
       else Raise (FileProcessingError
                     (u "Failed to parse document: " ++ exn_str e))).

End Endpoint.

End Routes.

(* ===================================================================== *)
(** * Concrete inputs used by the examples below *)
(* ===================================================================== *)

Module Examples.

(** The literal inputs of [test_no_requirements_perfect_score]. *)
Definition no_matches : Match.MatchResults :=
  {| Match.required_matches := [];
     Match.preferred_matches := [];
     Match.missing := {| Dto.required := []; Dto.preferred := [] |};
     Match.weakly_supported := [];
     Match.suggestions := [];
     Match.evidence_list := [] |}.

Definition no_requirements : Jd.JDRequirements :=
  {| Jd.required_skills := [];
     Jd.preferred_skills := [];
     Jd.experience_years := 0;
     Jd.education_level := u "unspecified";
     Jd.title := u "Any Position";
     Jd.all_skills := [] |}.

(** The below-threshold match of [test_partial_coverage_score]. *)
Definition javascript_match : Match.SkillMatch :=
  {| Match.jd_skill := u "JavaScript";
     Match.resume_skill := None;
     Match.similarity := 0.5;
     Match.is_required := true;
     Match.evidence := None |}.

(** An embedding model that knows two strings; the cosine of their
    vectors is 4 / (1 * 5) = 0.8. *)
Definition two_word_model (s : str) : result (list float) :=
  if str_eqb s (u "git lab") then Ok [1.0; 0.0]%float
  else if str_eqb s (u "gitlab") then Ok [4.0; 3.0]%float
  else Raise (PyException (u "unknown sentence")).

(** A job description that requires "git lab" and a resume that lists
    "gitlab". *)
Definition gitlab_requirements : Jd.JDRequirements :=
  {| Jd.required_skills :=
       [ {| Jd.skill := u "git lab"; Jd.is_required := true;
            Jd.context := u "Must know git lab"; Jd.confidence := 0.8 |} ];
     Jd.preferred_skills := [];
     Jd.experience_years := 0;
     Jd.education_level := u "unspecified";
     Jd.title := u "Engineer";
     Jd.all_skills := [u "git lab"] |}.

Definition gitlab_resume : Extract.ExtractedEntities :=
  {| Extract.skills :=
       [ {| Extract.name := u "gitlab";
            Extract.canonical_name := u "GitLab";
            Extract.confidence := 1.0;
            Extract.section := u "skills";
            Extract.context := u "Used gitlab for CI" |} ];
     Extract.experience := [];
     Extract.education := [];
     Extract.total_experience_months := 0;
     Extract.most_recent_title := None |}.

(** A one-page PDF whose four text blocks start at the same left edge
    and on the same baseline: one column, table-like rows. *)
Definition aligned_block : Parse.Block :=
  {| Parse.block_bbox := (50.0, 100.0, 200.0, 112.0)%float;
     Parse.lines := Some [(50.0, 100.0, 200.0, 112.0)%float] |}.

Definition aligned_page : Parse.Page :=
  {| Parse.page_text := u "Name Role Years Place";
     Parse.blocks := [aligned_block; aligned_block; aligned_block; aligned_block];
     Parse.page_ocr := Raise (PyException (u "not rasterized")) |}.

Definition pdf_bytes : bytes := u "%PDF-1.4".

Definition open_aligned (content : bytes) : result (list Parse.Page) :=
  Ok [aligned_page].

Definition no_docx (content : bytes) : result Parse.DocxDocument :=
  Raise (PyException (u "not a docx file")).

Definition no_image (content : bytes) : result unit :=
  Raise (PyException (u "cannot identify image file")).

Definition no_ocr (image : unit) : result str :=
  Raise (TesseractError (u "tesseract is not installed")).

(** Steps of job-description parsing in which the taxonomy handed to
    skill discovery is malformed and the call raises. *)
Definition faulty_steps : Jd.Steps :=
  {| Jd.title_step := fun text => Ok (Jd.extract_job_title text);
     Jd.skills_step := fun text =>
       Raise (PyException (u "'int' object is not iterable"));
     Jd.classify_step := fun text skills =>
       Ok (Jd.classify_skill_requirements Jd.fallback_cue_lexicon text skills);
     Jd.experience_step := fun text =>
       Ok (Jd.extract_experience_requirements text);
     Jd.education_step := fun text =>
       Ok (Jd.extract_education_requirements text) |}.

(** A resume on which nothing was extracted. *)
Definition blank_resume : Extract.ExtractedEntities :=
  {| Extract.skills := [];
     Extract.experience := [];
     Extract.education := [];
     Extract.total_experience_months := 0;
     Extract.most_recent_title := None |}.

(** A job description that requires Python and prefers Docker, and a
    resume that shows Python in its experience section. *)
Definition python_requirements : Jd.JDRequirements :=
  {| Jd.required_skills :=
       [ {| Jd.skill := u "Python"; Jd.is_required := true;
            Jd.context := u "Python is required"; Jd.confidence := 0.9 |} ];
     Jd.preferred_skills :=
       [ {| Jd.skill := u "Docker"; Jd.is_required := false;
            Jd.context := u "Docker is a plus"; Jd.confidence := 0.7 |} ];
     Jd.experience_years := 3;
     Jd.education_level := u "bachelor";
     Jd.title := u "Backend Engineer";
     Jd.all_skills := [u "Python"; u "Docker"] |}.

Definition python_skill : Extract.ExtractedSkill :=
  {| Extract.name := u "python";
     Extract.canonical_name := u "Python";
     Extract.confidence := 1.0;
     Extract.section := u "experience";
     Extract.context := u "Built Python services" |}.

Definition python_resume : Extract.ExtractedEntities :=
  {| Extract.skills := [python_skill];
     Extract.experience := [];
     Extract.education := [];
     Extract.total_experience_months := 0;
     Extract.most_recent_title := None |}.

Definition python_evidence : Dto.Evidence :=
  {| Dto.skill := u "Python";
     Dto.section := u "experience";
     Dto.quote := u "Built Python services";
     Dto.similarity := 0.9 |}.

(** A configuration file without the key [similarity_thresholds]. *)
Definition no_thresholds : Config.ScoringConfig :=
  {| Config.similarity_thresholds := None;
     Config.weights := Some Config.default_weights;
     Config.section_weights := None;
     Config.recency_years_boost := None |}.

(** Three bullets U+2022. *)
Definition three_bullets : str := [8226; 32; 8226; 32; 8226]%N.

(** An upload named [cv.pdf] that holds no byte. *)
Definition empty_upload : Routes.UploadFile :=
  {| Routes.filename := Some (u "cv.pdf");
     Routes.content_type := None;
     Routes.size := Some 0;
     Routes.read := Ok [] |}.

End Examples.

(* ===================================================================== *)
(** * Properties *)
(* ===================================================================== *)

(** ** Scoring *)

(** C9. With the default weights (coverage 0.6, experience 0.3,
    education 0.1) [calculate_overall_score] returns exactly 78 on
    (80, 70, 90), 0 on (0, 0, 0) and 100 on (100, 100, 100): the
    binary64 products and sums round to 78.0, 0.0 and 100.0. *)
Theorem calculate_overall_score_default_weights :
  Score.calculate_overall_score Config.default_config 80 70 90 = Ok 78 /\
  Score.calculate_overall_score Config.default_config 0 0 0 = Ok 0 /\
  Score.calculate_overall_score Config.default_config 100 100 100 = Ok 100.
Proof. repeat split; vm_compute; reflexivity. Qed.

(** The default configuration is what [get_scoring_config] returns when
    [config/scoring.yaml] does not exist. *)
Lemma get_scoring_config_missing_file :
  Config.get_scoring_config None = Config.default_config.
Proof. reflexivity. Qed.




(** ** File-type detection *)

Lemma detect_filetype_magic (content : bytes) (filename : str)
    (content_type : option str) (t : str) :
  Parse.by_magic_bytes content = Some t ->
  Parse.detect_filetype content filename content_type = Ok t.
Proof. intros H. unfold Parse.detect_filetype. rewrite H. reflexivity. Qed.

Lemma detect_filetype_extension (content : bytes) (filename : str)
    (content_type : option str) (t : str) :
  Parse.by_magic_bytes content = None ->
  Parse.by_extension filename = Some t ->
  Parse.detect_filetype content filename content_type = Ok t.
Proof.
  intros Hm He. unfold Parse.detect_filetype. rewrite Hm, He. reflexivity.
Qed.

Lemma detect_filetype_content_type (content : bytes) (filename : str)
    (content_type : option str) (t : str) :
  Parse.by_magic_bytes content = None ->
  Parse.by_extension filename = None ->
  Parse.by_content_type content_type = Some t ->
  Parse.detect_filetype content filename content_type = Ok t.
Proof.
  intros Hm He Hc. unfold Parse.detect_filetype. rewrite Hm, He, Hc.
  reflexivity.
Qed.

Lemma by_extension_txt (filename : str) :
  lower (Parse.path_suffix filename) = u ".txt" ->
  Parse.by_extension filename = None.
Proof.
  intros H. unfold Parse.by_extension.
  destruct filename as [|c rest]; [reflexivity|].
  rewrite H. reflexivity.
Qed.



(** The cases of [TestFiletypeDetection]. *)
Example detect_filetype_tests :
  Parse.detect_filetype (u "%PDF-1.4") (u "test.pdf")
                        (Some (u "application/pdf")) = Ok (u "pdf") /\
  Parse.detect_filetype ([80; 75; 3; 4]%N ++ u "...") (u "test.docx") None
  = Ok (u "docx") /\
  Parse.detect_filetype ([137]%N ++ u "PNG") (u "test.png") None
  = Ok (u "image") /\
  Parse.detect_filetype (u "some content") (u "test.pdf") None
  = Ok (u "pdf") /\
  Parse.detect_filetype (u "some content") (u "test")
                        (Some (u "application/pdf")) = Ok (u "pdf").
Proof. repeat split; vm_compute; reflexivity. Qed.

(** ** Similarity *)

Lemma SFmul_comm (x y : spec_float) :
  SFmul prec emax x y = SFmul prec emax y x.
Proof.
  destruct x as [sx|sx| |sx mx ex], y as [sy|sy| |sy my ey]; simpl;
    try reflexivity; try (rewrite xorb_comm; reflexivity).
  rewrite xorb_comm, Pos.mul_comm, Z.add_comm. reflexivity.
Qed.

(** IEEE multiplication is commutative. *)
Lemma float_mul_comm (x y : float) : (x * y = y * x)%float.
Proof. apply Prim2SF_inj. rewrite !mul_spec. apply SFmul_comm. Qed.

Lemma str_eqb_sym (a b : str) : str_eqb a b = str_eqb b a.
Proof.
  revert b. induction a as [|x a IH]; intros [|y b]; simpl; try reflexivity.
  rewrite IH, N.eqb_sym. reflexivity.
Qed.

Lemma lcs_cons (x y : N) (a b : str) :
  Match.lcs (x :: a) (y :: b) =
  if N.eqb x y then S (Match.lcs a b)
  else Nat.max (Match.lcs a (y :: b)) (Match.lcs (x :: a) b).
Proof. reflexivity. Qed.

Lemma lcs_nil_r (a : str) : Match.lcs a [] = O.
Proof. destruct a; reflexivity. Qed.

Lemma lcs_sym (a b : str) : Match.lcs a b = Match.lcs b a.
Proof.
  revert b. induction a as [|x a IHa]; intros b.
  - rewrite lcs_nil_r. reflexivity.
  - induction b as [|y b IHb].
    + reflexivity.
    + rewrite !lcs_cons, (N.eqb_sym y x).
      destruct (N.eqb x y).
      * rewrite IHa. reflexivity.
      * rewrite IHb, (IHa (y :: b)), Nat.max_comm. reflexivity.
Qed.

Lemma fuzz_ratio_sym (s1 s2 : str) :
  Match.fuzz_ratio s1 s2 = Match.fuzz_ratio s2 s1.
Proof.
  unfold Match.fuzz_ratio, Match.indel_distance.
  rewrite (lcs_sym s1 s2), (Z.add_comm (len s1) (len s2)). reflexivity.
Qed.

Lemma np_dot_from_sym (a b : list float) (acc : float) :
  Match.np_dot_from acc a b = Match.np_dot_from acc b a.
Proof.
  revert b acc. induction a as [|x a IH]; intros [|y b] acc; simpl;
    try reflexivity.
  rewrite (float_mul_comm x y). apply IH.
Qed.

Lemma np_dot_sym (a b : list float) : Match.np_dot a b = Match.np_dot b a.
Proof. apply np_dot_from_sym. Qed.

Lemma semantic_similarity_sym (embed : str -> result (list float))
    (a b : str) (fuzzy : float) :
  caught (Match.semantic_similarity embed a b fuzzy) =
  caught (Match.semantic_similarity embed b a fuzzy).
Proof.
  unfold Match.semantic_similarity, Match.encode2, Match.np_norm.
  destruct (embed a) as [ea|e1], (embed b) as [eb|e2]; simpl;
    try reflexivity.
  rewrite (np_dot_sym eb ea).
  destruct (Match.np_dot ea eb) as [d|e]; simpl; [|reflexivity].
  destruct (Match.np_dot ea ea) as [da|e], (Match.np_dot eb eb) as [db|e'];
    simpl; try reflexivity.
  rewrite (float_mul_comm (PrimFloat.sqrt db) (PrimFloat.sqrt da)).
  reflexivity.
Qed.

(** C10. [calculate_similarity] is symmetric, for any embedding model
    that is a function of the string it encodes. *)
Theorem calculate_similarity_sym (embed : str -> result (list float))
    (skill1 skill2 : str) :
  Match.calculate_similarity embed skill1 skill2 =
  Match.calculate_similarity embed skill2 skill1.
Proof.
  unfold Match.calculate_similarity.
  rewrite (str_eqb_sym (strip (lower skill2)) (strip (lower skill1))).
  destruct (str_eqb (strip (lower skill1)) (strip (lower skill2)));
    [reflexivity|].
  set (n1 := Match.dict_get Match.synonyms (strip (lower skill1))
                            (strip (lower skill1))).
  set (n2 := Match.dict_get Match.synonyms (strip (lower skill2))
                            (strip (lower skill2))).
  rewrite (str_eqb_sym n2 n1).
  destruct (str_eqb n1 n2); [reflexivity|].
  rewrite (fuzz_ratio_sym n2 n1).
  set (fuzzy := (Match.fuzz_ratio n1 n2 / 100)%float).
  destruct (fuzzy <? 0.7)%float; [reflexivity|].
  destruct (0.95 <=? fuzzy)%float; [reflexivity|].
  pose proof (semantic_similarity_sym embed n1 n2 fuzzy) as H.
  destruct (Match.semantic_similarity embed n1 n2 fuzzy),
           (Match.semantic_similarity embed n2 n1 fuzzy);
    simpl in H; congruence.
Qed.

(** ** Missing and weakly supported skills *)

(** Under any thresholds, a required match below the required-hit
    threshold is listed as missing. *)
Lemma classify_required_missing (config : Config.ScoringConfig)
    (required_matches : list Match.SkillMatch) (th : Config.Thresholds)
    (missing weakly : list str) :
  Config.similarity_thresholds config = Some th ->
  Match.classify_required config required_matches = Ok (missing, weakly) ->
  forall m, In m required_matches ->
    (Match.similarity m <? Config.required_hit th)%float = true ->
    In (Match.jd_skill m) missing.
Proof.
  intros Hth. revert missing weakly.
  induction required_matches as [|m0 rest IH]; intros missing weakly Hc m Hin Hlt.
  - destruct Hin.
  - simpl in Hc. unfold Match.thresholds in Hc. rewrite Hth in Hc. simpl in Hc.
    destruct (Match.classify_required config rest) as [[mr wk]|e] eqn:Hrest;
      simpl in Hc; [|discriminate].
    destruct Hin as [<-|Hin].
    + rewrite Hlt in Hc. inversion Hc; subst. left. reflexivity.
    + specialize (IH mr wk eq_refl m Hin Hlt).
      destruct (Match.similarity m0 <? Config.required_hit th)%float.
      * inversion Hc; subst. right. exact IH.
      * destruct (Match.similarity m0 <? Config.weak_support th)%float;
          inversion Hc; subst; exact IH.
Qed.

Lemma compare_cont_lt_trans (m k1 k2 : positive) :
  PosDef.Pos.compare_cont Eq m k1 = Lt ->
  PosDef.Pos.compare_cont Eq k1 k2 = Lt ->
  PosDef.Pos.compare_cont Eq m k2 = Lt.
Proof. exact (Pos.lt_trans m k1 k2). Qed.

Lemma classify_required_missing_witness :
  Match.classify_required Config.default_config [Examples.javascript_match]
  = Ok ([u "JavaScript"], []) /\
  In (u "JavaScript") [u "JavaScript"].
Proof.
  assert (Match.classify_required Config.default_config
            [Examples.javascript_match] = Ok ([u "JavaScript"], [])) as Hc
    by (vm_compute; reflexivity).
  split; [exact Hc|].
  apply (classify_required_missing Config.default_config
           [Examples.javascript_match] Config.default_thresholds
           [u "JavaScript"] [] eq_refl Hc Examples.javascript_match).
  - left. reflexivity.
  - vm_compute. reflexivity.
Defined.

(** Below a positive finite float is below any larger one of the same
    exponent. *)
Lemma SFltb_trans_finite (x : spec_float) (k1 k2 : positive) (e0 : Z) :
  PosDef.Pos.compare_cont Eq k1 k2 = Lt ->
  SFltb x (S754_finite false k1 e0) = true ->
  SFltb x (S754_finite false k2 e0) = true.
Proof.
  intros Hk. unfold SFltb.
  destruct x as [s|s| |s m e]; cbv beta iota delta [SFcompare];
    try (intros; assumption).
  destruct s; [intros; assumption|].
  destruct (e ?= e0)%Z; try (intros; assumption).
  destruct (PosDef.Pos.compare_cont Eq m k1) eqn:Hc; try discriminate.
  intros _. rewrite (compare_cont_lt_trans m k1 k2 Hc Hk). reflexivity.
Qed.

(** Below the default weak-support threshold is below the default
    required-hit threshold. *)
Lemma ltb_weak_support_required_hit (x : float) :
  (x <? Config.weak_support Config.default_thresholds)%float = true ->
  (x <? Config.required_hit Config.default_thresholds)%float = true.
Proof.
  rewrite !ltb_spec.
  replace (Prim2SF (Config.weak_support Config.default_thresholds))
    with (S754_finite false 5854679515581645%positive (-53)%Z)
    by (vm_compute; reflexivity).
  replace (Prim2SF (Config.required_hit Config.default_thresholds))
    with (S754_finite false 6755399441055744%positive (-53)%Z)
    by (vm_compute; reflexivity).
  apply SFltb_trans_finite. vm_compute. reflexivity.
Qed.

(** With the default thresholds the second branch of the classification
    loop is never taken. *)
Lemma classify_required_default_no_weak
    (required_matches : list Match.SkillMatch) (missing weakly : list str) :
  Match.classify_required Config.default_config required_matches
  = Ok (missing, weakly) -> weakly = [].
Proof.
  revert missing weakly.
  induction required_matches as [|m rest IH]; intros missing weakly H.
  - inversion H. reflexivity.
  - cbn [Match.classify_required] in H.
    change (Match.thresholds Config.default_config)
      with (Ok Config.default_thresholds) in H.
    cbn [mbind result_bind] in H.
    destruct (Match.classify_required Config.default_config rest)
      as [[mr wk]|e]; [|discriminate].
    cbn [mbind result_bind] in H.
    specialize (IH mr wk eq_refl). subst wk.
    destruct (Match.similarity m
              <? Config.required_hit Config.default_thresholds)%float eqn:Hr.
    + inversion H. reflexivity.
    + destruct (Match.similarity m
                <? Config.weak_support Config.default_thresholds)%float eqn:Hw.
      * rewrite (ltb_weak_support_required_hit _ Hw) in Hr. discriminate.
      * inversion H. reflexivity.
Qed.

(** With the default configuration [match_skills] never reports a weakly
    supported skill, whatever the resume, the job description and the
    embedding model are. *)
Lemma match_skills_default_never_weak (embed : str -> result (list float))
    (resume_entities : Extract.ExtractedEntities)
    (jd_requirements : Jd.JDRequirements) (r : Match.MatchResults) :
  Match.match_skills embed Config.default_config resume_entities
                     jd_requirements = Ok r ->
  Match.weakly_supported r = [].
Proof.
  unfold Match.match_skills, Match.SkillMatcher_match_skills.
  destruct (Match.match_requirements embed Config.default_config
              Config.required_hit 0.5 true resume_entities
              (Jd.required_skills jd_requirements)) as [rm|e];
    [|discriminate].
  cbn [mbind result_bind].
  destruct (Match.match_requirements embed Config.default_config
              Config.preferred_hit 0.4 false resume_entities
              (Jd.preferred_skills jd_requirements)) as [pm|e];
    [|discriminate].
  cbn [mbind result_bind].
  destruct (Match.classify_required Config.default_config rm)
    as [[mr wk]|e] eqn:Hc; [|discriminate].
  cbn [mbind result_bind].
  destruct (Match.classify_preferred Config.default_config pm) as [mp|e];
    [|discriminate].
  cbn [mbind result_bind].
  intros H. inversion H; subst. simpl.
  exact (classify_required_default_no_weak _ _ _ Hc).
Qed.

(** C3, at a failing input.  With the default thresholds, a required
    skill whose best match has similarity 0.72, between the weak-support
    threshold 0.65 and the required-hit threshold 0.75, is listed as
    missing and [weakly_supported] stays empty. *)
Theorem match_skills_weak_band_is_missing :
  exists (r : Match.MatchResults) (m : Match.SkillMatch),
    Match.match_skills Examples.two_word_model Config.default_config
                       Examples.gitlab_resume Examples.gitlab_requirements
    = Ok r /\
    Match.required_matches r = [m] /\
    (Config.weak_support Config.default_thresholds <=? Match.similarity m)%float
    = true /\
    (Match.similarity m <? Config.required_hit Config.default_thresholds)%float
    = true /\
    Dto.required (Match.missing r) = [u "git lab"] /\
    Match.weakly_supported r = [].
Proof.
  eexists. eexists.
  split; [vm_compute; reflexivity|].
  split; [vm_compute; reflexivity|].
  repeat split; vm_compute; reflexivity.
Qed.

(** ** Extraction from images and PDF files *)

(** C4, as the code behaves.  When the image opens and Tesseract returns
    text, an empty or whitespace-only text makes
    [extract_text_from_image] fail with [TextExtractionError]: the
    [OCRError] raised inside the [try] is caught by its own
    [except Exception] clause and wrapped.  Otherwise the text comes back
    with extractability 0.8 when the stripped text is longer than 50
    characters and 0.5 when it is not. *)
Theorem extract_text_from_image_outcome (image : Type)
    (Image_open : bytes -> result image) (image_to_string : image -> result str)
    (content : bytes) (img : image) (ocr_text : str) :
  Image_open content = Ok img ->
  image_to_string img = Ok ocr_text ->
  Parse.extract_text_from_image image Image_open image_to_string content =
  if nonblank ocr_text
  then Ok (ocr_text, true,
           if 50 <? len (strip ocr_text) then 0.8%float else 0.5%float)
  else Raise (TextExtractionError
                (u "Failed to extract text from image: No text found in image")).
Proof.
  intros Hopen Hocr. unfold Parse.extract_text_from_image.
  rewrite Hopen. simpl. rewrite Hocr. simpl.
  destruct (nonblank ocr_text); reflexivity.
Qed.

Lemma extract_text_from_image_outcome_witness :
  Parse.extract_text_from_image unit (fun _ => Ok tt) (fun _ => Ok (u "  "))
                                (u "image bytes")
  = Raise (TextExtractionError
             (u "Failed to extract text from image: No text found in image")).
Proof.
  apply (extract_text_from_image_outcome unit (fun _ => Ok tt)
           (fun _ => Ok (u "  ")) (u "image bytes") tt (u "  "));
    reflexivity.
Defined.

(** A failure of Tesseract itself is the one path that yields
    [OCRError]. *)
Lemma extract_text_from_image_tesseract_error (image : Type)
    (Image_open : bytes -> result image) (image_to_string : image -> result str)
    (content : bytes) (img : image) (message : str) :
  Image_open content = Ok img ->
  image_to_string img = Raise (TesseractError message) ->
  Parse.extract_text_from_image image Image_open image_to_string content =
  Raise (OCRError (u "Tesseract OCR failed: " ++ message)).
Proof.
  intros Hopen Hocr. unfold Parse.extract_text_from_image.
  rewrite Hopen. simpl. rewrite Hocr. reflexivity.
Qed.

Lemma str_eqb_refl (a : str) : str_eqb a a = true.
Proof.
  induction a as [|x a IH]; simpl; [reflexivity|].
  rewrite N.eqb_refl, IH. reflexivity.
Qed.

(** C5, as the code behaves.  Whatever the layout analysis of
    [extract_text_from_pdf] finds, the metadata of a parsed PDF says
    [has_columns = True] and [has_tables = False]. *)
Theorem parse_document_pdf_layout_flags
    (fitz_open : bytes -> result (list Parse.Page))
    (Document : bytes -> result Parse.DocxDocument)
    (image : Type) (Image_open : bytes -> result image)
    (image_to_string : image -> result str)
    (content : bytes) (filename : str) (content_type : option str)
    (doc : Parse.ParsedDocument) :
  Parse.parse_document fitz_open Document image Image_open image_to_string
                       content filename content_type = Ok doc ->
  Dto.filetype (Parse.meta doc) = u "pdf" ->
  Dto.has_columns (Parse.meta doc) = true /\
  Dto.has_tables (Parse.meta doc) = false.
Proof.
  unfold Parse.parse_document.
  destruct content as [|b content]; [discriminate|].
  destruct (Parse.detect_filetype (b :: content) filename content_type)
    as [filetype|e]; simpl; [|discriminate].
  destruct (str_eqb filetype (u "pdf")) eqn:Hpdf.
  - destruct (Parse.extract_text_from_pdf fitz_open (b :: content))
      as [[[text ocr_used] score]|e]; simpl; [|discriminate].
    destruct (nonblank text); simpl; [|discriminate].
    intros H _. inversion H; subst. simpl. split; reflexivity.
  - intros H Hft.
    assert (filetype = u "pdf") as ->.
    { destruct (str_eqb filetype (u "docx")).
      - destruct (Parse.extract_text_from_docx Document (b :: content))
          as [[[text ocr_used] score]|e]; simpl in H; [|discriminate].
        destruct (nonblank text); simpl in H; [|discriminate].
        inversion H; subst. exact Hft.
      - destruct (str_eqb filetype (u "image")); [|discriminate].
        destruct (Parse.extract_text_from_image image Image_open
                    image_to_string (b :: content))
          as [[[text ocr_used] score]|e]; simpl in H; [|discriminate].
        destruct (nonblank text); simpl in H; [|discriminate].
        inversion H; subst. exact Hft. }
    rewrite str_eqb_refl in Hpdf. discriminate.
Qed.

(** At a one-page PDF with one column of table-like rows the layout
    analysis finds no columns and a table, and the metadata says the
    opposite of both. *)
Lemma parse_document_pdf_layout_flags_witness :
  (exists st,
     Parse.pdf_scan Parse.pdf_scan_init [Examples.aligned_page] = Ok st /\
     Parse.scan_has_columns st = false /\ Parse.scan_has_tables st = true) /\
  (exists doc,
     Parse.parse_document Examples.open_aligned Examples.no_docx unit
       Examples.no_image Examples.no_ocr Examples.pdf_bytes (u "cv.pdf") None
     = Ok doc /\
     Dto.has_columns (Parse.meta doc) = true /\
     Dto.has_tables (Parse.meta doc) = false).
Proof.
  split.
  - eexists. split; [vm_compute; reflexivity|]. split; reflexivity.
  - eexists. split; [vm_compute; reflexivity|].
    eapply (parse_document_pdf_layout_flags Examples.open_aligned
              Examples.no_docx unit Examples.no_image Examples.no_ocr
              Examples.pdf_bytes (u "cv.pdf") None);
      vm_compute; reflexivity.
Defined.

(** ** Sections *)

Lemma boundaries_from_no_header (lines : list str) (i char_pos : nat) :
  Forall (fun line => Sectionizer.line_section line = None) lines ->
  Sectionizer.boundaries_from i char_pos lines = [].
Proof.
  intros H. revert i char_pos.
  induction H as [|line rest Hline _ IH]; intros i char_pos; simpl.
  - reflexivity.
  - rewrite Hline. apply IH.
Qed.

Lemma find_section_boundaries_no_header (text : str) :
  Forall (fun line => Sectionizer.line_section line = None)
         (split_on 10%N text) ->
  Sectionizer.find_section_boundaries text = [].
Proof.
  intros H. unfold Sectionizer.find_section_boundaries.
  rewrite (boundaries_from_no_header _ _ _ H). reflexivity.
Qed.

Lemma ensure_core_keeps (core : list string) (sections : gmap string str)
    (k : string) :
  is_Some (sections !! k) ->
  is_Some (Sectionizer.ensure_core core sections !! k).
Proof.
  revert sections. induction core as [|c core IH]; intros sections H; simpl.
  - exact H.
  - apply IH. destruct (sections !! c) eqn:Hc; [exact H|].
    destruct (decide (c = k)) as [->|Hne].
    + rewrite lookup_insert_eq. eauto.
    + rewrite lookup_insert_ne by exact Hne. exact H.
Qed.

Lemma ensure_core_present (core : list string) (sections : gmap string str)
    (k : string) :
  In k core -> is_Some (Sectionizer.ensure_core core sections !! k).
Proof.
  revert sections. induction core as [|c core IH]; intros sections Hin; simpl.
  - destruct Hin.
  - destruct Hin as [->|Hin]; [|apply IH; exact Hin].
    apply ensure_core_keeps.
    destruct (sections !! k) eqn:Hk.
    + rewrite Hk. eauto.
    + rewrite lookup_insert_eq. eauto.
Qed.




(** ** Compliance checks *)

Lemma warn_shape (s : string) : Lint.one_warning_or_one_pass (Lint.warn s).
Proof. left. eexists. split; reflexivity. Qed.

Lemma pass_shape (s : string) : Lint.one_warning_or_one_pass (Lint.pass s).
Proof. right. eexists. split; reflexivity. Qed.

Create HintDb lint.
#[local] Hint Resolve warn_shape pass_shape : lint.

Ltac check_shape check :=
  unfold check;
  repeat match goal with
         | |- context [if ?c then _ else _] => destruct c
         end;
  auto with lint.

(** C6, as the code has it.  Eleven checks contribute exactly one string
    each, a warning or else a pass; the contact check contributes one
    pass, or else one or two warnings; and the four last-added checks
    (visual elements, skills keywords, dates, education) contribute one
    warning or nothing. *)
Theorem check_contributions (text : str) :
  Forall (fun check => Lint.one_warning_or_one_pass (check text))
         [ Lint.layout_check; Lint.table_check; Lint.image_check;
           Lint.font_check; Lint.headers_check; Lint.length_check;
           Lint.numbers_check; Lint.verbs_check; Lint.encoding_check;
           Lint.bullets_check; Lint.pronouns_check ] /\
  Lint.one_pass_or_warnings (Lint.contact_check text) /\
  Forall (fun check => Lint.one_warning_or_nothing (check text))
         [ Lint.visual_check; Lint.skills_check; Lint.dates_check;
           Lint.education_check ].
Proof.
  split; [|split].
  - repeat first [apply Forall_cons_2 | apply Forall_nil_2].
    + check_shape Lint.layout_check.
    + check_shape Lint.table_check.
    + check_shape Lint.image_check.
    + check_shape Lint.font_check.
    + check_shape Lint.headers_check.
    + check_shape Lint.length_check.
    + check_shape Lint.numbers_check.
    + check_shape Lint.verbs_check.
    + check_shape Lint.encoding_check.
    + check_shape Lint.bullets_check.
    + check_shape Lint.pronouns_check.
  - unfold Lint.contact_check, Lint.check_contact_info_format,
      Lint.one_pass_or_warnings.
    destruct (Re.search Lint.email_pattern text),
             (Re.search Lint.phone_pattern text); simpl.
    + left. eexists. split; reflexivity.
    + right. split; [reflexivity|lia].
    + right. split; [reflexivity|lia].
    + right. split; [reflexivity|lia].
  - unfold Lint.one_warning_or_nothing.
    repeat first [apply Forall_cons_2 | apply Forall_nil_2];
      match goal with
      | |- context [Lint.visual_check] => unfold Lint.visual_check
      | |- context [Lint.skills_check] => unfold Lint.skills_check
      | |- context [Lint.dates_check] => unfold Lint.dates_check
      | |- context [Lint.education_check] => unfold Lint.education_check
      end;
      match goal with
      | |- context [if ?c then _ else _] => destruct c
      end; simpl; eauto.
Qed.

(** The checks of [check_contributions] are the sixteen checks the
    function runs. *)
Lemma checks_partition (check : str -> Dto.ATSWarnings) :
  In check Lint.checks <->
  In check [ Lint.layout_check; Lint.table_check; Lint.image_check;
             Lint.font_check; Lint.headers_check; Lint.length_check;
             Lint.numbers_check; Lint.verbs_check; Lint.encoding_check;
             Lint.bullets_check; Lint.pronouns_check ] \/
  In check [ Lint.contact_check ] \/
  In check [ Lint.visual_check; Lint.skills_check; Lint.dates_check;
             Lint.education_check ].
Proof. unfold Lint.checks. simpl. tauto. Qed.

(** C6, as stated, fails: on the empty text it is not the case that
    every check contributes exactly one string (the contact check
    contributes two warnings and the visual-elements check nothing). *)
Lemma checks_not_all_one_string :
  ~ Forall (fun check => Lint.contribution check [] = 1%nat) Lint.checks /\
  Lint.contribution Lint.contact_check [] = 2%nat /\
  Lint.contribution Lint.visual_check [] = 0%nat.
Proof.
  split; [|split; vm_compute; reflexivity].
  intros H. rewrite List.Forall_forall in H.
  specialize (H Lint.visual_check).
  assert (In Lint.visual_check Lint.checks) as Hin.
  { unfold Lint.checks. simpl. tauto. }
  specialize (H Hin). vm_compute in H. discriminate.
Qed.

(** ** Job-description parsing *)

Lemma parse_body_faults (steps : Jd.Steps) (jd_text : str) :
  Jd.step_faults steps jd_text ->
  exists e, Jd.parse_body steps jd_text = Raise e.
Proof.
  unfold Jd.step_faults, Jd.parse_body.
  intros [[e H]|[[e H]|[(skills & e & Hs & H)|[[e H]|[e H]]]]].
  - rewrite H. eauto.
  - destruct (Jd.title_step steps jd_text); simpl; [|eauto].
    rewrite H. eauto.
  - destruct (Jd.title_step steps jd_text); simpl; [|eauto].
    rewrite Hs. simpl. rewrite H. eauto.
  - destruct (Jd.title_step steps jd_text); simpl; [|eauto].
    destruct (Jd.skills_step steps jd_text) as [skills|]; simpl; [|eauto].
    destruct (Jd.classify_step steps jd_text skills); simpl; [|eauto].
    rewrite H. eauto.
  - destruct (Jd.title_step steps jd_text); simpl; [|eauto].
    destruct (Jd.skills_step steps jd_text) as [skills|]; simpl; [|eauto].
    destruct (Jd.classify_step steps jd_text skills); simpl; [|eauto].
    destruct (Jd.experience_step steps jd_text); simpl; [|eauto].
    rewrite H. eauto.
Qed.

Lemma parse_job_description_with_total (steps : Jd.Steps) (jd_text : str) :
  exists r : Jd.JDRequirements,
    Jd.parse_job_description_with steps jd_text = Ok r /\
    (nonblank jd_text = false -> r = Jd.empty_requirements) /\
    (forall e, Jd.parse_body steps jd_text = Raise e ->
               r = Jd.empty_requirements).
Proof.
  unfold Jd.parse_job_description_with.
  destruct (nonblank jd_text) eqn:Hnb; simpl.
  - destruct (Jd.parse_body steps jd_text) as [r|e0] eqn:Hbody; simpl.
    + exists r. split; [reflexivity|]. split; [discriminate|].
      intros e He. congruence.
    + exists Jd.empty_requirements. repeat split; reflexivity.
  - exists Jd.empty_requirements. repeat split; reflexivity.
Qed.

(** C7. [parse_job_description] never raises: whatever its five internal
    calls do on a text, it returns a requirements object, and that
    object is the all-empty one (no required and no preferred skill,
    0 years, level "unspecified", title "Unknown Position", no skill at
    all) when the text is empty or whitespace and when any of the calls
    raises. *)
Theorem parse_job_description_never_raises (steps : Jd.Steps) (jd_text : str) :
  exists r : Jd.JDRequirements,
    Jd.parse_job_description_with steps jd_text = Ok r /\
    (nonblank jd_text = false \/ Jd.step_faults steps jd_text ->
     r = {| Jd.required_skills := [];
            Jd.preferred_skills := [];
            Jd.experience_years := 0;
            Jd.education_level := u "unspecified";
            Jd.title := u "Unknown Position";
            Jd.all_skills := [] |}).
Proof.
  destruct (parse_job_description_with_total steps jd_text)
    as (r & Hr & Hblank & Hraise).
  exists r. split; [exact Hr|].
  intros [Hb|Hf].
  - exact (Hblank Hb).
  - destruct (parse_body_faults _ _ Hf) as [e He]. exact (Hraise e He).
Qed.

Lemma parse_job_description_never_raises_witness :
  exists r : Jd.JDRequirements,
    Jd.parse_job_description_with Examples.faulty_steps
      (u "Senior Python Developer") = Ok r /\
    r = Jd.empty_requirements.
Proof.
  destruct (parse_job_description_never_raises Examples.faulty_steps
              (u "Senior Python Developer")) as (r & Hr & Hempty).
  exists r. split; [exact Hr|].
  apply Hempty. right. unfold Jd.step_faults. right. left.
  eexists. reflexivity.
Defined.

(** The module's own steps: the function returns on every text, with any
    content of the two data files. *)
Corollary parse_job_description_returns
    (taxonomy_file : result (Jd.dict (Jd.dict (list str))))
    (lexicon_file : result (list str * list str)) (jd_text : str) :
  exists r : Jd.JDRequirements,
    Jd.parse_job_description taxonomy_file lexicon_file jd_text = Ok r.
Proof.
  destruct (parse_job_description_with_total
              (Jd.module_steps taxonomy_file lexicon_file) jd_text)
    as (r & Hr & _).
  exists r. exact Hr.
Qed.

(** The job text "3+ years of experience in Python" asks for 3 years. *)
Example extract_experience_requirements_example :
  Jd.extract_experience_requirements (u "3+ years of experience in Python")
  = 3.
Proof. vm_compute. reflexivity. Qed.

(** A fault in skill discovery, on a text that is not blank, is
    swallowed. *)
Example parse_job_description_swallows_fault :
  Jd.parse_job_description_with Examples.faulty_steps
    (u "Senior Python Developer") = Ok Jd.empty_requirements.
Proof. vm_compute. reflexivity. Qed.

(* ===================================================================== *)
(** * Further properties of the services *)
(* ===================================================================== *)

(** ** Document parsing *)

Lemma str_eqb_eq (a b : str) : str_eqb a b = true -> a = b.
Proof.
  revert b. induction a as [|x a IH]; intros [|y b]; simpl; try discriminate.
  - reflexivity.
  - intros H. apply andb_prop in H as [Hx Ha].
    apply N.eqb_eq in Hx. subst. f_equal. apply IH. exact Ha.
Qed.

Lemma by_magic_bytes_known (content : bytes) (t : str) :
  Parse.by_magic_bytes content = Some t -> Parse.known_filetype t.
Proof.
  unfold Parse.by_magic_bytes, Parse.known_filetype.
  repeat match goal with
         | |- context [if ?c then _ else _] => destruct c
         end; intros H; inversion H; auto.
Qed.

Lemma by_extension_known (filename : str) (t : str) :
  Parse.by_extension filename = Some t -> Parse.known_filetype t.
Proof.
  unfold Parse.by_extension, Parse.known_filetype.
  destruct filename; [discriminate|].
  repeat match goal with
         | |- context [if ?c then _ else _] => destruct c
         end; intros H; inversion H; auto.
Qed.

Lemma by_content_type_known (content_type : option str) (t : str) :
  Parse.by_content_type content_type = Some t -> Parse.known_filetype t.
Proof.
  unfold Parse.by_content_type, Parse.known_filetype.
  destruct content_type as [[|c ct]|]; try discriminate.
  repeat match goal with
         | |- context [if ?c then _ else _] => destruct c
         end; intros H; inversion H; auto.
Qed.

(** [detect_filetype] answers "pdf", "docx" or "image", or raises
    [FileProcessingError] with the name of the file in its message; it
    raises nothing else. *)
Theorem detect_filetype_outcomes (content : bytes) (filename : str)
    (content_type : option str) :
  (exists t, Parse.detect_filetype content filename content_type = Ok t /\
             Parse.known_filetype t) \/
  Parse.detect_filetype content filename content_type =
  Raise (FileProcessingError (u "Unsupported file type: " ++ filename)).
Proof.
  unfold Parse.detect_filetype.
  destruct (Parse.by_magic_bytes content) as [t|] eqn:Hm.
  { left. exists t. split; [reflexivity|]. eapply by_magic_bytes_known; eauto. }
  destruct (Parse.by_extension filename) as [t|] eqn:He.
  { left. exists t. split; [reflexivity|]. eapply by_extension_known; eauto. }
  destruct (Parse.by_content_type content_type) as [t|] eqn:Hc.
  { left. exists t. split; [reflexivity|]. eapply by_content_type_known; eauto. }
  right. reflexivity.
Qed.

(** One page of the scan: the text parts grow by what the page
    contributes, and OCR is recorded when it gave that part. *)
Lemma pdf_scan_page_text (st st' : Parse.PdfScan) (page : Parse.Page) :
  Parse.pdf_scan_page st page = Ok st' ->
  Parse.text_parts st' = Parse.text_parts st ++ Parse.page_part page /\
  Parse.scan_ocr_used st' = Parse.scan_ocr_used st || Parse.page_used_ocr page.
Proof.
  unfold Parse.pdf_scan_page, Parse.page_part, Parse.page_used_ocr.
  set (st1 := if nonblank (Parse.page_text page) then _ else _).
  assert (Parse.text_parts st1 = Parse.text_parts st ++ Parse.page_part page /\
          Parse.scan_ocr_used st1 = Parse.scan_ocr_used st || Parse.page_used_ocr page)
    as [Ht Ho].
  { unfold st1, Parse.page_part, Parse.page_used_ocr.
    destruct (nonblank (Parse.page_text page)); simpl.
    - rewrite orb_false_r. split; reflexivity.
    - destruct (Parse.page_ocr page) as [t|e]; simpl.
      + destruct (nonblank t); simpl.
        * rewrite orb_true_r. split; reflexivity.
        * rewrite orb_false_r, app_nil_r. split; reflexivity.
      + rewrite orb_false_r, app_nil_r. split; reflexivity. }
  clearbody st1.
  match goal with
  | |- context [mbind _ ?c] => destruct c as [hc|e]; [|discriminate]
  end.
  cbn [mbind result_bind].
  match goal with
  | |- context [mbind _ ?c] => destruct c as [ht|e]; [|discriminate]
  end.
  cbn [mbind result_bind].
  intros H. inversion H; subst; simpl. split; assumption.
Qed.

Lemma pdf_scan_text (doc : list Parse.Page) (st st' : Parse.PdfScan) :
  Parse.pdf_scan st doc = Ok st' ->
  Parse.text_parts st' = Parse.text_parts st ++ List.flat_map Parse.page_part doc /\
  Parse.scan_ocr_used st' =
  Parse.scan_ocr_used st || List.existsb Parse.page_used_ocr doc.
Proof.
  revert st. induction doc as [|page rest IH]; intros st H; simpl in *.
  - inversion H; subst. rewrite app_nil_r, orb_false_r. split; reflexivity.
  - destruct (Parse.pdf_scan_page st page) as [st1|e] eqn:Hp; [|discriminate].
    cbn [mbind result_bind] in H.
    destruct (pdf_scan_page_text _ _ _ Hp) as [Ht Ho].
    destruct (IH _ H) as [Ht' Ho'].
    rewrite Ht', Ho', Ht, Ho, <- app_assoc, orb_assoc. split; reflexivity.
Qed.

Lemma fmin_le_one (q : float) : (1.0 <? fmin q 1.0)%float = false.
Proof.
  unfold fmin. destruct (1.0 <? q)%float eqn:H; [reflexivity|exact H].
Qed.

(** [extract_text_from_pdf] returns the parts of the pages joined by a
    blank line, whether OCR gave one of them, and a score that does not
    exceed 1.0; every exception, of the library or of the arithmetic, is
    turned into a [TextExtractionError] that quotes it. *)
Theorem extract_text_from_pdf_outcome
    (fitz_open : bytes -> result (list Parse.Page)) (content : bytes) :
  match Parse.extract_text_from_pdf fitz_open content with
  | Ok (text, ocr_used, score) =>
      exists doc, fitz_open content = Ok doc /\
        text = join (nl ++ nl) (List.flat_map Parse.page_part doc) /\
        ocr_used = List.existsb Parse.page_used_ocr doc /\
        (1.0 <? score)%float = false
  | Raise e =>
      exists cause,
        e = TextExtractionError
              (u "Failed to extract text from PDF: " ++ exn_str cause)
  end.
Proof.
  unfold Parse.extract_text_from_pdf.
  destruct (fitz_open content) as [doc|e]; simpl; [|eauto].
  destruct (Parse.pdf_scan Parse.pdf_scan_init doc) as [st|e] eqn:Hs; simpl;
    [|eauto].
  destruct (pdf_scan_text _ _ _ Hs) as [Ht Ho]. simpl in Ht, Ho.
  destruct (truediv (Parse.extracted_chars st) (Z.max (Parse.total_chars st) 1))
    as [q|e]; simpl; [|eauto].
  exists doc. rewrite Ht, Ho. repeat split. apply fmin_le_one.
Qed.

Lemma extract_text_from_pdf_raises fitz_open content e :
  Parse.extract_text_from_pdf fitz_open content = Raise e -> Parse.service_error e.
Proof.
  unfold Parse.extract_text_from_pdf, try_except.
  match goal with |- context [match ?b with Ok _ => _ | Raise _ => _ end] =>
    destruct b as [[[t o] sc]|e0] end; [discriminate|].
  intros H. inversion H. exact I.
Qed.

Lemma extract_text_from_docx_raises Document content e :
  Parse.extract_text_from_docx Document content = Raise e -> Parse.service_error e.
Proof.
  unfold Parse.extract_text_from_docx, try_except.
  match goal with |- context [match ?b with Ok _ => _ | Raise _ => _ end] =>
    destruct b as [[[t o] sc]|e0] end; [discriminate|].
  intros H. inversion H. exact I.
Qed.

Lemma extract_text_from_image_raises image Image_open image_to_string content e :
  Parse.extract_text_from_image image Image_open image_to_string content
  = Raise e -> Parse.service_error e.
Proof.
  unfold Parse.extract_text_from_image, try_except.
  match goal with |- context [match ?b with Ok _ => _ | Raise _ => _ end] =>
    destruct b as [[[t o] sc]|e0] end; [discriminate|].
  destruct e0; intros H; inversion H; exact I.
Qed.

Lemma detect_filetype_raises content filename content_type e :
  Parse.detect_filetype content filename content_type = Raise e ->
  Parse.service_error e.
Proof.
  unfold Parse.detect_filetype.
  destruct (Parse.by_magic_bytes content); [discriminate|].
  destruct (Parse.by_extension filename); [discriminate|].
  destruct (Parse.by_content_type content_type); [discriminate|].
  intros H. inversion H. exact I.
Qed.

Lemma parse_document_raises
    (fitz_open : bytes -> result (list Parse.Page))
    (Document : bytes -> result Parse.DocxDocument)
    (image : Type) (Image_open : bytes -> result image)
    (image_to_string : image -> result str)
    (content : bytes) (filename : str) (content_type : option str) (e : exn) :
  Parse.parse_document fitz_open Document image Image_open image_to_string
                       content filename content_type = Raise e ->
  Parse.service_error e.
Proof.
  unfold Parse.parse_document.
  destruct content as [|b content]; [intros H; inversion H; exact I|].
  destruct (Parse.detect_filetype (b :: content) filename content_type)
    as [filetype|e0] eqn:Hd; cbn [mbind result_bind].
  2:{ intros H. inversion H; subst. eapply detect_filetype_raises; eauto. }
  destruct (str_eqb filetype (u "pdf")).
  { destruct (Parse.extract_text_from_pdf fitz_open (b :: content))
      as [[[text o] sc]|e0] eqn:Hx; cbn [mbind result_bind].
    - destruct (nonblank text); cbn [negb]; intros H; inversion H; exact I.
    - intros H. inversion H; subst. eapply extract_text_from_pdf_raises; eauto. }
  destruct (str_eqb filetype (u "docx")).
  { destruct (Parse.extract_text_from_docx Document (b :: content))
      as [[[text o] sc]|e0] eqn:Hx; cbn [mbind result_bind].
    - destruct (nonblank text); cbn [negb]; intros H; inversion H; exact I.
    - intros H. inversion H; subst. eapply extract_text_from_docx_raises; eauto. }
  destruct (str_eqb filetype (u "image")).
  { destruct (Parse.extract_text_from_image image Image_open image_to_string
                (b :: content)) as [[[text o] sc]|e0] eqn:Hx;
      cbn [mbind result_bind].
    - destruct (nonblank text); cbn [negb]; intros H; inversion H; exact I.
    - intros H. inversion H; subst.
      eapply extract_text_from_image_raises; eauto. }
  cbn [mbind result_bind]. intros H. inversion H. exact I.
Qed.

Lemma extract_text_from_docx_ok Document content text o sc :
  Parse.extract_text_from_docx Document content = Ok (text, o, sc) ->
  o = false /\ sc = 1.0%float.
Proof.
  unfold Parse.extract_text_from_docx, try_except.
  destruct (Document content) as [doc|e]; simpl; [|discriminate].
  intros H. inversion H. split; reflexivity.
Qed.

Lemma extract_text_from_image_ok image Image_open image_to_string content text o sc :
  Parse.extract_text_from_image image Image_open image_to_string content
  = Ok (text, o, sc) ->
  o = true /\ (sc = 0.8%float \/ sc = 0.5%float).
Proof.
  unfold Parse.extract_text_from_image, try_except.
  destruct (Image_open content) as [img|e]; simpl.
  2:{ destruct e; discriminate. }
  destruct (image_to_string img) as [t|e]; simpl.
  2:{ destruct e; discriminate. }
  destruct (nonblank t); simpl; [|discriminate].
  intros H. inversion H; subst. split; [reflexivity|].
  match goal with |- context [if ?c then _ else _] => destruct c end; auto.
Qed.

Lemma extract_text_from_pdf_wraps fitz_open content e :
  Parse.extract_text_from_pdf fitz_open content = Raise e ->
  exists message, e = TextExtractionError message.
Proof.
  unfold Parse.extract_text_from_pdf, try_except.
  match goal with |- context [match ?b with Ok _ => _ | Raise _ => _ end] =>
    destruct b as [[[t o] sc]|e0] end; [discriminate|].
  intros H. inversion H. eauto.
Qed.

Lemma extract_text_from_docx_wraps Document content e :
  Parse.extract_text_from_docx Document content = Raise e ->
  exists message, e = TextExtractionError message.
Proof.
  unfold Parse.extract_text_from_docx, try_except.
  match goal with |- context [match ?b with Ok _ => _ | Raise _ => _ end] =>
    destruct b as [[[t o] sc]|e0] end; [discriminate|].
  intros H. inversion H. eauto.
Qed.

(** The exceptions of [parse_document], whatever the three libraries
    raise: a [FileProcessingError], which is the one empty content
    gets, a [TextExtractionError], or an [OCRError], which only a file
    detected as an image can get. *)
Theorem parse_document_errors
    (fitz_open : bytes -> result (list Parse.Page))
    (Document : bytes -> result Parse.DocxDocument)
    (image : Type) (Image_open : bytes -> result image)
    (image_to_string : image -> result str)
    (content : bytes) (filename : str) (content_type : option str) (e : exn) :
  Parse.parse_document fitz_open Document image Image_open image_to_string
                       content filename content_type = Raise e ->
  Parse.service_error e /\
  (content = [] -> e = FileProcessingError (u "Empty file content")) /\
  (forall message, e = OCRError message ->
     Parse.detect_filetype content filename content_type = Ok (u "image")).
Proof.
  intros H. split; [exact (parse_document_raises _ _ _ _ _ _ _ _ _ H)|].
  revert H. unfold Parse.parse_document.
  destruct content as [|b content].
  { intros H. inversion H. split; [reflexivity|discriminate]. }
  intros H. split; [discriminate|]. intros message ->. revert H.
  destruct (Parse.detect_filetype (b :: content) filename content_type)
    as [filetype|e0] eqn:Hd; cbn [mbind result_bind].
  2:{ unfold Parse.detect_filetype in Hd.
      destruct (Parse.by_magic_bytes _); [discriminate|].
      destruct (Parse.by_extension _); [discriminate|].
      destruct (Parse.by_content_type _); [discriminate|].
      inversion Hd. discriminate. }
  destruct (str_eqb filetype (u "pdf")).
  { destruct (Parse.extract_text_from_pdf fitz_open (b :: content))
      as [[[text o] sc]|e0] eqn:Hx; cbn [mbind result_bind].
    - destruct (nonblank text); discriminate.
    - destruct (extract_text_from_pdf_wraps _ _ _ Hx) as [m ->].
      discriminate. }
  destruct (str_eqb filetype (u "docx")).
  { destruct (Parse.extract_text_from_docx Document (b :: content))
      as [[[text o] sc]|e0] eqn:Hx; cbn [mbind result_bind].
    - destruct (nonblank text); discriminate.
    - destruct (extract_text_from_docx_wraps _ _ _ Hx) as [m ->].
      discriminate. }
  destruct (str_eqb filetype (u "image")) eqn:Hi.
  { intros _. apply str_eqb_eq in Hi. rewrite Hi. reflexivity. }
  cbn [mbind result_bind]. discriminate.
Qed.

Lemma parse_document_errors_witness :
  Parse.parse_document Examples.open_aligned Examples.no_docx unit
    (fun _ => Ok tt) Examples.no_ocr (u "GIF89a") (u "scan.gif") None
  = Raise (OCRError (u "Tesseract OCR failed: tesseract is not installed")) /\
  Parse.detect_filetype (u "GIF89a") (u "scan.gif") None = Ok (u "image").
Proof.
  assert (Parse.parse_document Examples.open_aligned Examples.no_docx unit
            (fun _ => Ok tt) Examples.no_ocr (u "GIF89a") (u "scan.gif") None
          = Raise (OCRError
                     (u "Tesseract OCR failed: tesseract is not installed")))
    as H by (vm_compute; reflexivity).
  split; [exact H|].
  exact (proj2 (proj2 (parse_document_errors _ _ _ _ _ _ _ _ _ H)) _ eq_refl).
Defined.

(** A document [parse_document] returns: the content was not empty, the
    text is not blank, the file type is the one [detect_filetype] found,
    a DOCX file has extractability 1.0 without OCR, no columns and
    tables, and an image has extractability 0.8 or 0.5 with OCR and
    neither columns nor tables. *)
Theorem parse_document_success
    (fitz_open : bytes -> result (list Parse.Page))
    (Document : bytes -> result Parse.DocxDocument)
    (image : Type) (Image_open : bytes -> result image)
    (image_to_string : image -> result str)
    (content : bytes) (filename : str) (content_type : option str)
    (doc : Parse.ParsedDocument) :
  Parse.parse_document fitz_open Document image Image_open image_to_string
                       content filename content_type = Ok doc ->
  content <> [] /\
  nonblank (Parse.text doc) = true /\
  Parse.detect_filetype content filename content_type
  = Ok (Dto.filetype (Parse.meta doc)) /\
  Parse.known_filetype (Dto.filetype (Parse.meta doc)) /\
  (Dto.filetype (Parse.meta doc) = u "docx" ->
   Dto.ocr_used (Parse.meta doc) = false /\
   Dto.extractability_score (Parse.meta doc) = 1.0%float /\
   Dto.has_columns (Parse.meta doc) = false /\
   Dto.has_tables (Parse.meta doc) = true) /\
  (Dto.filetype (Parse.meta doc) = u "image" ->
   Dto.ocr_used (Parse.meta doc) = true /\
   (Dto.extractability_score (Parse.meta doc) = 0.8%float \/
    Dto.extractability_score (Parse.meta doc) = 0.5%float) /\
   Dto.has_columns (Parse.meta doc) = false /\
   Dto.has_tables (Parse.meta doc) = false).
Proof.
  unfold Parse.parse_document, Parse.known_filetype.
  destruct content as [|b content]; [discriminate|].
  destruct (Parse.detect_filetype (b :: content) filename content_type)
    as [filetype|e0] eqn:Hd; cbn [mbind result_bind]; [|discriminate].
  destruct (str_eqb filetype (u "pdf")) eqn:Hpdf.
  { apply str_eqb_eq in Hpdf. subst filetype.
    destruct (Parse.extract_text_from_pdf fitz_open (b :: content))
      as [[[text o] sc]|e0]; cbn [mbind result_bind]; [|discriminate].
    destruct (nonblank text) eqn:Hnb; cbn [negb]; [|discriminate].
    intros H. inversion H; subst; simpl.
    repeat split; auto; try discriminate;
      intros Hc; vm_compute in Hc; discriminate. }
  destruct (str_eqb filetype (u "docx")) eqn:Hdocx.
  { apply str_eqb_eq in Hdocx. subst filetype.
    destruct (Parse.extract_text_from_docx Document (b :: content))
      as [[[text o] sc]|e0] eqn:Hx; cbn [mbind result_bind]; [|discriminate].
    destruct (extract_text_from_docx_ok _ _ _ _ _ Hx) as [-> ->].
    destruct (nonblank text) eqn:Hnb; cbn [negb]; [|discriminate].
    intros H. inversion H; subst; simpl.
    repeat split; auto; try discriminate;
      intros Hc; vm_compute in Hc; discriminate. }
  destruct (str_eqb filetype (u "image")) eqn:Himg; [|discriminate].
  apply str_eqb_eq in Himg. subst filetype.
  destruct (Parse.extract_text_from_image image Image_open image_to_string
              (b :: content)) as [[[text o] sc]|e0] eqn:Hx;
    cbn [mbind result_bind]; [|discriminate].
  destruct (extract_text_from_image_ok _ _ _ _ _ _ _ Hx) as [-> Hsc].
  destruct (nonblank text) eqn:Hnb; cbn [negb]; [|discriminate].
  intros H. inversion H; subst; simpl.
  repeat split; auto; try discriminate;
    intros Hc; vm_compute in Hc; discriminate.
Qed.

Lemma parse_document_success_witness :
  exists doc,
    Parse.parse_document Examples.open_aligned Examples.no_docx unit
      Examples.no_image Examples.no_ocr Examples.pdf_bytes (u "cv.pdf") None
    = Ok doc /\
    nonblank (Parse.text doc) = true /\
    Parse.known_filetype (Dto.filetype (Parse.meta doc)).
Proof.
  destruct (Parse.parse_document Examples.open_aligned Examples.no_docx unit
              Examples.no_image Examples.no_ocr Examples.pdf_bytes
              (u "cv.pdf") None) as [doc|e] eqn:H.
  - exists doc. split; [reflexivity|].
    destruct (parse_document_success _ _ _ _ _ _ _ _ doc H)
      as (_ & Hnb & _ & Hk & _).
    split; assumption.
  - exfalso. vm_compute in H. discriminate.
Defined.

(** ** Sections: the keys and the values of the result *)

Lemma line_section_name (line : str) (name : string) :
  Sectionizer.line_section line = Some name -> In name Sectionizer.section_names.
Proof.
  unfold Sectionizer.line_section. cbv zeta.
  destruct (strip line) as [|c s]; [discriminate|].
  destruct (50 <? len (c :: s)); [discriminate|].
  destruct (strip _) as [|c' s']; [discriminate|].
  destruct (List.find _ Sectionizer.SECTION_PATTERNS) as [entry|] eqn:Hf;
    [|discriminate].
  intros H. inversion H; subst. apply List.find_some in Hf.
  apply List.in_map. tauto.
Qed.

Lemma boundaries_from_named (lines : list str) (i char_pos : nat) :
  List.Forall Sectionizer.named (Sectionizer.boundaries_from i char_pos lines).
Proof.
  revert i char_pos. induction lines as [|line rest IH]; intros i char_pos;
    cbn [Sectionizer.boundaries_from]; [constructor|].
  cbv zeta. destruct (Sectionizer.line_section line) as [name|] eqn:E.
  - constructor; [|apply IH]. exact (line_section_name line name E).
  - apply IH.
Qed.

Lemma insert_by_line_named (b : Sectionizer.boundary)
    (bs : list Sectionizer.boundary) :
  Sectionizer.named b -> List.Forall Sectionizer.named bs ->
  List.Forall Sectionizer.named (Sectionizer.insert_by_line b bs).
Proof.
  intros Hb Hbs. induction Hbs as [|b' bs Hb' Hbs IH]; simpl.
  - constructor; [exact Hb|constructor].
  - destruct (_ <=? _)%nat.
    + constructor; [exact Hb'|exact IH].
    + constructor; [exact Hb|]. constructor; assumption.
Qed.

Lemma find_section_boundaries_named (text : str) :
  List.Forall Sectionizer.named (Sectionizer.find_section_boundaries text).
Proof.
  unfold Sectionizer.find_section_boundaries, Sectionizer.sort_by_line.
  pose proof (boundaries_from_named (split_on 10%N text) 0 0) as H.
  assert (List.Forall Sectionizer.named []) as Hacc by constructor.
  revert Hacc. generalize (@nil Sectionizer.boundary).
  induction H as [|b bs Hb Hbs IH]; intros acc Hacc; simpl.
  - exact Hacc.
  - apply IH. apply insert_by_line_named; assumption.
Qed.

Lemma fill_sections_filled (text : str) (boundaries : list Sectionizer.boundary)
    (sections : gmap string str) :
  List.Forall Sectionizer.named boundaries -> Sectionizer.filled sections ->
  Sectionizer.filled (Sectionizer.fill_sections text boundaries sections).
Proof.
  intros Hb. revert sections.
  induction Hb as [|[[name line] char_pos] rest Hn Hrest IH];
    intros sections Hs; cbn [Sectionizer.fill_sections]; [exact Hs|].
  cbv zeta. apply IH.
  destruct (Sectionizer.extract_section_content text char_pos _)
    as [|c content]; [exact Hs|].
  destruct (sections !! name) as [old|] eqn:Hold.
  - intros k v Hk. apply lookup_insert_Some in Hk.
    destruct Hk as [[<- <-]|[_ Hk]]; [|exact (Hs k v Hk)].
    split; [exact Hn|].
    destruct (Hs name old Hold) as [_ Hne].
    destruct old; [contradiction|discriminate].
  - intros k v Hk. apply lookup_insert_Some in Hk.
    destruct Hk as [[<- <-]|[_ Hk]]; [|exact (Hs k v Hk)].
    split; [exact Hn|discriminate].
Qed.

Lemma ensure_core_entries (core : list string) (sections : gmap string str)
    (k : string) (v : str) :
  Sectionizer.ensure_core core sections !! k = Some v ->
  sections !! k = Some v \/ (In k core /\ v = []).
Proof.
  revert sections. induction core as [|section rest IH]; intros sections H;
    cbn [Sectionizer.ensure_core] in H; [left; exact H|].
  apply IH in H. destruct H as [H|[Hin ->]]; [|right; split; [right|]; tauto].
  destruct (sections !! section) eqn:E; [left; exact H|].
  apply lookup_insert_Some in H. destruct H as [[<- <-]|[_ H]].
  - right. split; [left|]; reflexivity.
  - left. exact H.
Qed.

(** Every key of the dictionary [sectionize_text] returns is one of the
    ten section names, and only the four core sections can come with
    empty content. *)
Theorem sectionize_text_entries (text : str) (k : string) (v : str) :
  Sectionizer.sectionize_text text !! k = Some v ->
  In k Sectionizer.section_names /\ (v = [] -> In k Sectionizer.core_sections).
Proof.
  unfold Sectionizer.sectionize_text.
  destruct (nonblank text) eqn:Hnb; cbn [negb].
  2: { intros H. rewrite lookup_empty in H. discriminate. }
  pose proof (find_section_boundaries_named text) as Hb.
  destruct (Sectionizer.find_section_boundaries text)
    as [|[[name line] first_pos] rest] eqn:Hbs.
  - intros H. apply lookup_singleton_Some in H. destruct H as [<- <-].
    split; intros; simpl; tauto.
  - cbv zeta. intros H. apply ensure_core_entries in H.
    destruct H as [H|[Hin ->]].
    + assert (Sectionizer.filled (Sectionizer.fill_sections text
                        ((name, line, first_pos) :: rest) ∅)) as Hf.
      { apply fill_sections_filled; [exact Hb|].
        intros k' v' Hk'. rewrite lookup_empty in Hk'. discriminate. }
      assert (In k Sectionizer.section_names /\ v <> []) as [Hk Hv].
      { destruct (0 <? first_pos)%nat; [|exact (Hf k v H)].
        destruct (50 <? len (strip (prefix first_pos text))) eqn:Hl;
          [|exact (Hf k v H)].
        apply lookup_insert_Some in H.
        destruct H as [[<- <-]|[_ H]]; [|exact (Hf k v H)].
        split; [simpl; tauto|]. intros E. rewrite E in Hl. discriminate. }
      split; [exact Hk|]. intros E. contradiction.
    + split; [|intros _; exact Hin].
      simpl in Hin. simpl. tauto.
Qed.

Lemma sectionize_text_entries_witness :
  In "experience"%string Sectionizer.section_names /\
  (u "Built things" = [] -> In "experience"%string Sectionizer.core_sections).
Proof.
  apply (sectionize_text_entries (u "Experience" ++ nl ++ u "Built things")).
  vm_compute. reflexivity.
Defined.

(** A text that is not blank always gets a summary. *)
Lemma sectionize_text_summary (text : str) :
  nonblank text = true ->
  is_Some (Sectionizer.sectionize_text text !! "summary"%string).
Proof.
  intros H. unfold Sectionizer.sectionize_text. rewrite H. cbn [negb].
  destruct (Sectionizer.find_section_boundaries text)
    as [|[[name line] first_pos] rest].
  - rewrite lookup_singleton_eq. eauto.
  - apply ensure_core_present. simpl. tauto.
Qed.

(** ** The endpoint [/parse] *)

Lemma parse_document_ok_nonblank
    (fitz_open : bytes -> result (list Parse.Page))
    (Document : bytes -> result Parse.DocxDocument)
    (image : Type) (Image_open : bytes -> result image)
    (image_to_string : image -> result str)
    (content : bytes) (filename : str) (content_type : option str)
    (doc : Parse.ParsedDocument) :
  Parse.parse_document fitz_open Document image Image_open image_to_string
                       content filename content_type = Ok doc ->
  nonblank (Parse.text doc) = true.
Proof.
  unfold Parse.parse_document.
  destruct content as [|b content]; [discriminate|].
  destruct (Parse.detect_filetype _ _ _) as [ft|e];
    cbn [mbind result_bind]; [|discriminate].
  match goal with
  | |- context [mbind _ ?c] => destruct c as [[[[[t o] s] hc] ht]|e]
  end; cbn [mbind result_bind]; [|discriminate].
  destruct (nonblank t) eqn:E; cbn [negb]; [|discriminate].
  intros H. inversion H. exact E.
Qed.

(** The endpoint [/parse], once the upload has been read.  A response
    holds a text that is not blank and its sections, among them a
    summary.  A failure is one of three exceptions of the service,
    whatever the libraries raised, and the handler answers it with 422,
    or with 400 when it is an [OCRError]. *)
Theorem parse_resume_outcome
    (fitz_open : bytes -> result (list Parse.Page))
    (Document : bytes -> result Parse.DocxDocument)
    (image : Type) (Image_open : bytes -> result image)
    (image_to_string : image -> result str) (file : Routes.UploadFile)
    (content : bytes) :
  Routes.read file = Ok content ->
  match Routes.parse_resume fitz_open Document image Image_open
          image_to_string file with
  | Ok response =>
      nonblank (Routes.text response) = true /\
      Routes.sections response
      = Sectionizer.sectionize_text (Routes.text response) /\
      is_Some (Routes.sections response !! "summary"%string)
  | Raise e =>
      Parse.service_error e /\
      Routes.ats_exception_handler e
      = match e with OCRError _ => 400 | _ => 422 end
  end.
Proof.
  intros Hread.
  unfold Routes.parse_resume, Routes.parse_resume_body.
  destruct (Routes.filename file) as [[|c name]|];
    cbn [try_except Routes.is_ats_exception]; try (split; [exact I|reflexivity]).
  match goal with
  | |- context [if ?b then Raise _ else _] => destruct b
  end; cbn [try_except Routes.is_ats_exception];
    try (split; [exact I|reflexivity]).
  rewrite Hread. cbn [mbind result_bind try_except].
  destruct (Parse.parse_document fitz_open Document image Image_open
              image_to_string content (c :: name) (Routes.content_type file))
    as [doc|e] eqn:Hp; cbn [mbind result_bind try_except].
  - cbn [Routes.text Routes.sections].
    pose proof (parse_document_ok_nonblank _ _ _ _ _ _ _ _ _ Hp) as Hnb.
    repeat split; [exact Hnb|]. apply sectionize_text_summary. exact Hnb.
  - pose proof (parse_document_raises _ _ _ _ _ _ _ _ _ Hp) as He.
    destruct e; try contradiction; cbn [Routes.is_ats_exception];
      split; first [exact I | reflexivity].
Qed.

Lemma parse_resume_outcome_witness :
  Routes.parse_resume Examples.open_aligned Examples.no_docx unit
    Examples.no_image Examples.no_ocr Examples.empty_upload
  = Raise (FileProcessingError (u "Empty file content")) /\
  Routes.ats_exception_handler (FileProcessingError (u "Empty file content"))
  = 422.
Proof.
  pose proof (parse_resume_outcome Examples.open_aligned Examples.no_docx unit
                Examples.no_image Examples.no_ocr Examples.empty_upload [] eq_refl)
    as H.
  split; [reflexivity|].
  change (Routes.parse_resume Examples.open_aligned Examples.no_docx unit
            Examples.no_image Examples.no_ocr Examples.empty_upload)
    with (@Raise Routes.ParseResponse
            (FileProcessingError (u "Empty file content"))) in H.
  exact (proj2 H).
Defined.

(** ** Redaction of logged data *)

(** What [redact_sensitive_data] lets through of a sensitive value is
    its length, for a string, and nothing else: two dictionaries that
    differ only in the content of their sensitive values are redacted to
    the same dictionary.  The keys are kept, in order. *)
Theorem redact_sensitive_data_hides (object : Type)
    (data data' : list (str * Logging.value object)) :
  Logging.same_but_sensitive object data data' ->
  Logging.redact_sensitive_data object data
  = Logging.redact_sensitive_data object data' /\
  List.map fst (Logging.redact_sensitive_data object data)
  = List.map fst data.
Proof.
  intros H. split.
  - unfold Logging.redact_sensitive_data.
    induction H as [|[k v] [k' v'] data data' [Hk Hv] _ IH]; [reflexivity|].
    cbn [List.map fst snd] in *.
    subst k'. rewrite IH. f_equal.
    destruct (mem (lower k) (Logging.sensitive_keys)); [|congruence].
    destruct v as [s|o], v' as [s'|o']; cbn in Hv; try contradiction.
    + cbn [Logging.redact_value]. rewrite Hv. reflexivity.
    + reflexivity.
  - unfold Logging.redact_sensitive_data. rewrite List.map_map.
    apply List.map_ext. intros [k v]. cbn [fst snd].
    destruct (mem (lower k) (Logging.sensitive_keys)); reflexivity.
Qed.

Lemma redact_sensitive_data_hides_witness :
  Logging.redact_sensitive_data unit
    [(u "Resume_Text", Logging.Str unit (u "Jane Doe")); (u "size", Logging.Object unit tt)]
  = Logging.redact_sensitive_data unit
    [(u "Resume_Text", Logging.Str unit (u "John Roe")); (u "size", Logging.Object unit tt)].
Proof.
  apply (redact_sensitive_data_hides unit).
  repeat constructor.
Defined.

(** ** Skill matching *)

Section MatchFacts.

Variable embed : str -> result (list float).
Variable config : Config.ScoringConfig.

Lemma match_requirements_aligned (hit : Config.Thresholds -> float)
    (overlap_floor : float) (required : bool)
    (resume_entities : Extract.ExtractedEntities)
    (reqs : list Jd.JDRequirement) (ms : list Match.SkillMatch) :
  Match.match_requirements embed config hit overlap_floor required
                           resume_entities reqs = Ok ms ->
  List.map Match.jd_skill ms = List.map Jd.skill reqs /\
  List.Forall (fun m => Match.is_required m = required) ms.
Proof.
  revert ms. induction reqs as [|req rest IH]; intros ms H; simpl in H.
  - inversion H. split; [reflexivity|constructor].
  - destruct (Match.match_requirement embed config hit overlap_floor required
                resume_entities req) as [m|e] eqn:Hm;
      cbn [mbind result_bind] in H; [|discriminate].
    destruct (Match.match_requirements embed config hit overlap_floor required
                resume_entities rest) as [ms'|e] eqn:Hms;
      cbn [mbind result_bind] in H; [|discriminate].
    inversion H; subst. destruct (IH ms' eq_refl) as [IH1 IH2].
    unfold Match.match_requirement in Hm.
    destruct (Match.find_best_match embed (Jd.skill req)
                (Extract.skills resume_entities)) as [[bs sim]|e];
      cbn [mbind result_bind] in Hm; [|discriminate].
    destruct (Match.skill_evidence config hit overlap_floor req bs sim) as [ev|e];
      cbn [mbind result_bind] in Hm; [|discriminate].
    inversion Hm; subst. simpl. split.
    + f_equal. exact IH1.
    + constructor; [reflexivity|exact IH2].
Qed.

Lemma skill_evidence_some (hit : Config.Thresholds -> float)
    (overlap_floor : float) (req : Jd.JDRequirement)
    (bs : option Extract.ExtractedSkill) (sim : float) (ev : Dto.Evidence) :
  Match.skill_evidence config hit overlap_floor req bs sim = Ok (Some ev) ->
  exists rs th,
    bs = Some rs /\ Config.similarity_thresholds config = Some th /\
    (hit th <=? sim)%float = true /\
    ev = {| Dto.skill := Jd.skill req; Dto.section := Extract.section rs;
            Dto.quote := Extract.context rs; Dto.similarity := sim |}.
Proof.
  unfold Match.skill_evidence, Match.thresholds.
  destruct bs as [rs|]; [|discriminate].
  destruct (Config.similarity_thresholds config) as [th|];
    cbn [mbind result_bind]; [|discriminate].
  destruct (hit th <=? sim)%float eqn:Hh; [|discriminate].
  match goal with
  | |- context [mbind _ ?c] => destruct c as [wo|e]; cbn [mbind result_bind];
                               [|discriminate]
  end.
  match goal with
  | |- context [if ?c then _ else _] => destruct c; [|discriminate]
  end.
  intros H. inversion H. exists rs, th. repeat split. exact Hh.
Qed.

Lemma match_requirements_evidence (hit : Config.Thresholds -> float)
    (overlap_floor : float) (required : bool)
    (resume_entities : Extract.ExtractedEntities)
    (reqs : list Jd.JDRequirement) (ms : list Match.SkillMatch) :
  Match.match_requirements embed config hit overlap_floor required
                           resume_entities reqs = Ok ms ->
  List.Forall (Match.evidence_supported config hit) ms.
Proof.
  revert ms. induction reqs as [|req rest IH]; intros ms H; simpl in H.
  - inversion H. constructor.
  - destruct (Match.match_requirement embed config hit overlap_floor required
                resume_entities req) as [m|e] eqn:Hm;
      cbn [mbind result_bind] in H; [|discriminate].
    destruct (Match.match_requirements embed config hit overlap_floor required
                resume_entities rest) as [ms'|e] eqn:Hms;
      cbn [mbind result_bind] in H; [|discriminate].
    inversion H; subst. constructor; [|apply IH; reflexivity].
    unfold Match.match_requirement in Hm.
    destruct (Match.find_best_match embed (Jd.skill req)
                (Extract.skills resume_entities)) as [[bs sim]|e];
      cbn [mbind result_bind] in Hm; [|discriminate].
    destruct (Match.skill_evidence config hit overlap_floor req bs sim)
      as [ev|e] eqn:He; cbn [mbind result_bind] in Hm; [|discriminate].
    inversion Hm; subst. intros ev' Hev. simpl in Hev. subst ev.
    destruct (skill_evidence_some _ _ _ _ _ _ He) as (rs & th & -> & Hth & Hh & ->).
    exists rs, th. simpl. repeat split; assumption.
Qed.

(** The characterization of the two classification loops. *)
Lemma classify_required_filter (ms : list Match.SkillMatch)
    (th : Config.Thresholds) :
  Config.similarity_thresholds config = Some th ->
  Match.classify_required config ms =
  Ok (List.map Match.jd_skill
        (List.filter (fun m => (Match.similarity m <? Config.required_hit th)%float) ms),
      List.map Match.jd_skill
        (List.filter (fun m =>
                        negb (Match.similarity m <? Config.required_hit th)%float
                        && (Match.similarity m <? Config.weak_support th)%float) ms)).
Proof.
  intros Hth. induction ms as [|m rest IH]; simpl; [reflexivity|].
  unfold Match.thresholds. rewrite Hth. cbn [mbind result_bind].
  rewrite IH. cbn [mbind result_bind].
  destruct (Match.similarity m <? Config.required_hit th)%float; simpl;
    [reflexivity|].
  destruct (Match.similarity m <? Config.weak_support th)%float; reflexivity.
Qed.

Lemma classify_preferred_filter (ms : list Match.SkillMatch)
    (th : Config.Thresholds) :
  Config.similarity_thresholds config = Some th ->
  Match.classify_preferred config ms =
  Ok (List.map Match.jd_skill
        (List.filter (fun m => (Match.similarity m <? Config.preferred_hit th)%float) ms)).
Proof.
  intros Hth. induction ms as [|m rest IH]; simpl; [reflexivity|].
  unfold Match.thresholds. rewrite Hth. cbn [mbind result_bind].
  rewrite IH. cbn [mbind result_bind].
  destruct (Match.similarity m <? Config.preferred_hit th)%float; reflexivity.
Qed.

End MatchFacts.

Lemma match_skills_inv (embed : str -> result (list float))
    (config : Config.ScoringConfig)
    (resume_entities : Extract.ExtractedEntities)
    (jd_requirements : Jd.JDRequirements) (r : Match.MatchResults) :
  Match.match_skills embed config resume_entities jd_requirements = Ok r ->
  Match.match_requirements embed config Config.required_hit 0.5 true
    resume_entities (Jd.required_skills jd_requirements)
  = Ok (Match.required_matches r) /\
  Match.match_requirements embed config Config.preferred_hit 0.4 false
    resume_entities (Jd.preferred_skills jd_requirements)
  = Ok (Match.preferred_matches r) /\
  Match.classify_required config (Match.required_matches r)
  = Ok (Dto.required (Match.missing r), Match.weakly_supported r) /\
  Match.classify_preferred config (Match.preferred_matches r)
  = Ok (Dto.preferred (Match.missing r)) /\
  Match.evidence_list r =
  omap Match.evidence (Match.required_matches r) ++
  omap Match.evidence (Match.preferred_matches r) /\
  Match.suggestions r =
  Match._generate_suggestions (Dto.required (Match.missing r))
                              (Match.weakly_supported r) resume_entities.
Proof.
  unfold Match.match_skills, Match.SkillMatcher_match_skills.
  destruct (Match.match_requirements embed config Config.required_hit 0.5 true
              resume_entities (Jd.required_skills jd_requirements))
    as [rm|e] eqn:H1; cbn [mbind result_bind]; [|discriminate].
  destruct (Match.match_requirements embed config Config.preferred_hit 0.4
              false resume_entities (Jd.preferred_skills jd_requirements))
    as [pm|e] eqn:H2; cbn [mbind result_bind]; [|discriminate].
  destruct (Match.classify_required config rm) as [[mr wk]|e] eqn:H3;
    cbn [mbind result_bind]; [|discriminate].
  destruct (Match.classify_preferred config pm) as [mp|e] eqn:H4;
    cbn [mbind result_bind]; [|discriminate].
  intros H. inversion H; subst. simpl.
  repeat split; first [assumption | reflexivity].
Qed.

(** *** Comparisons of floats *)

Lemma compare_cont_antisym (p q : positive) :
  PosDef.Pos.compare_cont Eq q p = CompOpp (PosDef.Pos.compare_cont Eq p q).
Proof. exact (Pos.compare_antisym p q). Qed.

Lemma SFcompare_swap (x y : spec_float) :
  SFcompare y x = option_map CompOpp (SFcompare x y).
Proof.
  destruct x as [sx|sx| |sx mx ex], y as [sy|sy| |sy my ey];
    cbv beta iota delta [SFcompare option_map].
  all: try reflexivity.
  all: try (destruct sx; reflexivity).
  all: try (destruct sy; reflexivity).
  - destruct sx, sy; reflexivity.
  - rewrite (Z.compare_antisym ex ey), (compare_cont_antisym mx my).
    destruct sx, sy; try reflexivity;
      destruct (ex ?= ey)%Z; cbn [CompOpp]; try reflexivity;
      destruct (PosDef.Pos.compare_cont Eq mx my); reflexivity.
Qed.

Lemma leb_not_ltb (a b : float) :
  (a <=? b)%float = true -> (b <? a)%float = false.
Proof.
  rewrite leb_spec, ltb_spec. unfold SFleb, SFltb.
  rewrite (SFcompare_swap (Prim2SF a) (Prim2SF b)).
  destruct (SFcompare (Prim2SF a) (Prim2SF b)) as [[| |]|]; simpl;
    intros H; try reflexivity; discriminate.
Qed.

(** [find_best_match] returns a skill of the resume, or no skill and the
    score 0.0. *)
Lemma find_best_match_from_inv (embed : str -> result (list float))
    (jd_skill : str) (resume_skills : list Extract.ExtractedSkill)
    (seen : list Extract.ExtractedSkill)
    (best : option Extract.ExtractedSkill * float)
    (out : option Extract.ExtractedSkill * float) :
  Match.find_best_match_from embed best jd_skill resume_skills = Ok out ->
  match fst best with
  | Some rs => In rs seen
  | None => snd best = 0.0%float
  end ->
  match fst out with
  | Some rs => In rs (seen ++ resume_skills)
  | None => snd out = 0.0%float
  end.
Proof.
  revert seen best. induction resume_skills as [|rs rest IH];
    intros seen best H Hb; simpl in H.
  - inversion H; subst. rewrite app_nil_r. exact Hb.
  - destruct (Match.best_match_step embed jd_skill best rs) as [b'|e] eqn:Hs;
      cbn [mbind result_bind] in H; [|discriminate].
    replace (seen ++ rs :: rest) with ((seen ++ [rs]) ++ rest)
      by (rewrite <- app_assoc; reflexivity).
    apply (IH (seen ++ [rs]) b' H).
    unfold Match.best_match_step in Hs.
    match type of Hs with
    | context [truediv ?a ?b] => destruct (truediv a b) as [wo|e];
        cbn [mbind result_bind] in Hs; [|discriminate]
    end.
    match type of Hs with
    | (if ?c then _ else _) = _ => destruct c
    end; inversion Hs; subst b'; cbn [fst snd].
    + apply in_or_app. right. left. reflexivity.
    + destruct (fst best) as [rs0|]; [|exact Hb].
      apply in_or_app. left. exact Hb.
Qed.

Lemma find_best_match_inv (embed : str -> result (list float))
    (jd_skill : str) (resume_skills : list Extract.ExtractedSkill)
    (out : option Extract.ExtractedSkill * float) :
  Match.find_best_match embed jd_skill resume_skills = Ok out ->
  match fst out with
  | Some rs => In rs resume_skills
  | None => snd out = 0.0%float
  end.
Proof.
  intros H.
  exact (find_best_match_from_inv embed jd_skill resume_skills []
           (None, 0.0%float) out H eq_refl).
Qed.

Lemma truediv_raises (a b : Z) (e : exn) :
  truediv a b = Raise e -> e = ZeroDivisionError.
Proof.
  unfold truediv. destruct (b =? 0); [|discriminate].
  intros H. inversion H. reflexivity.
Qed.

Lemma find_best_match_from_raises (embed : str -> result (list float))
    (jd_skill : str) (resume_skills : list Extract.ExtractedSkill)
    (best : option Extract.ExtractedSkill * float) (e : exn) :
  Match.find_best_match_from embed best jd_skill resume_skills = Raise e ->
  e = ZeroDivisionError.
Proof.
  revert best. induction resume_skills as [|rs rest IH]; intros best H;
    simpl in H; [discriminate|].
  destruct (Match.best_match_step embed jd_skill best rs) as [b'|e'] eqn:Hs;
    cbn [mbind result_bind] in H.
  - exact (IH b' H).
  - inversion H; subst e'. clear H.
    unfold Match.best_match_step in Hs.
    match type of Hs with
    | context [truediv ?a ?b] => destruct (truediv a b) as [wo|e'] eqn:Ht;
        cbn [mbind result_bind] in Hs
    end.
    + match type of Hs with
      | (if ?c then _ else _) = _ => destruct c
      end; discriminate.
    + inversion Hs; subst. exact (truediv_raises _ _ _ Ht).
Qed.

Lemma skill_evidence_raises (config : Config.ScoringConfig)
    (hit : Config.Thresholds -> float)
    (overlap_floor : float) (req : Jd.JDRequirement)
    (bs : option Extract.ExtractedSkill) (sim : float) (e : exn) :
  Match.skill_evidence config hit overlap_floor req bs sim = Raise e ->
  Match.match_error e.
Proof.
  unfold Match.skill_evidence, Match.thresholds.
  destruct bs as [rs|]; [|discriminate].
  destruct (Config.similarity_thresholds config) as [th|];
    cbn [mbind result_bind].
  - destruct (hit th <=? sim)%float; [|discriminate].
    destruct (Match.set_of (split (lower (Jd.skill req)))) as [|w ws] eqn:Hw;
      cbn [mbind result_bind].
    + match goal with
      | |- context [if ?c then _ else _] => destruct c; discriminate
      end.
    + match goal with
      | |- context [truediv ?a ?b] => destruct (truediv a b) as [wo|e'] eqn:Ht;
          cbn [mbind result_bind]
      end.
      * match goal with
        | |- context [if ?c then _ else _] => destruct c; discriminate
        end.
      * intros H. inversion H; subst. right. exact (truediv_raises _ _ _ Ht).
  - intros H. inversion H. left. reflexivity.
Qed.

Lemma match_requirements_raises (embed : str -> result (list float))
    (config : Config.ScoringConfig) (hit : Config.Thresholds -> float)
    (overlap_floor : float) (required : bool)
    (resume_entities : Extract.ExtractedEntities)
    (reqs : list Jd.JDRequirement) (e : exn) :
  Match.match_requirements embed config hit overlap_floor required
                           resume_entities reqs = Raise e ->
  Match.match_error e.
Proof.
  induction reqs as [|req rest IH]; simpl; [discriminate|].
  unfold Match.match_requirement.
  destruct (Match.find_best_match embed (Jd.skill req)
              (Extract.skills resume_entities)) as [[bs sim]|e'] eqn:Hf;
    cbn [mbind result_bind].
  - destruct (Match.skill_evidence config hit overlap_floor req bs sim)
      as [ev|e'] eqn:He; cbn [mbind result_bind].
    + destruct (Match.match_requirements embed config hit overlap_floor
                  required resume_entities rest) as [ms|e'];
        cbn [mbind result_bind]; [discriminate|].
      intros H. inversion H; subst. apply IH. reflexivity.
    + intros H. inversion H; subst. exact (skill_evidence_raises _ _ _ _ _ _ _ He).
  - intros H. inversion H; subst. right.
    exact (find_best_match_from_raises _ _ _ _ _ Hf).
Qed.

Lemma classify_required_raises (config : Config.ScoringConfig)
    (ms : list Match.SkillMatch) (e : exn) :
  Match.classify_required config ms = Raise e -> Match.match_error e.
Proof.
  induction ms as [|m rest IH]; simpl; [discriminate|].
  unfold Match.thresholds.
  destruct (Config.similarity_thresholds config) as [th|];
    cbn [mbind result_bind].
  - destruct (Match.classify_required config rest) as [[mr wk]|e'];
      cbn [mbind result_bind].
    + destruct (Match.similarity m <? Config.required_hit th)%float;
        [discriminate|].
      destruct (Match.similarity m <? Config.weak_support th)%float;
        discriminate.
    + intros H. inversion H; subst. apply IH. reflexivity.
  - intros H. inversion H. left. reflexivity.
Qed.

Lemma classify_preferred_raises (config : Config.ScoringConfig)
    (ms : list Match.SkillMatch) (e : exn) :
  Match.classify_preferred config ms = Raise e -> Match.match_error e.
Proof.
  induction ms as [|m rest IH]; simpl; [discriminate|].
  unfold Match.thresholds.
  destruct (Config.similarity_thresholds config) as [th|];
    cbn [mbind result_bind].
  - destruct (Match.classify_preferred config rest) as [mp|e'];
      cbn [mbind result_bind].
    + destruct (Match.similarity m <? Config.preferred_hit th)%float;
        discriminate.
    + intros H. inversion H; subst. apply IH. reflexivity.
  - intros H. inversion H. left. reflexivity.
Qed.



Lemma match_requirements_grounded (embed : str -> result (list float))
    (config : Config.ScoringConfig) (hit : Config.Thresholds -> float)
    (overlap_floor : float) (required : bool)
    (resume_entities : Extract.ExtractedEntities)
    (reqs : list Jd.JDRequirement) (ms : list Match.SkillMatch) :
  Match.match_requirements embed config hit overlap_floor required
                           resume_entities reqs = Ok ms ->
  List.Forall (Match.match_grounded resume_entities) ms.
Proof.
  revert ms. induction reqs as [|req rest IH]; intros ms H; simpl in H.
  - inversion H. constructor.
  - destruct (Match.match_requirement embed config hit overlap_floor required
                resume_entities req) as [m|e] eqn:Hm;
      cbn [mbind result_bind] in H; [|discriminate].
    destruct (Match.match_requirements embed config hit overlap_floor required
                resume_entities rest) as [ms'|e] eqn:Hms;
      cbn [mbind result_bind] in H; [|discriminate].
    inversion H; subst. constructor; [|apply IH; reflexivity].
    unfold Match.match_requirement in Hm.
    destruct (Match.find_best_match embed (Jd.skill req)
                (Extract.skills resume_entities)) as [[bs sim]|e] eqn:Hf;
      cbn [mbind result_bind] in Hm; [|discriminate].
    destruct (Match.skill_evidence config hit overlap_floor req bs sim)
      as [ev|e] eqn:He; cbn [mbind result_bind] in Hm; [|discriminate].
    inversion Hm; subst. unfold Match.match_grounded. cbn.
    pose proof (find_best_match_inv _ _ _ _ Hf) as Hinv. cbn in Hinv.
    destruct bs as [rs|]; [exact Hinv|].
    split; [exact Hinv|]. inversion He. reflexivity.
Qed.

(** On success the two lists of matches follow the two lists of
    requirements, entry by entry, and carry their tier. *)
Theorem match_skills_follows_requirements
    (embed : str -> result (list float)) (config : Config.ScoringConfig)
    (resume_entities : Extract.ExtractedEntities)
    (jd_requirements : Jd.JDRequirements) (r : Match.MatchResults) :
  Match.match_skills embed config resume_entities jd_requirements = Ok r ->
  List.map Match.jd_skill (Match.required_matches r)
  = List.map Jd.skill (Jd.required_skills jd_requirements) /\
  List.map Match.jd_skill (Match.preferred_matches r)
  = List.map Jd.skill (Jd.preferred_skills jd_requirements) /\
  List.Forall (fun m => Match.is_required m = true) (Match.required_matches r) /\
  List.Forall (fun m => Match.is_required m = false)
              (Match.preferred_matches r) /\
  List.Forall (Match.match_grounded resume_entities)
              (Match.required_matches r ++ Match.preferred_matches r).
Proof.
  intros H. destruct (match_skills_inv _ _ _ _ _ H) as (H1 & H2 & _).
  destruct (match_requirements_aligned _ _ _ _ _ _ _ _ H1) as [A1 B1].
  destruct (match_requirements_aligned _ _ _ _ _ _ _ _ H2) as [A2 B2].
  repeat split; try assumption.
  apply List.Forall_app. split.
  - exact (match_requirements_grounded _ _ _ _ _ _ _ _ H1).
  - exact (match_requirements_grounded _ _ _ _ _ _ _ _ H2).
Qed.

Lemma match_skills_follows_requirements_witness :
  exists r,
    Match.match_skills Examples.two_word_model Config.default_config
      Examples.gitlab_resume Examples.gitlab_requirements = Ok r /\
    List.map Match.jd_skill (Match.required_matches r) = [u "git lab"].
Proof.
  destruct (Match.match_skills Examples.two_word_model Config.default_config
              Examples.gitlab_resume Examples.gitlab_requirements)
    as [r|e] eqn:H.
  - exists r. split; [reflexivity|].
    exact (proj1 (match_skills_follows_requirements _ _ _ _ r H)).
  - exfalso. vm_compute in H. discriminate.
Defined.

Lemma omap_evidence_in (ms : list Match.SkillMatch) (ev : Dto.Evidence) :
  In ev (omap Match.evidence ms) ->
  exists m, In m ms /\ Match.evidence m = Some ev.
Proof.
  induction ms as [|m rest IH]; simpl; [intros []|].
  destruct (Match.evidence m) as [ev0|] eqn:He; simpl.
  - intros [<-|Hin].
    + exists m. split; [left; reflexivity|exact He].
    + destruct (IH Hin) as (m' & Hm' & He'). exists m'. split; [right|]; assumption.
  - intros Hin. destruct (IH Hin) as (m' & Hm' & He').
    exists m'. split; [right|]; assumption.
Qed.

(** Every piece of evidence [match_skills] returns belongs to one of its
    matches, whose similarity reaches the threshold of its tier; it
    names the skill of the job description and quotes the section and
    the context of the matched resume skill. *)
Theorem match_skills_evidence_provenance
    (embed : str -> result (list float)) (config : Config.ScoringConfig)
    (resume_entities : Extract.ExtractedEntities)
    (jd_requirements : Jd.JDRequirements) (r : Match.MatchResults)
    (ev : Dto.Evidence) :
  Match.match_skills embed config resume_entities jd_requirements = Ok r ->
  In ev (Match.evidence_list r) ->
  exists m rs th,
    Match.evidence m = Some ev /\
    Match.resume_skill m = Some rs /\
    In rs (Extract.skills resume_entities) /\
    Config.similarity_thresholds config = Some th /\
    (In m (Match.required_matches r) /\
     (Config.required_hit th <=? Match.similarity m)%float = true
     \/
     In m (Match.preferred_matches r) /\
     (Config.preferred_hit th <=? Match.similarity m)%float = true) /\
    ev = {| Dto.skill := Match.jd_skill m;
            Dto.section := Extract.section rs;
            Dto.quote := Extract.context rs;
            Dto.similarity := Match.similarity m |}.
Proof.
  intros H Hin.
  destruct (match_skills_inv _ _ _ _ _ H) as (H1 & H2 & _ & _ & He & _).
  rewrite He in Hin. apply in_app_or in Hin.
  pose proof (match_requirements_evidence _ _ _ _ _ _ _ _ H1) as E1.
  pose proof (match_requirements_evidence _ _ _ _ _ _ _ _ H2) as E2.
  pose proof (match_requirements_grounded _ _ _ _ _ _ _ _ H1) as G1.
  pose proof (match_requirements_grounded _ _ _ _ _ _ _ _ H2) as G2.
  rewrite List.Forall_forall in E1, E2, G1, G2.
  destruct Hin as [Hin|Hin];
    destruct (omap_evidence_in _ _ Hin) as (m & Hm & Hev).
  - destruct (E1 m Hm ev Hev) as (rs & th & Hrs & Hth & Hh & Heq).
    exists m, rs, th. specialize (G1 m Hm). unfold Match.match_grounded in G1.
    rewrite Hrs in G1. repeat split; try assumption. left. split; assumption.
  - destruct (E2 m Hm ev Hev) as (rs & th & Hrs & Hth & Hh & Heq).
    exists m, rs, th. specialize (G2 m Hm). unfold Match.match_grounded in G2.
    rewrite Hrs in G2. repeat split; try assumption. right. split; assumption.
Qed.

Lemma match_skills_evidence_provenance_witness :
  exists r m,
    Match.match_skills Examples.two_word_model Config.default_config
      Examples.python_resume Examples.python_requirements = Ok r /\
    Match.evidence m = Some Examples.python_evidence /\
    Match.resume_skill m = Some Examples.python_skill.
Proof.
  destruct (Match.match_skills Examples.two_word_model Config.default_config
              Examples.python_resume Examples.python_requirements) as [r|e] eqn:H.
  - assert (In Examples.python_evidence (Match.evidence_list r)) as Hin.
    { vm_compute in H. inversion H. left. reflexivity. }
    destruct (match_skills_evidence_provenance _ _ _ _ r Examples.python_evidence H Hin)
      as (m & rs & th & Hev & Hrs & Hrs_in & _).
    exists r, m. split; [reflexivity|]. split; [exact Hev|].
    destruct Hrs_in as [<-|[]]. exact Hrs.
  - exfalso. vm_compute in H. discriminate.
Defined.

(** The lists of missing and weakly supported skills are the skills of
    the matches under the thresholds, in the order of the job
    description; and a match reported missing carries no evidence. *)
Theorem match_skills_missing_exact
    (embed : str -> result (list float)) (config : Config.ScoringConfig)
    (resume_entities : Extract.ExtractedEntities)
    (jd_requirements : Jd.JDRequirements) (r : Match.MatchResults)
    (th : Config.Thresholds) :
  Config.similarity_thresholds config = Some th ->
  Match.match_skills embed config resume_entities jd_requirements = Ok r ->
  Dto.required (Match.missing r)
  = List.map Match.jd_skill
      (List.filter
         (fun m => (Match.similarity m <? Config.required_hit th)%float)
         (Match.required_matches r)) /\
  Dto.preferred (Match.missing r)
  = List.map Match.jd_skill
      (List.filter
         (fun m => (Match.similarity m <? Config.preferred_hit th)%float)
         (Match.preferred_matches r)) /\
  Match.weakly_supported r
  = List.map Match.jd_skill
      (List.filter
         (fun m => negb (Match.similarity m <? Config.required_hit th)%float
                   && (Match.similarity m <? Config.weak_support th)%float)
         (Match.required_matches r)) /\
  (forall m, In m (Match.required_matches r) ->
     (Match.similarity m <? Config.required_hit th)%float = true ->
     Match.evidence m = None) /\
  (forall m, In m (Match.preferred_matches r) ->
     (Match.similarity m <? Config.preferred_hit th)%float = true ->
     Match.evidence m = None).
Proof.
  intros Hth H.
  destruct (match_skills_inv _ _ _ _ _ H) as (H1 & H2 & H3 & H4 & _).
  rewrite (classify_required_filter config _ th Hth) in H3.
  rewrite (classify_preferred_filter config _ th Hth) in H4.
  inversion H3 as [[E1 E2]]. inversion H4 as [E3].
  pose proof (match_requirements_evidence _ _ _ _ _ _ _ _ H1) as V1.
  pose proof (match_requirements_evidence _ _ _ _ _ _ _ _ H2) as V2.
  rewrite List.Forall_forall in V1, V2.
  repeat split; try reflexivity.
  - intros m Hm Hlt. destruct (Match.evidence m) as [ev|] eqn:Hev; [|reflexivity].
    destruct (V1 m Hm ev Hev) as (rs & th' & _ & Hth' & Hle & _).
    rewrite Hth in Hth'. inversion Hth'; subst th'.
    rewrite (leb_not_ltb _ _ Hle) in Hlt. discriminate.
  - intros m Hm Hlt. destruct (Match.evidence m) as [ev|] eqn:Hev; [|reflexivity].
    destruct (V2 m Hm ev Hev) as (rs & th' & _ & Hth' & Hle & _).
    rewrite Hth in Hth'. inversion Hth'; subst th'.
    rewrite (leb_not_ltb _ _ Hle) in Hlt. discriminate.
Qed.

Lemma match_skills_missing_exact_witness :
  exists r,
    Match.match_skills Examples.two_word_model Config.default_config
      Examples.python_resume Examples.python_requirements = Ok r /\
    Dto.preferred (Match.missing r)
    = List.map Match.jd_skill
        (List.filter
           (fun m => (Match.similarity m
                      <? Config.preferred_hit Config.default_thresholds)%float)
           (Match.preferred_matches r)).
Proof.
  destruct (Match.match_skills Examples.two_word_model Config.default_config
              Examples.python_resume Examples.python_requirements) as [r|e] eqn:H.
  - exists r. split; [reflexivity|].
    exact (proj1 (proj2 (match_skills_missing_exact
                           Examples.two_word_model Config.default_config
                           Examples.python_resume Examples.python_requirements r
                           Config.default_thresholds eq_refl H))).
  - exfalso. vm_compute in H. discriminate.
Defined.

Lemma match_requirements_no_skills (embed : str -> result (list float))
    (config : Config.ScoringConfig) (hit : Config.Thresholds -> float)
    (overlap_floor : float) (required : bool)
    (resume_entities : Extract.ExtractedEntities)
    (reqs : list Jd.JDRequirement) :
  Extract.skills resume_entities = [] ->
  Match.match_requirements embed config hit overlap_floor required
                           resume_entities reqs
  = Ok (List.map (fun req => {| Match.jd_skill := Jd.skill req;
                                Match.resume_skill := None;
                                Match.similarity := 0.0;
                                Match.is_required := required;
                                Match.evidence := None |}) reqs).
Proof.
  intros Hs. induction reqs as [|req rest IH]; simpl; [reflexivity|].
  unfold Match.match_requirement. rewrite Hs. cbn. rewrite IH. reflexivity.
Qed.

Lemma filter_all {A} (p : A -> bool) (l : list A) :
  (forall x, In x l -> p x = true) -> List.filter p l = l.
Proof.
  induction l as [|x l IH]; simpl; intros H; [reflexivity|].
  rewrite (H x (or_introl eq_refl)). f_equal. apply IH.
  intros y Hy. apply H. right. exact Hy.
Qed.

Lemma filter_none {A} (p : A -> bool) (l : list A) :
  (forall x, In x l -> p x = false) -> List.filter p l = [].
Proof.
  induction l as [|x l IH]; simpl; intros H; [reflexivity|].
  rewrite (H x (or_introl eq_refl)). apply IH.
  intros y Hy. apply H. right. exact Hy.
Qed.

(** A resume without skills: under positive thresholds every skill of
    the job description is reported missing, none is weakly supported
    and there is no evidence. *)
Theorem match_skills_no_resume_skills
    (embed : str -> result (list float)) (config : Config.ScoringConfig)
    (resume_entities : Extract.ExtractedEntities)
    (jd_requirements : Jd.JDRequirements) (th : Config.Thresholds) :
  Extract.skills resume_entities = [] ->
  Config.similarity_thresholds config = Some th ->
  (0 <? Config.required_hit th)%float = true ->
  (0 <? Config.preferred_hit th)%float = true ->
  exists r,
    Match.match_skills embed config resume_entities jd_requirements = Ok r /\
    Dto.required (Match.missing r)
    = List.map Jd.skill (Jd.required_skills jd_requirements) /\
    Dto.preferred (Match.missing r)
    = List.map Jd.skill (Jd.preferred_skills jd_requirements) /\
    Match.weakly_supported r = [] /\
    Match.evidence_list r = [].
Proof.
  intros Hs Hth Hr Hp.
  unfold Match.match_skills, Match.SkillMatcher_match_skills.
  rewrite !(match_requirements_no_skills embed config _ _ _ _ _ Hs).
  cbn [mbind result_bind].
  rewrite (classify_required_filter config _ th Hth).
  rewrite (classify_preferred_filter config _ th Hth).
  cbn [mbind result_bind].
  eexists. split; [reflexivity|]. cbn.
  repeat split.
  - rewrite filter_all.
    + rewrite List.map_map. reflexivity.
    + intros m Hm. apply List.in_map_iff in Hm. destruct Hm as (req & <- & _).
      exact Hr.
  - rewrite filter_all.
    + rewrite List.map_map. reflexivity.
    + intros m Hm. apply List.in_map_iff in Hm. destruct Hm as (req & <- & _).
      exact Hp.
  - rewrite filter_none; [reflexivity|].
    intros m Hm. apply List.in_map_iff in Hm. destruct Hm as (req & <- & _).
    cbn. rewrite Hr. reflexivity.
  - replace (omap Match.evidence
               (List.map (fun req => {| Match.jd_skill := Jd.skill req;
                                Match.resume_skill := None;
                                Match.similarity := 0.0;
                                Match.is_required := true;
                                Match.evidence := None |})
                  (Jd.required_skills jd_requirements))) with (@nil Dto.Evidence).
    2: { induction (Jd.required_skills jd_requirements); [reflexivity|assumption]. }
    induction (Jd.preferred_skills jd_requirements); [reflexivity|assumption].
Qed.

Lemma match_skills_no_resume_skills_witness :
  exists r,
    Match.match_skills Examples.two_word_model Config.default_config
      Examples.blank_resume Examples.python_requirements = Ok r /\
    Dto.required (Match.missing r) = [u "Python"] /\
    Dto.preferred (Match.missing r) = [u "Docker"] /\
    Match.weakly_supported r = [] /\
    Match.evidence_list r = [].
Proof.
  apply (match_skills_no_resume_skills Examples.two_word_model
           Config.default_config Examples.blank_resume Examples.python_requirements
           Config.default_thresholds eq_refl eq_refl);
    vm_compute; reflexivity.
Defined.

Lemma match_skills_default_never_weak_witness :
  exists r,
    Match.match_skills Examples.two_word_model Config.default_config
      Examples.gitlab_resume Examples.gitlab_requirements = Ok r /\
    Match.weakly_supported r = [].
Proof.
  destruct (Match.match_skills Examples.two_word_model Config.default_config
              Examples.gitlab_resume Examples.gitlab_requirements)
    as [r|e] eqn:H.
  - exists r. split; [reflexivity|].
    exact (match_skills_default_never_weak _ _ _ r H).
  - exfalso. vm_compute in H. discriminate.
Defined.

(** At most six suggestions: three for missing skills, two for weakly
    supported ones and one for the first experience entry. *)
Theorem generate_suggestions_count (missing_required weakly : list str)
    (resume_entities : Extract.ExtractedEntities) :
  let n := length (Match._generate_suggestions missing_required weakly
                                               resume_entities) in
  (Nat.min 3 (length missing_required) + Nat.min 2 (length weakly) <= n)%nat /\
  (n <= Nat.min 3 (length missing_required) + Nat.min 2 (length weakly) + 1)%nat /\
  (n <= 6)%nat.
Proof.
  unfold Match._generate_suggestions.
  cbv zeta. rewrite !length_app, !length_map, !length_firstn.
  assert (length
            (flat_map
               (fun exp : Extract.ExtractedExperience =>
                if existsb isdigit (Extract.description exp)
                then []
                else
                 [{|
                    Dto.before := prefix 50 (Extract.description exp) ++ u "...";
                    Dto.after :=
                      u "Add specific metrics and numbers to quantify your impact";
                    Dto.rationale :=
                      u "ATS systems favor quantified achievements with concrete numbers"
                  |}]) (firstn 1 (Extract.experience resume_entities))) <= 1)%nat as Hq.
  { destruct (Extract.experience resume_entities) as [|exp rest]; simpl; [lia|].
    destruct (existsb isdigit (Extract.description exp)); simpl; lia. }
  lia.
Qed.

(** *** The values of [calculate_similarity] *)

Lemma compare_cont_lt_le_trans (k1 k2 m : positive) :
  PosDef.Pos.compare_cont Eq k1 k2 = Lt ->
  PosDef.Pos.compare_cont Eq k2 m <> Gt ->
  PosDef.Pos.compare_cont Eq k1 m = Lt.
Proof. exact (Pos.lt_le_trans k1 k2 m). Qed.

(** At or above a positive finite float is at or above any smaller one
    of the same exponent. *)
Lemma SFleb_trans_finite (x : spec_float) (k1 k2 : positive) (e0 : Z) :
  PosDef.Pos.compare_cont Eq k1 k2 = Lt ->
  SFleb (S754_finite false k2 e0) x = true ->
  SFleb (S754_finite false k1 e0) x = true.
Proof.
  intros Hk. unfold SFleb.
  destruct x as [s|s| |s m e]; cbv beta iota delta [SFcompare];
    try (intros; assumption).
  destruct s; [intros; assumption|].
  destruct (e0 ?= e)%Z; try (intros; assumption).
  destruct (PosDef.Pos.compare_cont Eq k2 m) eqn:Hc; try discriminate;
    intros _;
    rewrite (compare_cont_lt_le_trans k1 k2 m Hk); try reflexivity;
    rewrite Hc; discriminate.
Qed.

Lemma leb_lower (c1 c2 x : float) (k1 k2 : positive) (e0 : Z) :
  Prim2SF c1 = S754_finite false k1 e0 ->
  Prim2SF c2 = S754_finite false k2 e0 ->
  PosDef.Pos.compare_cont Eq k1 k2 = Lt ->
  (c2 <=? x)%float = true -> (c1 <=? x)%float = true.
Proof.
  intros H1 H2 Hk. rewrite !leb_spec, H1, H2.
  apply SFleb_trans_finite. exact Hk.
Qed.

Lemma leb_080_085 (x : float) :
  (0.85 <=? x)%float = true -> (0.8 <=? x)%float = true.
Proof.
  apply (leb_lower 0.8 0.85 x 7205759403792794 7656119366529843 (-53));
    vm_compute; reflexivity.
Qed.

Lemma leb_080_090 (x : float) :
  (0.9 <=? x)%float = true -> (0.8 <=? x)%float = true.
Proof.
  apply (leb_lower 0.8 0.9 x 7205759403792794 8106479329266893 (-53));
    vm_compute; reflexivity.
Qed.

Lemma leb_080_095 (x : float) :
  (0.95 <=? x)%float = true -> (0.8 <=? x)%float = true.
Proof.
  apply (leb_lower 0.8 0.95 x 7205759403792794 8556839292003942 (-53));
    vm_compute; reflexivity.
Qed.

Lemma semantic_similarity_gap (embed : str -> result (list float))
    (a b : str) (fuzzy_ratio r : float) :
  Match.semantic_similarity embed a b fuzzy_ratio = Ok r ->
  r = 0.0%float \/ (0.8 <=? r)%float = true.
Proof.
  unfold Match.semantic_similarity.
  destruct (Match.encode2 embed a b) as [[e0 e1]|err];
    cbn [mbind result_bind]; [|discriminate].
  destruct (Match.np_dot e0 e1) as [d|err];
    cbn [mbind result_bind]; [|discriminate].
  destruct (Match.np_norm e0) as [n0|err];
    cbn [mbind result_bind]; [|discriminate].
  destruct (Match.np_norm e1) as [n1|err];
    cbn [mbind result_bind]; [|discriminate].
  cbv zeta. set (sem := (d / (n0 * n1))%float). clearbody sem.
  destruct (0.85 <=? sem)%float eqn:S85;
    destruct (0.85 <=? fuzzy_ratio)%float eqn:F85; cbn [andb].
  1: { intros H. inversion H. right. unfold fmin, fmax.
       destruct (_ <? 0.9)%float; [|vm_compute; reflexivity].
       destruct (fuzzy_ratio <? sem)%float; apply leb_080_085; assumption. }
  all: destruct (0.8 <=? sem)%float eqn:S80;
    destruct (0.9 <=? fuzzy_ratio)%float eqn:F90; cbn [andb];
    intros H; inversion H; try (left; reflexivity);
    right; unfold fmin;
    (destruct (sem <? 0.85)%float; [exact S80|vm_compute; reflexivity]).
Qed.

(** The similarity of two skills is 0.0 or at least 0.8: no pair of
    skills scores in between, whatever the embedding model answers. *)
Theorem calculate_similarity_gap (embed : str -> result (list float))
    (skill1 skill2 : str) :
  let r := Match.calculate_similarity embed skill1 skill2 in
  r = 0.0%float \/ (0.8 <=? r)%float = true.
Proof.
  cbv zeta. unfold Match.calculate_similarity. cbv zeta.
  destruct (str_eqb _ _); [right; vm_compute; reflexivity|].
  destruct (str_eqb _ _); [right; vm_compute; reflexivity|].
  set (fz := (Match.fuzz_ratio _ _ / 100.0)%float). clearbody fz.
  destruct (fz <? 0.7)%float; [left; reflexivity|].
  destruct (0.95 <=? fz)%float eqn:F95; [right; apply leb_080_095; exact F95|].
  destruct (Match.semantic_similarity embed _ _ fz) as [r|err] eqn:Hs.
  - exact (semantic_similarity_gap _ _ _ _ _ Hs).
  - destruct (0.9 <=? fz)%float eqn:F90; [|left; reflexivity].
    right. apply leb_080_090. exact F90.
Qed.

(** ** Skill extraction *)

Lemma word_fold_matched (text alias : str) (aliases : list str)
    (words all_words : list str) (best : ExtractSkills.Best) :
  (forall w, In w words -> In w all_words) ->
  all_words = split (lower text) ->
  ExtractSkills.matched_in text aliases best ->
  ExtractSkills.matched_in text aliases
    (List.fold_left (ExtractSkills.word_step text (lower text) alias)
                    words best).
Proof.
  intros Hsub Hall. revert best.
  induction words as [|w words IH]; intros best H; cbn [List.fold_left].
  - exact H.
  - apply IH; [intros w' Hw'; apply Hsub; right; exact Hw'|].
    unfold ExtractSkills.word_step.
    destruct (Z.leb_spec 3 (len w)); [|exact H].
    cbv zeta.
    destruct (0.95 <=? _)%float eqn:E; cbn [andb]; [|exact H].
    destruct (_ <? _)%float; [|exact H].
    unfold ExtractSkills.matched_in.
    cbn [ExtractSkills.best_match ExtractSkills.best_score].
    split; [exact E|]. right. split; [|assumption].
    rewrite <- Hall. apply Hsub. left. reflexivity.
Qed.

Lemma alias_fold_matched (text : str) (aliases all_aliases : list str)
    (best : ExtractSkills.Best) :
  (forall a, In a aliases -> In a all_aliases) ->
  ExtractSkills.matched_in text all_aliases best ->
  ExtractSkills.matched_in text all_aliases
    (List.fold_left (ExtractSkills.alias_step text (lower text))
                    aliases best).
Proof.
  intros Hsub. revert best.
  induction aliases as [|alias aliases IH]; intros best H;
    cbn [List.fold_left].
  - exact H.
  - apply IH; [intros a Ha; apply Hsub; right; exact Ha|].
    unfold ExtractSkills.alias_step.
    destruct (contains (lower text) alias) eqn:Hc.
    + cbv zeta. destruct (_ <? _)%float; [|exact H].
      unfold ExtractSkills.matched_in.
      cbn [ExtractSkills.best_match ExtractSkills.best_score].
      split; [vm_compute; reflexivity|]. left.
      split; [apply Hsub; left; reflexivity|]. split; [exact Hc|reflexivity].
    + apply (word_fold_matched text alias all_aliases _ (split (lower text)));
        [tauto|reflexivity|exact H].
Qed.


(** ** Scores *)

(** *** The reality checks of [calculate_scores] *)

Lemma reality_checks_band (o c e d : Z) :
  Score.reality_checks o c e d
  = Score.reality_checks o (Score.coverage_band c) (Score.experience_band e)
                         (Score.education_band d).
Proof.
  unfold Score.reality_checks, Score.coverage_band, Score.experience_band,
    Score.education_band.
  destruct (Z.ltb_spec c 60); [|destruct (Z.ltb_spec c 70);
    [|destruct (Z.ltb_spec c 75)]];
  (destruct (Z.ltb_spec e 30); [|destruct (Z.ltb_spec e 40);
    [|destruct (Z.ltb_spec e 50); [|destruct (Z.ltb_spec e 60)]]]);
  destruct (Z.ltb_spec d 40);
  repeat match goal with
         | |- context [(?a <? ?b)] =>
             first [ is_var a | is_var b ];
             destruct (Z.ltb_spec a b); try lia
         end;
  reflexivity.
Qed.

(** The test holds on every overall score from 0 to 100 and every
    combination of bands: 4040 runs of the checks. *)
Lemma reality_checked_bands :
  forallb (fun o =>
    forallb (fun c =>
      forallb (fun e =>
        forallb (fun d => Score.reality_checked o c e d) [0; 40])
        [0; 30; 40; 50; 60])
      [0; 60; 70; 75])
    (Score.range 101) = true.
Proof. vm_compute. reflexivity. Qed.

Lemma in_range (n : nat) (z : Z) : 0 <= z < Z.of_nat n -> In z (Score.range n).
Proof.
  intros H. unfold Score.range. apply List.in_map_iff. exists (Z.to_nat z).
  split; [lia|]. apply List.in_seq. lia.
Qed.

Lemma reality_checked_all (o c e d : Z) :
  0 <= o <= 100 ->
  Score.reality_checked o (Score.coverage_band c) (Score.experience_band e)
                        (Score.education_band d) = true.
Proof.
  intros Ho. pose proof reality_checked_bands as Hall.
  rewrite List.forallb_forall in Hall.
  specialize (Hall o (in_range 101 o ltac:(lia))).
  rewrite List.forallb_forall in Hall.
  assert (In (Score.coverage_band c) [0; 60; 70; 75]) as Hc.
  { unfold Score.coverage_band.
    destruct (c <? 60); [|destruct (c <? 70); [|destruct (c <? 75)]];
      simpl; tauto. }
  specialize (Hall _ Hc). rewrite List.forallb_forall in Hall.
  assert (In (Score.experience_band e) [0; 30; 40; 50; 60]) as He.
  { unfold Score.experience_band.
    destruct (e <? 30); [|destruct (e <? 40);
      [|destruct (e <? 50); [|destruct (e <? 60)]]]; simpl; tauto. }
  specialize (Hall _ He). rewrite List.forallb_forall in Hall.
  assert (In (Score.education_band d) [0; 40]) as Hd.
  { unfold Score.education_band. destruct (d <? 40); simpl; tauto. }
  exact (Hall _ Hd).
Qed.

(** Reads the conjuncts of a test that holds as inequalities. *)
Ltac read_test H :=
  repeat (apply andb_prop in H; destruct H as [H ?]);
  repeat match goal with
         | H : (_ <=? _) = true |- _ => apply Z.leb_le in H
         | H : (_ =? _) = true |- _ => apply Z.eqb_eq in H
         | H : true = true |- _ => clear H
         end.

(** The reality checks never raise on a score between 0 and 100 and
    only lower it. *)
Lemma reality_checks_lowers (o c e d : Z) :
  0 <= o <= 100 ->
  exists v, Score.reality_checks o c e d = Ok v /\ 0 <= v <= o.
Proof.
  intros Ho. pose proof (reality_checked_all o c e d Ho) as Hall.
  rewrite reality_checks_band. unfold Score.reality_checked in Hall.
  destruct (Score.reality_checks o (Score.coverage_band c)
              (Score.experience_band e) (Score.education_band d))
    as [v|err]; [|discriminate].
  exists v. split; [reflexivity|]. read_test Hall. lia.
Qed.

(** The reality checks never raise on a score between 0 and 100 and
    only lower it; the penalties and caps bound the result by the band
    of each component score, and a candidate with coverage of 75 or
    more, experience of 60 or more and education of 40 or more keeps
    the weighted score. *)
Theorem reality_checks_bounds (o c e d : Z) :
  0 <= o <= 100 ->
  exists v,
    Score.reality_checks o c e d = Ok v /\
    0 <= v <= o /\
    (c < 60 -> v <= 70) /\
    (e < 30 -> v <= 60) /\
    (e < 50 -> v <= 75) /\
    (e < 60 \/ c < 70 -> v <= 80) /\
    (e < 40 \/ c < 60 -> v <= 70) /\
    (75 <= c -> 60 <= e -> 40 <= d -> v = o).
Proof.
  intros Ho. pose proof (reality_checked_all o c e d Ho) as Hall.
  rewrite reality_checks_band. unfold Score.reality_checked in Hall.
  destruct (Score.reality_checks o (Score.coverage_band c)
              (Score.experience_band e) (Score.education_band d))
    as [v|err]; [|discriminate].
  exists v. split; [reflexivity|].
  unfold Score.coverage_band, Score.experience_band, Score.education_band
    in Hall.
  destruct (Z.ltb_spec c 60); [|destruct (Z.ltb_spec c 70);
    [|destruct (Z.ltb_spec c 75)]];
  (destruct (Z.ltb_spec e 30); [|destruct (Z.ltb_spec e 40);
    [|destruct (Z.ltb_spec e 50); [|destruct (Z.ltb_spec e 60)]]]);
  destruct (Z.ltb_spec d 40);
  cbn in Hall; read_test Hall; lia.
Qed.

Lemma reality_checks_bounds_witness :
  exists v, Score.reality_checks 80 100 35 100 = Ok v /\ v <= 70.
Proof.
  destruct (reality_checks_bounds 80 100 35 100 ltac:(lia))
    as (v & Hv & _ & _ & _ & _ & _ & H & _).
  exists v. split; [exact Hv|]. apply H. left. lia.
Defined.

(** *** The education score *)

Lemma level_of_range (name : str) : 0 <= Score.level_of name <= 5.
Proof.
  unfold Score.level_of, Score.education_levels. cbn [List.find fst snd].
  repeat match goal with
         | |- context [str_eqb ?a name] => destruct (str_eqb a name)
         end; cbn [snd]; lia.
Qed.

Lemma degree_level_range (degree : str) : 0 <= Score.degree_level degree <= 5.
Proof.
  unfold Score.degree_level, Score.education_levels. cbn [List.find fst snd].
  repeat match goal with
         | |- context [if ?c then _ else _] => destruct c
         end; cbn [snd]; lia.
Qed.

Lemma highest_level_from_range (education : list Extract.ExtractedEducation)
    (acc : Z) :
  0 <= acc <= 5 ->
  0 <= List.fold_left
         (fun highest edu =>
            Z.max highest (Score.degree_level (Extract.degree edu)))
         education acc <= 5.
Proof.
  revert acc. induction education as [|edu rest IH]; intros acc H; simpl.
  - exact H.
  - apply IH. pose proof (degree_level_range (Extract.degree edu)). lia.
Qed.

Lemma highest_level_range (education : list Extract.ExtractedEducation) :
  0 <= Score.highest_level education <= 5.
Proof. apply highest_level_from_range. lia. Qed.

Lemma small_cases (z : Z) : 0 <= z <= 5 -> In z [0; 1; 2; 3; 4; 5].
Proof. intros H. simpl. lia. Qed.

(** Runs [calculate_education_score] on each pair of a required and a
    highest level, with and without a relevant field of study. *)
Ltac education_cases resume_entities jd_requirements :=
  unfold Score.calculate_education_score;
  let Hu := fresh "Hu" in
  destruct (str_eqb (Jd.education_level jd_requirements) (u "unspecified"))
    eqn:Hu;
  [ exists 70; apply str_eqb_eq in Hu;
    repeat split; try lia; intros; try lia; contradiction
  | assert (Jd.education_level jd_requirements <> u "unspecified")
      by (let E := fresh in intros E; rewrite E in Hu; vm_compute in Hu;
          discriminate);
    let edu := fresh "edu" in
    let rest := fresh "rest" in
    destruct (Extract.education resume_entities) as [|edu rest] eqn:?;
    [ exists 10; repeat split; try lia; intros; try lia; contradiction
    | let Hr := fresh "Hr" in
      let Hh := fresh "Hh" in
      pose proof (level_of_range (Jd.education_level jd_requirements)) as Hr;
      pose proof (highest_level_range (edu :: rest)) as Hh;
      let r := fresh "r" in
      let h := fresh "h" in
      let b := fresh "b" in
      set (r := Score.level_of (Jd.education_level jd_requirements)) in *;
      set (h := Score.highest_level (edu :: rest)) in *;
      set (b := existsb Score.has_relevant_field (edu :: rest));
      clearbody r h b;
      apply small_cases in Hr, Hh; simpl in Hr, Hh;
      destruct Hr as [<-|[<-|[<-|[<-|[<-|[<-|[]]]]]]];
      destruct Hh as [<-|[<-|[<-|[<-|[<-|[<-|[]]]]]]];
      destruct b;
      (eexists; split; [vm_compute; reflexivity|]);
      repeat split; intros; try lia; try contradiction; try discriminate ] ].

(** [calculate_education_score] never raises, and its score lies
    between 10 and 90. *)
Lemma calculate_education_score_total (current_year : Z)
    (resume_entities : Extract.ExtractedEntities)
    (jd_requirements : Jd.JDRequirements) :
  exists v,
    Score.calculate_education_score current_year resume_entities
                                    jd_requirements = Ok v /\
    10 <= v <= 90.
Proof. education_cases resume_entities jd_requirements. Qed.

(** [calculate_education_score] never raises.  It is 70 when the job
    description names no education level and 10 when the resume lists
    no education; otherwise a resume whose highest degree reaches the
    required level scores 75 or more, and one below it 63 or less. *)
Theorem calculate_education_score_bands (current_year : Z)
    (resume_entities : Extract.ExtractedEntities)
    (jd_requirements : Jd.JDRequirements) :
  exists v,
    Score.calculate_education_score current_year resume_entities
                                    jd_requirements = Ok v /\
    10 <= v <= 90 /\
    (Jd.education_level jd_requirements = u "unspecified" -> v = 70) /\
    (Jd.education_level jd_requirements <> u "unspecified" ->
     (Extract.education resume_entities = [] -> v = 10) /\
     (Extract.education resume_entities <> [] ->
      (Score.level_of (Jd.education_level jd_requirements)
       <= Score.highest_level (Extract.education resume_entities) ->
       75 <= v) /\
      (Score.highest_level (Extract.education resume_entities)
       < Score.level_of (Jd.education_level jd_requirements) ->
       30 <= v <= 63))).
Proof. education_cases resume_entities jd_requirements. Qed.

(** *** [calculate_scores] *)

Lemma bind_ok {A B} (m : result A) (f : A -> result B) (b : B) :
  (m ≫= f) = Ok b -> exists a, m = Ok a /\ f a = Ok b.
Proof.
  destruct m as [a|e]; cbn [mbind result_bind]; [|discriminate].
  intros H. exists a. split; [reflexivity|exact H].
Qed.

Lemma clamp_range (v : Z) : 0 <= Z.min 100 (Z.max 0 v) <= 100.
Proof. lia. Qed.

Lemma calculate_coverage_score_range (matches : Match.MatchResults)
    (jd_requirements : Jd.JDRequirements) (c : Z) :
  Score.calculate_coverage_score matches jd_requirements = Ok c ->
  0 <= c <= 100.
Proof.
  unfold Score.calculate_coverage_score.
  match goal with
  | |- context [if ?b then Ok 80 else _] => destruct b
  end.
  - intros H. inversion H. lia.
  - intros H.
    apply bind_ok in H. destruct H as (rs & _ & H).
    apply bind_ok in H. destruct H as (ps & _ & H).
    apply bind_ok in H. destruct H as (hr & _ & H).
    apply bind_ok in H. destruct H as (v & _ & H).
    inversion H. apply clamp_range.
Qed.

Lemma calculate_experience_score_range (config : Config.ScoringConfig)
    (current_year : Z) (repr : Jd.JDRequirements -> str)
    (resume_entities : Extract.ExtractedEntities)
    (jd_requirements : Jd.JDRequirements) (matches : Match.MatchResults)
    (e : Z) :
  Score.calculate_experience_score config current_year repr resume_entities
    jd_requirements matches = Ok e ->
  0 <= e <= 100.
Proof.
  unfold Score.calculate_experience_score. intros H.
  apply bind_ok in H. destruct H as (ay & _ & H).
  apply bind_ok in H. destruct H as (bonus & _ & H).
  inversion H. apply clamp_range.
Qed.

Lemma calculate_overall_score_range (config : Config.ScoringConfig)
    (c e d o : Z) :
  Score.calculate_overall_score config c e d = Ok o -> 0 <= o <= 100.
Proof.
  unfold Score.calculate_overall_score. intros H.
  apply bind_ok in H. destruct H as (v & _ & H).
  inversion H. apply clamp_range.
Qed.

Lemma make_Score_in_range (o c e d : Z) :
  0 <= o <= 100 -> 0 <= c <= 100 -> 0 <= e <= 100 -> 0 <= d <= 100 ->
  Dto.make_Score o c e d
  = Ok {| Dto.overall := o; Dto.coverage := c;
          Dto.experience := e; Dto.education := d |}.
Proof.
  intros Ho Hc He Hd. unfold Dto.make_Score, Dto.in_score_range.
  repeat match goal with
         | |- context [(?a <=? ?b)] => destruct (Z.leb_spec a b); try lia
         end.
  reflexivity.
Qed.

(** [calculate_scores] never fails the validation of [Score]: an
    exception it raises is one of a component computation, and the score
    it returns holds the three component scores and an overall score
    that the reality checks can only have lowered. *)
Theorem calculate_scores_outcome (config : Config.ScoringConfig)
    (current_year : Z) (repr : Jd.JDRequirements -> str)
    (matches : Match.MatchResults) (jd_requirements : Jd.JDRequirements)
    (resume_entities : Extract.ExtractedEntities) :
  match Score.calculate_scores config current_year repr matches
          jd_requirements resume_entities with
  | Ok s =>
      Score.calculate_coverage_score matches jd_requirements
      = Ok (Dto.coverage s) /\
      Score.calculate_experience_score config current_year repr
        resume_entities jd_requirements matches = Ok (Dto.experience s) /\
      Score.calculate_education_score current_year resume_entities
        jd_requirements = Ok (Dto.education s) /\
      exists o,
        Score.calculate_overall_score config (Dto.coverage s)
          (Dto.experience s) (Dto.education s) = Ok o /\
        0 <= Dto.overall s <= o /\ o <= 100
  | Raise err =>
      Score.calculate_coverage_score matches jd_requirements = Raise err \/
      Score.calculate_experience_score config current_year repr
        resume_entities jd_requirements matches = Raise err \/
      exists c e d,
        Score.calculate_coverage_score matches jd_requirements = Ok c /\
        Score.calculate_experience_score config current_year repr
          resume_entities jd_requirements matches = Ok e /\
        Score.calculate_education_score current_year resume_entities
          jd_requirements = Ok d /\
        Score.calculate_overall_score config c e d = Raise err
  end.
Proof.
  unfold Score.calculate_scores.
  destruct (Score.calculate_coverage_score matches jd_requirements)
    as [c|err] eqn:Hc; cbn [mbind result_bind]; [|left; reflexivity].
  destruct (Score.calculate_experience_score config current_year repr
              resume_entities jd_requirements matches)
    as [e|err] eqn:He; cbn [mbind result_bind]; [|right; left; reflexivity].
  destruct (calculate_education_score_total current_year resume_entities
              jd_requirements) as (d & Hd & Hdr).
  rewrite Hd. cbn [mbind result_bind].
  destruct (Score.calculate_overall_score config c e d) as [o|err] eqn:Ho;
    cbn [mbind result_bind].
  2: { right; right. exists c, e, d. repeat split; assumption. }
  pose proof (calculate_coverage_score_range _ _ _ Hc) as Rc.
  pose proof (calculate_experience_score_range _ _ _ _ _ _ _ He) as Re.
  pose proof (calculate_overall_score_range _ _ _ _ _ Ho) as Ro.
  destruct (reality_checks_lowers o c e d Ro) as (v & Hv & Rv).
  rewrite Hv. cbn [mbind result_bind].
  rewrite make_Score_in_range by lia. cbn.
  repeat split; try reflexivity.
  exists o. repeat split; try assumption; lia.
Qed.

(** ** The regular-expression engine: what a match holds *)

Lemma suffix_of_refl (s : str) : Re.suffix_of s s.
Proof. exists []. reflexivity. Qed.

Lemma suffix_of_trans (a b c : str) :
  Re.suffix_of a b -> Re.suffix_of b c -> Re.suffix_of a c.
Proof.
  intros [x ->] [y ->]. exists (y ++ x). rewrite app_assoc. reflexivity.
Qed.

Lemma within_suffix (g t s : str) : Re.within g t -> Re.suffix_of t s -> Re.within g s.
Proof.
  intros (a & b & ->) [x ->]. exists (x ++ a), b.
  rewrite <- app_assoc. reflexivity.
Qed.

Lemma steps_from_refl (p : Re.pos) : Re.steps_from p p.
Proof. split; [apply suffix_of_refl|left; reflexivity]. Qed.

Lemma steps_from_trans (p m q : Re.pos) :
  Re.steps_from p m -> Re.steps_from m q -> Re.steps_from p q.
Proof.
  intros [S1 G1] [S2 G2]. split; [exact (suffix_of_trans _ _ _ S2 S1)|].
  destruct G2 as [E|(g & Hg & Hw)].
  - rewrite E. exact G1.
  - right. exists g. split; [exact Hg|exact (within_suffix _ _ _ Hw S1)].
Qed.

Lemma orelse_some {A} (a b : option A) (x : A) :
  Re.orelse a b = Some x -> a = Some x \/ b = Some x.
Proof. destruct a; simpl; intros H; [left|right]; exact H. Qed.

(** What a successful run hands to its continuation: a position further
    in the subject, whose group is the one it started with or a part of
    the text that was ahead. *)
Lemma run_steps (r : Re.re) :
  forall (p : Re.pos) (k : Re.pos -> option Re.pos) (q' : Re.pos),
    Re.run r p k = Some q' ->
    exists q, k q = Some q' /\ Re.steps_from p q.
Proof.
  induction r as [|f|r1 IH1 r2 IH2|r1 IH1 r2 IH2|r0 IH0 lo hi| | | |r0 IH0];
    intros p k q'.
  - cbn [Re.run]. intros H. exists p. split; [exact H|apply steps_from_refl].
  - cbn [Re.run]. destruct (Re.rest p) as [|c s] eqn:Hr; [discriminate|].
    destruct (f c); [|discriminate].
    unfold Re.advance. rewrite Hr. intros H.
    eexists. split; [exact H|]. split.
    + cbn [Re.rest]. rewrite Hr. exists [c]. reflexivity.
    + left. reflexivity.
  - cbn [Re.run]. intros H.
    destruct (IH1 _ _ _ H) as (m & Hm & S1).
    destruct (IH2 _ _ _ Hm) as (q & Hq & S2).
    exists q. split; [exact Hq|exact (steps_from_trans _ _ _ S1 S2)].
  - cbn [Re.run]. intros H. apply orelse_some in H. destruct H as [H|H].
    + exact (IH1 _ _ _ H).
    + exact (IH2 _ _ _ H).
  - cbn [Re.run]. remember (length (Re.rest p)) as fuel eqn:E. clear E.
    revert lo hi p. induction fuel as [|fuel IHf]; intros lo hi p H.
    + destruct lo; [|discriminate].
      exists p. split; [exact H|apply steps_from_refl].
    + assert (match lo with O => k p | S _ => None end = Some q' ->
              exists q, k q = Some q' /\ Re.steps_from p q) as Hstop.
      { destruct lo; [|discriminate]. intros Hk.
        exists p. split; [exact Hk|apply steps_from_refl]. }
      destruct hi as [[|hi]|].
      * exact (Hstop H).
      * apply orelse_some in H. destruct H as [H|H]; [|exact (Hstop H)].
        destruct (IH0 _ _ _ H) as (m & Hm & S1).
        destruct (_ <? _)%nat; [|discriminate].
        destruct (IHf _ _ _ Hm) as (q & Hq & S2).
        exists q. split; [exact Hq|exact (steps_from_trans _ _ _ S1 S2)].
      * apply orelse_some in H. destruct H as [H|H]; [|exact (Hstop H)].
        destruct (IH0 _ _ _ H) as (m & Hm & S1).
        destruct (_ <? _)%nat; [|discriminate].
        destruct (IHf _ _ _ Hm) as (q & Hq & S2).
        exists q. split; [exact Hq|exact (steps_from_trans _ _ _ S1 S2)].
  - cbn [Re.run]. destruct (Re.at_word_boundary p); [|discriminate].
    intros H. exists p. split; [exact H|apply steps_from_refl].
  - cbn [Re.run]. destruct (Re.prev p); [discriminate|].
    intros H. exists p. split; [exact H|apply steps_from_refl].
  - cbn [Re.run]. destruct (Re.rest p); [|discriminate].
    intros H. exists p. split; [exact H|apply steps_from_refl].
  - cbn [Re.run]. intros H.
    destruct (IH0 _ _ _ H) as (m & Hm & [S1 _]).
    eexists. split; [exact Hm|]. split; [exact S1|].
    right. eexists. split; [reflexivity|].
    unfold Re.consumed. exists [].
    exists (skipn (length (Re.rest p) - length (Re.rest m)) (Re.rest p)).
    cbn [app]. symmetry. apply List.firstn_skipn.
Qed.

Lemma match_at_steps (r : Re.re) (p q : Re.pos) :
  Re.match_at r p = Some q -> Re.steps_from p q.
Proof.
  unfold Re.match_at. intros H.
  destruct (run_steps r p _ q H) as (q0 & Hq & S). inversion Hq; subst.
  exact S.
Qed.

Lemma search_from_found_in (r : Re.re) (fuel : nat) :
  forall (before : str) (p : Re.pos) (m : Re.mtch),
    Re.group1 p = None ->
    Re.search_from r fuel before p = Some m ->
    Re.found_in (Re.rest p) m.
Proof.
  assert (forall (p : Re.pos) (m : Re.mtch), Re.group1 p = None ->
            Re.match_at r p = Some (Re.m_end m) -> Re.m_start m = p ->
            Re.found_in (Re.rest p) m) as Hhere.
  { intros p m Hg Hm Hs.
    destruct (match_at_steps _ _ _ Hm) as [S G].
    unfold Re.found_in. rewrite Hs. repeat split; try assumption.
    - apply suffix_of_refl.
    - destruct G as [E|(g & -> & Hw)]; [rewrite E, Hg; exact I|exact Hw]. }
  induction fuel as [|fuel IH]; intros before p m Hg H; cbn [Re.search_from] in H.
  - destruct (Re.match_at r p) as [q|] eqn:Hm.
    + inversion H; subst. apply Hhere; [exact Hg|exact Hm|reflexivity].
    + destruct (Re.rest p); discriminate.
  - destruct (Re.match_at r p) as [q|] eqn:Hm.
    + inversion H; subst. apply Hhere; [exact Hg|exact Hm|reflexivity].
    + destruct (Re.rest p) as [|c s] eqn:Hr; [discriminate|].
      apply IH in H; [|reflexivity]. cbn [Re.rest] in H.
      assert (Re.suffix_of s (c :: s)) as Hs by (exists [c]; reflexivity).
      destruct H as (H1 & H2 & H3 & H4).
      repeat split.
      * exact (suffix_of_trans _ _ _ H1 Hs).
      * exact H2.
      * exact (suffix_of_trans _ _ _ H3 Hs).
      * destruct (Re.group1 (Re.m_end m)); [|exact I].
        exact (within_suffix _ _ _ H4 Hs).
Qed.

Lemma finditer_from_within (r : Re.re) (fuel : nat) :
  forall (p : Re.pos) (m : Re.mtch),
    Re.group1 p = None ->
    In m (Re.finditer_from r fuel p) ->
    match Re.group1 (Re.m_end m) with
    | Some g => Re.within g (Re.rest p)
    | None => True
    end.
Proof.
  induction fuel as [|fuel IH]; intros p m Hg Hin;
    cbn [Re.finditer_from] in Hin; [destruct Hin|].
  destruct (Re.search_from r (length (Re.rest p)) [] p) as [m0|] eqn:Hs;
    [|destruct Hin].
  pose proof (search_from_found_in r _ _ _ _ Hg Hs) as (H1 & _ & _ & H4).
  cbv zeta in Hin.
  assert (forall q, Re.group1 q = None -> Re.suffix_of (Re.rest q) (Re.rest p) ->
            In m (Re.finditer_from r fuel q) ->
            match Re.group1 (Re.m_end m) with
            | Some g => Re.within g (Re.rest p)
            | None => True
            end) as Hnext.
  { intros q Hq Hsuf Hm. pose proof (IH q m Hq Hm) as Hw.
    destruct (Re.group1 (Re.m_end m)); [|exact I].
    exact (within_suffix _ _ _ Hw Hsuf). }
  destruct (_ <? _)%nat.
  - destruct Hin as [<-|Hin]; [exact H4|].
    revert Hin. apply Hnext; [reflexivity|exact H1].
  - unfold Re.advance in Hin. cbn [Re.rest Re.group1] in Hin.
    destruct (Re.rest (Re.m_end m0)) as [|c s] eqn:Hr.
    + destruct Hin as [<-|[]]. exact H4.
    + destruct Hin as [<-|Hin]; [exact H4|].
      revert Hin. apply Hnext; [reflexivity|].
      cbn [Re.rest]. apply (suffix_of_trans _ (c :: s)); [|exact H1].
      exists [c]. reflexivity.
Qed.

(** Every string [finditer_group1] returns is a part of the subject. *)
Lemma finditer_group1_within (r : Re.re) (s g : str) :
  In g (Re.finditer_group1 r s) -> Re.within g s.
Proof.
  unfold Re.finditer_group1, Re.finditer. intros H.
  apply list_elem_of_In in H. apply list_elem_of_omap in H.
  destruct H as (m & Hm & Hg). apply list_elem_of_In in Hm.
  pose proof (finditer_from_within r _ (Re.start_of s) m eq_refl Hm) as Hw.
  rewrite Hg in Hw. exact Hw.
Qed.

(** *** Substrings *)

Lemma startswith_app (needle b : str) : startswith (needle ++ b) needle = true.
Proof.
  induction needle as [|c needle IH]; [destruct b; reflexivity|].
  cbn [app startswith]. rewrite N.eqb_refl, IH. reflexivity.
Qed.

Lemma within_contains (needle s : str) :
  Re.within needle s -> contains s needle = true.
Proof.
  intros (a & b & ->). induction a as [|c a IH].
  - cbn [app]. destruct (needle ++ b) eqn:E; cbn [contains];
      rewrite <- E, startswith_app; reflexivity.
  - cbn [app contains]. rewrite IH. apply orb_true_r.
Qed.

Lemma contains_within (needle s : str) :
  contains s needle = true -> Re.within needle s.
Proof.
  induction s as [|c s IH]; cbn [contains].
  - rewrite orb_false_r. destruct needle; [|discriminate].
    intros _. exists [], []. reflexivity.
  - intros H. apply orb_prop in H. destruct H as [H|H].
    + clear IH. exists [].
      revert H. generalize (c :: s). clear c s.
      induction needle as [|x needle IH]; intros s H.
      * exists s. reflexivity.
      * destruct s as [|y s]; [discriminate|]. cbn [startswith] in H.
        apply andb_prop in H. destruct H as [E H]. apply N.eqb_eq in E.
        subst y. destruct (IH s H) as [b Hb]. exists b.
        cbn [app] in *. rewrite Hb at 1. reflexivity.
    + destruct (IH H) as (a & b & ->). exists (c :: a), b. reflexivity.
Qed.

Lemma lstrip_suffix (s : str) : Re.suffix_of (lstrip s) s.
Proof.
  induction s as [|c s IH]; [apply suffix_of_refl|].
  cbn [lstrip]. destruct (isspace c); [|apply suffix_of_refl].
  apply (suffix_of_trans _ s); [exact IH|exists [c]; reflexivity].
Qed.

Lemma strip_within (s : str) : Re.within (strip s) s.
Proof.
  unfold strip, rstrip.
  destruct (lstrip_suffix s) as [a Ha].
  destruct (lstrip_suffix (rev (lstrip s))) as [b Hb].
  set (t := lstrip s) in *. clearbody t. subst s.
  exists a, (rev b). f_equal.
  rewrite <- rev_app_distr, <- Hb, rev_involutive. reflexivity.
Qed.

Lemma within_trans (a b c : str) : Re.within a b -> Re.within b c -> Re.within a c.
Proof.
  intros (x & y & ->) (x' & y' & ->). exists (x' ++ x), (y ++ y').
  rewrite <- !app_assoc. reflexivity.
Qed.

Lemma within_lower (a b : str) : Re.within a b -> Re.within (lower a) (lower b).
Proof.
  intros (x & y & ->). exists (lower x), (lower y).
  unfold lower. rewrite !List.map_app. reflexivity.
Qed.

Lemma in_mem (x : str) (l : list str) : In x l -> mem x l = true.
Proof.
  intros H. unfold mem. apply List.existsb_exists.
  exists x. split; [exact H|apply str_eqb_refl].
Qed.

(** ** Job descriptions *)

(** The title [extract_job_title] returns is never empty and never
    longer than 100 characters: it is a stripped line of the text, or
    the default title. *)
Theorem extract_job_title_shape (text : str) :
  let title := Jd.extract_job_title text in
  title <> [] /\ len title <= 100 /\
  (title = u "Unknown Position" \/
   In title (List.map strip (split_on 10%N text))).
Proof.
  cbv zeta. unfold Jd.extract_job_title.
  set (lines := List.map strip (split_on 10%N text)).
  match goal with
  | |- context [List.find ?f (firstn 5 lines)] =>
      destruct (List.find f (firstn 5 lines)) as [line|] eqn:H1
  end.
  - apply List.find_some in H1. destruct H1 as [Hin Hp].
    destruct line as [|c line]; [discriminate|].
    apply andb_prop in Hp. destruct Hp as [Hlen _].
    apply negb_true_iff in Hlen. apply Z.ltb_ge in Hlen.
    split; [discriminate|]. split; [exact Hlen|].
    right. rewrite <- (List.firstn_skipn 5 lines).
    apply in_or_app. left. exact Hin.
  - match goal with
    | |- context [List.find ?f lines] =>
        destruct (List.find f lines) as [line|] eqn:H2
    end.
    + apply List.find_some in H2. destruct H2 as [Hin Hp].
      destruct line as [|c line]; [discriminate|].
      apply Z.ltb_lt in Hp.
      split; [discriminate|]. split; [lia|]. right. exact Hin.
    + split; [discriminate|]. split; [vm_compute; discriminate|].
      left. reflexivity.
Qed.

(** The loop over the occurrences keeps that state. *)
Lemma classify_skill_fold (cue_lexicon : Jd.dict str)
    (text skill : str) (positions : list nat) (best0 : Jd.Best) :
  Jd.default_or_cue best0 ->
  Jd.default_or_cue
    (List.fold_left
      (fun best p =>
         let context_start := (p - 100)%nat in
         let context_end :=
           Nat.min (length text) (p + length skill + 100) in
         let context := slice context_start context_end text in
         match Jd.first_cue cue_lexicon (lower context) with
         | Some classification =>
             let confidence := 0.8%float in
             if (Jd.best_confidence best <? confidence)%float
             then {| Jd.best_classification := classification;
                     Jd.best_confidence := confidence;
                     Jd.best_context := context |}
             else best
         | None => best
         end) positions best0).
Proof.
  revert best0. induction positions as [|p rest IH]; intros best0 H.
  - exact H.
  - cbn [List.fold_left]. apply IH. cbv zeta.
    destruct (Jd.first_cue _ _); [|exact H].
    destruct (_ <? _)%float; [|exact H].
    right. reflexivity.
Qed.


(** The confidence of a requirement is one of the four constants of the
    heuristics; the skill is returned as given; and with confidence 0.5
    the skill is preferred and has no context. *)
Theorem classify_skill_confidence (cue_lexicon : Jd.dict str)
    (text skill : str) :
  let req := Jd.classify_skill cue_lexicon text skill in
  Jd.skill req = skill /\
  In (Jd.confidence req) [0.5; 0.7; 0.8; 0.9]%float /\
  ((Jd.confidence req =? 0.5)%float = true ->
   Jd.is_required req = false /\ Jd.context req = []).
Proof.
  cbv zeta. split; [reflexivity|].
  unfold Jd.classify_skill. cbv zeta.
  cbn [Jd.confidence Jd.is_required Jd.context].
  match goal with
  | |- context [List.fold_left ?f ?l ?b0] =>
      pose proof (classify_skill_fold cue_lexicon text skill l b0
                    (or_introl (conj eq_refl (conj eq_refl eq_refl)))) as Hf;
      set (best := List.fold_left f l b0) in *
  end.
  clearbody best.
  repeat match goal with
         | |- context [if ?c then _ else _] => destruct c
         end;
    cbn [Jd.best_confidence Jd.best_classification Jd.best_context];
    destruct Hf as [(H5 & Hcl & Hcx)|H8];
    rewrite ?H5, ?H8, ?Hcl, ?Hcx;
    (split; [simpl In; tauto|]);
    intros E;
    first [ split; reflexivity | vm_compute in E; discriminate ].
Qed.

(** *** The skills of a job description *)

Lemma mem_false_not_in (x : str) (l : list str) :
  mem x l = false -> ~ In x l.
Proof.
  unfold mem. intros H Hin.
  assert (existsb (str_eqb x) l = true) as Ht.
  { apply List.existsb_exists. exists x. split; [exact Hin|apply str_eqb_refl]. }
  congruence.
Qed.

Lemma dict_set_keys {V} (d : Jd.dict V) (k : str) (v : V) :
  List.map fst (Jd.dict_set d k v) = List.map fst d \/
  (List.map fst (Jd.dict_set d k v) = List.map fst d ++ [k] /\
   ~ In k (List.map fst d)).
Proof.
  induction d as [|[k' v'] d IH]; simpl.
  - right. split; [reflexivity|tauto].
  - destruct (str_eqb k' k) eqn:E; simpl.
    + left. reflexivity.
    + destruct IH as [IH|[IH Hn]].
      * left. f_equal. exact IH.
      * right. split; [f_equal; exact IH|].
        intros [->|Hin]; [|tauto].
        rewrite str_eqb_refl in E. discriminate.
Qed.

Lemma NoDup_snoc {A} (l : list A) (x : A) :
  List.NoDup l -> ~ In x l -> List.NoDup (l ++ [x]).
Proof.
  intros Hl Hx. induction Hl as [|y l Hy Hl IH]; simpl.
  - constructor; [tauto|constructor].
  - constructor.
    + intros Hin. apply in_app_or in Hin. destruct Hin as [Hin|[->|[]]].
      * exact (Hy Hin).
      * apply Hx. left. reflexivity.
    + apply IH. intros Hin. apply Hx. right. exact Hin.
Qed.

Lemma dict_set_nodup {V} (d : Jd.dict V) (k : str) (v : V) :
  List.NoDup (List.map fst d) ->
  List.NoDup (List.map fst (Jd.dict_set d k v)).
Proof.
  intros H. destruct (dict_set_keys d k v) as [->|[-> Hn]].
  - exact H.
  - apply NoDup_snoc; assumption.
Qed.

Lemma fold_dict_set_nodup {V} (entries : list (str * V)) (d : Jd.dict V) :
  List.NoDup (List.map fst d) ->
  List.NoDup
    (List.map fst
       (List.fold_left
          (fun flattened entry => Jd.dict_set flattened (fst entry) (snd entry))
          entries d)).
Proof.
  revert d. induction entries as [|e entries IH]; intros d H; simpl.
  - exact H.
  - apply IH. apply dict_set_nodup. exact H.
Qed.

(** The keys of the flattened taxonomy are distinct. *)
Lemma load_skills_taxonomy_nodup
    (taxonomy_file : result (Jd.dict (Jd.dict (list str)))) :
  List.NoDup (List.map fst (Jd.load_skills_taxonomy taxonomy_file)).
Proof.
  unfold Jd.load_skills_taxonomy. destruct taxonomy_file as [data|e].
  - assert (forall d : Jd.dict (list str),
              List.NoDup (List.map fst d) ->
              List.NoDup
                (List.map fst
                   (List.fold_left
                      (fun flattened (category : str * Jd.dict (list str)) =>
                         List.fold_left
                           (fun flattened entry =>
                              Jd.dict_set flattened (fst entry) (snd entry))
                           (snd category) flattened)
                      data d))) as H.
    { induction data as [|c data IH]; intros d Hd; simpl.
      - exact Hd.
      - apply IH. apply fold_dict_set_nodup. exact Hd. }
    apply H. constructor.
  - vm_compute.
    repeat (constructor; [simpl; intros H;
      repeat (destruct H as [H|H]; [discriminate|]); exact H|]).
    constructor.
Qed.

Lemma found_step (taxonomy entries : Jd.dict (list str)) (skill_text : str)
    (found : list str) :
  (forall e, In e entries -> In (fst e) (List.map fst taxonomy)) ->
  Jd.skills_of taxonomy found ->
  Jd.skills_of taxonomy
    (List.fold_left
       (fun found_skills (entry : str * list str) =>
          if List.existsb (fun alias => contains (lower skill_text) alias)
                          (snd entry)
          then if mem (fst entry) found_skills then found_skills
               else found_skills ++ [fst entry]
          else found_skills)
       entries found).
Proof.
  revert found. induction entries as [|e entries IH]; intros found He H; simpl.
  - exact H.
  - apply IH; [intros e' He'; apply He; right; exact He'|].
    destruct (existsb _ (snd e)); [|exact H].
    destruct (mem (fst e) found) eqn:Hm; [exact H|].
    destruct H as [Hnd Hsub]. split.
    + apply NoDup_snoc; [exact Hnd|]. apply mem_false_not_in. exact Hm.
    + intros s Hs. apply in_app_or in Hs. destruct Hs as [Hs|[<-|[]]].
      * apply Hsub. exact Hs.
      * apply He. left. reflexivity.
Qed.

Lemma NoDup_map_filter {A B} (f : A -> B) (p : A -> bool) (l : list A) :
  List.NoDup (List.map f l) -> List.NoDup (List.map f (List.filter p l)).
Proof.
  induction l as [|x l IH]; simpl; intros H; [constructor|].
  inversion H as [|y l' Hx Hl]; subst.
  destruct (p x); simpl; [|apply IH; exact Hl].
  constructor; [|apply IH; exact Hl].
  intros Hin. apply Hx. apply List.in_map_iff in Hin.
  destruct Hin as (a & Ha & Hin). apply List.filter_In in Hin.
  apply List.in_map_iff. exists a. tauto.
Qed.

(** The skills found in a job description are distinct keys of the
    taxonomy. *)
Lemma extract_skills_from_jd_skills (taxonomy : Jd.dict (list str))
    (text : str) :
  List.NoDup (List.map fst taxonomy) ->
  Jd.skills_of taxonomy (Jd.extract_skills_from_jd taxonomy text).
Proof.
  intros Hk. unfold Jd.extract_skills_from_jd. cbv zeta.
  set (found0 := List.map fst (List.filter _ taxonomy)).
  assert (Jd.skills_of taxonomy found0) as H0.
  { split.
    - apply NoDup_map_filter. exact Hk.
    - intros s Hs. apply List.in_map_iff in Hs. destruct Hs as (e & <- & He).
      apply List.filter_In in He. apply List.in_map. tauto. }
  clearbody found0. revert found0 H0.
  induction Jd.skill_patterns as [|pattern patterns IH]; intros found H;
    cbn [List.fold_left]; [exact H|].
  apply IH. clear IH.
  revert found H.
  induction (Re.finditer_group1 pattern text) as [|g gs IHg]; intros found H;
    cbn [List.fold_left]; [exact H|].
  apply IHg. apply found_step; [|exact H].
  intros e He. apply List.in_map. exact He.
Qed.


Lemma filter_partition_length {A} (p : A -> bool) (l : list A) :
  (length (List.filter p l)
   + length (List.filter (fun x => negb (p x)) l))%nat = length l.
Proof.
  induction l as [|x l IH]; simpl; [reflexivity|].
  destruct (p x); simpl; lia.
Qed.

(** The requirements [parse_job_description] returns: the skills it
    found are distinct keys of the taxonomy, each is classified once,
    and the required and the preferred requirements split that
    classification by its flag. *)
Theorem parse_job_description_requirements
    (taxonomy_file : result (Jd.dict (Jd.dict (list str))))
    (lexicon_file : result (list str * list str)) (jd_text : str) :
  exists r,
    Jd.parse_job_description taxonomy_file lexicon_file jd_text = Ok r /\
    let requirements :=
      Jd.classify_skill_requirements (Jd.load_cue_lexicon lexicon_file)
        jd_text (Jd.all_skills r) in
    List.map Jd.skill requirements = Jd.all_skills r /\
    Jd.required_skills r = List.filter Jd.is_required requirements /\
    Jd.preferred_skills r
    = List.filter (fun req => negb (Jd.is_required req)) requirements /\
    (length (Jd.required_skills r) + length (Jd.preferred_skills r))%nat
    = length (Jd.all_skills r) /\
    List.NoDup (Jd.all_skills r) /\
    (forall s, In s (Jd.all_skills r) ->
       In s (List.map fst (Jd.load_skills_taxonomy taxonomy_file))).
Proof.
  unfold Jd.parse_job_description, Jd.parse_job_description_with.
  destruct (nonblank jd_text); cbn [negb].
  - unfold Jd.parse_body, Jd.module_steps.
    cbn [Jd.title_step Jd.skills_step Jd.classify_step Jd.experience_step
         Jd.education_step mbind result_bind try_except].
    eexists. split; [reflexivity|]. cbv zeta. cbn [Jd.all_skills
      Jd.required_skills Jd.preferred_skills].
    destruct (extract_skills_from_jd_skills
                (Jd.load_skills_taxonomy taxonomy_file) jd_text
                (load_skills_taxonomy_nodup taxonomy_file)) as [Hnd Hsub].
    repeat split; try assumption.
    + unfold Jd.classify_skill_requirements. rewrite List.map_map.
      cbn [Jd.classify_skill Jd.skill]. apply List.map_id.
    + rewrite filter_partition_length.
      unfold Jd.classify_skill_requirements. apply List.length_map.
  - exists Jd.empty_requirements. split; [reflexivity|].
    cbn. repeat split; try constructor. intros s [].
Qed.

(** *** Education level: patterns without word boundaries *)

Lemma orelse_some_r {A} (a b : option A) : b <> None -> Re.orelse a b <> None.
Proof. destruct a; simpl; [discriminate|tauto]. Qed.

(** A pattern that matches at some position of the subject is found by
    [search]. *)
Lemma search_from_found (r : Re.re) (pre suf : str) :
  (forall pv, Re.match_at r {| Re.prev := pv; Re.rest := suf;
                               Re.group1 := None |} <> None) ->
  forall (fuel : nat) (before : str) (pv : option N),
    (length pre <= fuel)%nat ->
    Re.search_from r fuel before
      {| Re.prev := pv; Re.rest := pre ++ suf; Re.group1 := None |} <> None.
Proof.
  intros Hm. induction pre as [|c pre IH]; intros fuel before pv Hf.
  - specialize (Hm pv). cbn [app].
    destruct fuel; cbn [Re.search_from];
      destruct (Re.match_at r _); try discriminate; contradiction.
  - destruct fuel as [|fuel]; [simpl in Hf; lia|].
    cbn [Re.search_from app Re.rest].
    destruct (Re.match_at r _); [discriminate|].
    apply IH. simpl in Hf. lia.
Qed.

Lemma search_found (r : Re.re) (pre suf : str) :
  (forall pv, Re.match_at r {| Re.prev := pv; Re.rest := suf;
                               Re.group1 := None |} <> None) ->
  Re.search r (pre ++ suf) = true.
Proof.
  intros Hm. unfold Re.search, Re.start_of.
  pose proof (search_from_found r pre suf Hm (length (pre ++ suf)) [] None) as H.
  destruct (Re.search_from _ _ _ _); [reflexivity|].
  exfalso. apply H; [|reflexivity]. rewrite length_app. lia.
Qed.

Lemma contains_split (s needle : str) :
  contains s needle = true ->
  exists pre suf, s = pre ++ suf /\ startswith suf needle = true.
Proof.
  induction s as [|c s IH]; simpl.
  - rewrite orb_false_r. intros H. exists [], []. split; [reflexivity|exact H].
  - intros H. apply orb_prop in H. destruct H as [H|H].
    + exists [], (c :: s). split; [reflexivity|exact H].
    + destruct (IH H) as (pre & suf & -> & Hs).
      exists (c :: pre), suf. split; [reflexivity|exact Hs].
Qed.

Lemma lower_split (text pre suf : str) :
  lower text = pre ++ suf ->
  exists pre' suf', text = pre' ++ suf' /\ lower suf' = suf.
Proof.
  intros H. exists (firstn (length pre) text), (skipn (length pre) text).
  split; [symmetry; apply List.firstn_skipn|].
  unfold lower in *. rewrite <- List.skipn_map, H.
  rewrite List.skipn_app, List.skipn_all, Nat.sub_diag. reflexivity.
Qed.

Lemma ieq_lower (c x : N) : lower_cp x = c -> lower_cp c = c -> Re.ieq c x = true.
Proof.
  intros Hx Hc. unfold Re.ieq. rewrite Hc.
  unfold lower_cp in Hx.
  destruct ((65 <=? x) && (x <=? 90))%N eqn:E.
  - assert (x = Re.upper_cp c) as ->.
    { unfold Re.upper_cp. subst c.
      apply andb_prop in E. destruct E as [E1 E2].
      apply N.leb_le in E1, E2.
      replace ((97 <=? x + 32) && (x + 32 <=? 122))%N with true.
      - lia.
      - symmetry. apply andb_true_intro. split; apply N.leb_le; lia. }
    rewrite N.eqb_refl, orb_true_r. reflexivity.
  - subst x. rewrite N.eqb_refl. reflexivity.
Qed.

(** [b\.?a\.?] matches wherever a [b] is followed by an [a], in either
    case. *)
Lemma abbrev_ba_matches (pv : option N) (c1 c2 : N) (s : str)
    (k : Re.pos -> option Re.pos) :
  lower_cp c1 = 98%N -> lower_cp c2 = 97%N ->
  (forall q, k q <> None) ->
  Re.run (Jd.abbrev 98 97)
    {| Re.prev := pv; Re.rest := c1 :: c2 :: s; Re.group1 := None |} k
  <> None.
Proof.
  intros H1 H2 Hk.
  assert (c2 <> 46%N) as Hd.
  { intros ->. vm_compute in H2. discriminate. }
  unfold Jd.abbrev, Re.ichr, Re.chr, Re.opt. cbn [Re.seq].
  cbn [Re.run Re.rest Re.advance Re.prev Re.group1 length].
  rewrite (ieq_lower 98 c1 H1 eq_refl).
  apply N.eqb_neq in Hd. rewrite N.eqb_sym in Hd. rewrite Hd.
  cbn [Re.orelse].
  rewrite (ieq_lower 97 c2 H2 eq_refl).
  destruct s as [|c3 s]; cbn [length]; [apply Hk|].
  apply orelse_some_r. apply Hk.
Qed.

(** A job description in which the letter [b] is followed by the letter
    [a], as in "database" or "based", is read as asking for a bachelor's
    degree: the patterns are searched without word boundaries and
    [b\.?a\.?] stands in the first alternative. *)
Theorem extract_education_requirements_ba (text : str) :
  contains (lower text) (u "ba") = true ->
  Jd.extract_education_requirements text = u "bachelor".
Proof.
  intros H. apply contains_split in H. destruct H as (pre & suf & Hs & Hst).
  apply lower_split in Hs. destruct Hs as (pre' & suf' & -> & <-).
  destruct suf' as [|c1 [|c2 s]]; try (simpl in Hst; discriminate).
  { simpl in Hst. rewrite andb_false_r in Hst. discriminate. }
  cbn [lower List.map startswith u] in Hst.
  change (startswith (lower_cp c1 :: lower_cp c2 :: List.map lower_cp s)
            [98%N; 97%N] = true) in Hst.
  cbn [startswith] in Hst.
  apply andb_prop in Hst. destruct Hst as [E1 Hst].
  apply andb_prop in Hst. destruct Hst as [E2 _].
  apply N.eqb_eq in E1, E2.
  unfold Jd.extract_education_requirements, Jd.education_patterns.
  cbn [List.find fst snd].
  rewrite search_found; [reflexivity|].
  intros pv. unfold Re.match_at. cbn [Re.alt Re.run].
  apply orelse_some_r. apply orelse_some_r.
  apply abbrev_ba_matches; [exact E1|exact E2|discriminate].
Qed.

Lemma extract_education_requirements_ba_witness :
  Jd.extract_education_requirements
    (u "Master's degree and database skills") = u "bachelor".
Proof.
  apply extract_education_requirements_ba. vm_compute. reflexivity.
Defined.

(** The level [extract_education_requirements] returns is one of six
    names, and each of them but "unspecified" is a key of the table of
    levels [calculate_education_score] reads. *)
Theorem extract_education_requirements_levels (text : str) :
  let level := Jd.extract_education_requirements text in
  In level [u "bachelor"; u "master"; u "phd"; u "associate";
            u "high_school"; u "unspecified"] /\
  (level = u "unspecified" \/ 1 <= Score.level_of level <= 5).
Proof.
  cbv zeta. unfold Jd.extract_education_requirements, Jd.education_patterns.
  cbn [List.find fst snd].
  repeat match goal with
         | |- context [if Re.search ?r text then _ else _] =>
             destruct (Re.search r text)
         end;
    (split; [simpl; tauto|]);
    first [ left; reflexivity | right; vm_compute; split; discriminate ].
Qed.

(** ** Compliance checks: how the checks depend on one another *)

Lemma count_from_in (fuel : nat) (s : str) (c : N) :
  0 < count_from fuel s [c] -> In c s.
Proof.
  revert s. induction fuel as [|fuel IH]; intros s H.
  - simpl in H. lia.
  - destruct s as [|x s]; [simpl in H; lia|].
    cbn [count_from] in H.
    destruct (startswith (x :: s) [c]) eqn:E.
    + cbn [startswith] in E. apply andb_prop in E. destruct E as [E _].
      apply N.eqb_eq in E. left. exact E.
    + right. apply IH. exact H.
Qed.

Lemma search_chr (f : N -> bool) (s : str) (c : N) :
  In c s -> f c = true -> Re.search (Re.Chr f) s = true.
Proof.
  intros Hin Hf. apply List.in_split in Hin. destruct Hin as (pre & suf & ->).
  apply search_found. intros pv. unfold Re.match_at.
  cbn [Re.run Re.rest Re.advance]. rewrite Hf. discriminate.
Qed.

Lemma warning_of (check : str -> Dto.ATSWarnings) (text w : str) :
  In check Lint.checks -> In w (Dto.warnings (check text)) ->
  In w (Dto.warnings (Lint.check_ats_compatibility text)).
Proof.
  intros Hc Hw. unfold Lint.check_ats_compatibility. cbn [Dto.warnings].
  apply List.in_flat_map. exists check. split; assumption.
Qed.

Lemma bullets_need_encoding_warning (text : str) :
  3 <= count text [8226%N] ->
  Dto.warnings (Lint.encoding_check text) = [Lint.non_standard_characters].
Proof.
  intros H. unfold Lint.encoding_check.
  rewrite (search_chr _ text 8226%N); [reflexivity| |reflexivity].
  apply (count_from_in (length text)). unfold count in H. lia.
Qed.

(** No text gets a report without a warning: fewer than three bullets
    or more than twenty-five draw the warning of the bullet check, and
    three bullets or more that of the encoding check, the bullet U+2022
    being a character beyond code point 127. *)
Theorem check_ats_compatibility_always_warns (text : str) :
  exists w,
    In w (Dto.warnings (Lint.check_ats_compatibility text)) /\
    In w [Lint.excessive_bullets; Lint.too_few_bullets; Lint.non_standard_characters].
Proof.
  destruct (25 <? count text [8226%N]) eqn:E1.
  - exists Lint.excessive_bullets. split; [|simpl; tauto].
    apply (warning_of Lint.bullets_check); [simpl; tauto|].
    unfold Lint.bullets_check. rewrite E1. left. reflexivity.
  - destruct (count text [8226%N] <? 3) eqn:E2.
    + exists Lint.too_few_bullets. split; [|simpl; tauto].
      apply (warning_of Lint.bullets_check); [simpl; tauto|].
      unfold Lint.bullets_check. rewrite E1, E2. left. reflexivity.
    + exists Lint.non_standard_characters. split; [|simpl; tauto].
      apply (warning_of Lint.encoding_check); [simpl; tauto|].
      rewrite bullets_need_encoding_warning; [left; reflexivity|].
      apply Z.ltb_ge in E2. exact E2.
Qed.

(** Unfolds the report into the contributions of the sixteen checks and
    leaves the one that can have produced the string in [H]. *)
Ltac which_check H :=
  unfold Lint.check_ats_compatibility in H;
  cbn [Dto.warnings Dto.passes Lint.checks List.flat_map] in H;
  repeat (apply in_app_or in H; destruct H as [H|H]);
  try (exfalso; exact H).

Ltac not_this_check H :=
  exfalso;
  repeat match type of H with
         | context [if ?c then _ else _] => destruct c
         end;
  simpl in H;
  repeat (destruct H as [H|H]; [vm_compute in H; discriminate|]);
  exact H.

Lemma appropriate_bullets_from (text : str) :
  In Lint.appropriate_bullets (Dto.passes (Lint.check_ats_compatibility text)) ->
  3 <= count text [8226%N].
Proof.
  intros H. which_check H.
  all: try (unfold Lint.layout_check, Lint.table_check, Lint.image_check,
              Lint.font_check, Lint.headers_check, Lint.length_check,
              Lint.numbers_check, Lint.verbs_check, Lint.encoding_check,
              Lint.visual_check, Lint.pronouns_check, Lint.skills_check,
              Lint.dates_check, Lint.education_check in H;
            not_this_check H).
  - unfold Lint.contact_check in H.
    destruct (Lint.check_contact_info_format text) as [ok issues].
    destruct ok; cbn [negb] in H; simpl in H.
    + destruct H as [H|[]]. vm_compute in H. discriminate.
    + destruct H.
  - unfold Lint.bullets_check in H.
    destruct (25 <? count text [8226%N]); [destruct H|].
    destruct (count text [8226%N] <? 3) eqn:E; [destruct H|].
    apply Z.ltb_ge in E. exact E.
Qed.

Lemma standard_encoding_from (text : str) :
  In Lint.standard_encoding (Dto.passes (Lint.check_ats_compatibility text)) ->
  Re.search (Re.Chr (fun c => (127 <? c)%N)) text = false.
Proof.
  intros H. which_check H.
  all: try (unfold Lint.layout_check, Lint.table_check, Lint.image_check,
              Lint.font_check, Lint.headers_check, Lint.length_check,
              Lint.numbers_check, Lint.verbs_check,
              Lint.bullets_check, Lint.visual_check, Lint.pronouns_check,
              Lint.skills_check, Lint.dates_check, Lint.education_check in H;
            not_this_check H).
  - unfold Lint.contact_check in H.
    destruct (Lint.check_contact_info_format text) as [ok issues].
    destruct ok; cbn [negb] in H; simpl in H.
    + destruct H as [H|[]]. vm_compute in H. discriminate.
    + destruct H.
  - unfold Lint.encoding_check in H.
    destruct (Re.search _ text); [destruct H|reflexivity].
Qed.

(** The pass "Appropriate use of bullet points" comes with the warning
    "Non-standard characters found", and never with the pass "Standard
    character encoding used". *)
Theorem appropriate_bullets_warn_encoding (text : str) :
  In Lint.appropriate_bullets (Dto.passes (Lint.check_ats_compatibility text)) ->
  In Lint.non_standard_characters
     (Dto.warnings (Lint.check_ats_compatibility text)) /\
  ~ In Lint.standard_encoding (Dto.passes (Lint.check_ats_compatibility text)).
Proof.
  intros H. apply appropriate_bullets_from in H.
  assert (Re.search (Re.Chr (fun c => (127 <? c)%N)) text = true) as Hs.
  { apply (search_chr _ text 8226%N); [|reflexivity].
    apply (count_from_in (length text)). unfold count in H. lia. }
  split.
  - apply (warning_of Lint.encoding_check); [simpl; tauto|].
    unfold Lint.encoding_check. rewrite Hs. left. reflexivity.
  - intros Hp. apply standard_encoding_from in Hp. congruence.
Qed.

Lemma low_text_density_from (text : str) :
  In Lint.low_text_density (Dto.warnings (Lint.check_ats_compatibility text)) ->
  len (split text) < 50.
Proof.
  intros H. which_check H.
  all: try (unfold Lint.layout_check, Lint.table_check,
              Lint.font_check, Lint.headers_check, Lint.length_check,
              Lint.numbers_check, Lint.verbs_check, Lint.encoding_check,
              Lint.bullets_check, Lint.visual_check, Lint.pronouns_check,
              Lint.skills_check, Lint.dates_check, Lint.education_check in H;
            not_this_check H).
  - unfold Lint.image_check, Lint.check_image_heavy_content in H.
    destruct (len (split text) <? 50) eqn:E; [|destruct H].
    apply Z.ltb_lt in E. exact E.
  - exfalso. unfold Lint.contact_check, Lint.check_contact_info_format in H.
    destruct (Re.search Lint.email_pattern text),
             (Re.search Lint.phone_pattern text);
      simpl in H;
      repeat (destruct H as [H|H]; [vm_compute in H; discriminate|]);
      exact H.
Qed.

(** A report that warns of low text density, fewer than 50 words, also
    warns that the resume is too short, fewer than 300 words. *)
Theorem low_text_density_is_too_short (text : str) :
  In Lint.low_text_density (Dto.warnings (Lint.check_ats_compatibility text)) ->
  In Lint.too_short (Dto.warnings (Lint.check_ats_compatibility text)).
Proof.
  intros H. apply low_text_density_from in H.
  apply (warning_of Lint.length_check); [simpl; tauto|].
  unfold Lint.length_check.
  destruct (Z.ltb_spec (len (split text)) 300); [left; reflexivity|lia].
Qed.

Lemma low_text_density_is_too_short_witness :
  In Lint.too_short
     (Dto.warnings (Lint.check_ats_compatibility (u "Jane Doe, engineer"))).
Proof.
  apply (low_text_density_is_too_short (u "Jane Doe, engineer")).
  vm_compute. tauto.
Defined.

Lemma appropriate_bullets_warn_encoding_witness :
  In Lint.non_standard_characters
     (Dto.warnings (Lint.check_ats_compatibility Examples.three_bullets)).
Proof.
  apply (appropriate_bullets_warn_encoding Examples.three_bullets).
  vm_compute. tauto.
Defined.
